(** * ZRA Digital Fortress: the fraud risk scoring engine

    A shallow embedding of
    - [ai_engine/ml_models/fraud_detector.py]  (class [FraudDetector]),
    - [ai_engine/ml_models/advanced_fraud_detector.py]
      (class [AdvancedFraudDetector]),
    - [ai_engine/optimization/performance_monitor.py]
      (class [PerformanceMonitor]),
    - [ai_engine/optimization/cache_manager.py]  (class [CacheManager]),
      and
    - [ai_engine/views_optimized.py]
      (class [OptimizedFraudDetectionAPI]),
    followed by the properties of the scoring engine and of the cached
    endpoint built on it.

    Conventions of the embedding.
    - Python numbers ([int] and [float]) are exact, finite rationals [Q];
      rounding of binary floating point is not modelled by the main
      development, and an [int] is not told apart from a [float] of the
      same value.  A property that depends on either carries the range
      of amounts on which Python computes exactly as a hypothesis (see
      [amount_limit]), or is stated on binary64 floats: the boundary
      cases named by the properties are re-checked in [Binary64], and
      the deduction-ratio check, whose lowest threshold is a float sum,
      is modelled there in full.  The only transcendental function of
      the code, [np.log1p], is kept symbolic (see [feat]).
    - A filing is a Python [dict] with string keys: [gmap string pyval].
      Its values are dynamically typed ([pyval]); an operation applied to
      a value of the wrong type raises, as it does in Python.
    - Exceptions are explicit: [exc A] is either a result or a raised
      exception, and [try ... except Exception] is [try_except].
    - The fitted scaler and classifier of scikit-learn are fields of the
      detector object, of which nothing is assumed.
    - Calls to [logger] have no effect on results and are left out. *)

From Stdlib Require Import Ascii String QArith Qabs Qround Lqa ZArith Lia.
From Stdlib Require PrimFloat Floats.
From stdpp Require Import base option gmap strings list pretty.

(** ** Python values, exceptions and operators *)

Module Py.

(** The JSON values a filing field can hold: [null], a number, a string.
    (Booleans, arrays and objects as field values are not modelled.) *)
Inductive pyval : Type :=
| PyNone
| PyNum (q : Q)
| PyStr (s : string).

(** The exception classes (all subclasses of [Exception]) that the
    modelled operations, and the calls into scikit-learn, can raise. *)
Inductive exn : Type :=
| TypeError
| AttributeError
| ZeroDivisionError
| KeyError
| ValueError.

Inductive exc (A : Type) : Type :=
| Ok (a : A)
| Raise (e : exn).
Arguments Ok {A} a.
Arguments Raise {A} e.

(** Sequencing: an exception raised by [m] skips [k]. *)
Definition bind {A B} (m : exc A) (k : A → exc B) : exc B :=
  match m with Ok a => k a | Raise e => Raise e end.

Notation "x <- m ;; k" := (bind m (λ x, k))
  (at level 100, m at next level, right associativity).

(** [try: m  except Exception as e: h e] *)
Definition try_except {A} (m : exc A) (h : exn → A) : A :=
  match m with Ok a => a | Raise e => h e end.

#[global] Instance Q_inhabited : Inhabited Q := populate 0%Q.

(** [d.get(k, dflt)] *)
Definition dict_get {V} (d : gmap string V) (k : string) (dflt : V) : V :=
  default dflt (d !! k).

(** [d[k]] *)
Definition dict_getitem {V} (d : gmap string V) (k : string) : exc V :=
  match d !! k with Some v => Ok v | None => Raise KeyError end.

(** A value used as an operand of [<], [>], [-], [/], [%] against a
    number: anything but a number raises [TypeError]. *)
Definition py_num (v : pyval) : exc Q :=
  match v with PyNum q => Ok q | _ => Raise TypeError end.

Definition Qltb (x y : Q) : bool := negb (Qle_bool y x).

(** [a > b] and [a < b] for a numeric [b]. *)
Definition py_gt (a : pyval) (b : Q) : exc bool :=
  x <- py_num a ;; Ok (Qltb b x).
Definition py_lt (a : pyval) (b : Q) : exc bool :=
  x <- py_num a ;; Ok (Qltb x b).

(** [a - b] *)
Definition py_sub (a b : pyval) : exc Q :=
  x <- py_num a ;; y <- py_num b ;; Ok (x - y)%Q.

(** [a / b]: true division; a zero divisor raises. *)
Definition py_truediv (a b : pyval) : exc Q :=
  x <- py_num a ;; y <- py_num b ;;
  if Qeq_bool y 0 then Raise ZeroDivisionError else Ok (x / y)%Q.

(** [a % m] for a positive modulus [m]: the result has the sign of [m].
    A string on the left is Python's formatting operator; with an integer
    on the right it raises [TypeError] or [ValueError], or returns a
    string when the text is a format accepting one argument.  In both
    modelled callers a string operand ends in an exception either way
    (the next subtraction raises [TypeError]), so the formatting case is
    folded into one raise; its class stands for any of these. *)
Definition py_mod (a : pyval) (m : Q) : exc Q :=
  x <- py_num a ;; Ok (x - m * inject_Z (Qfloor (x / m)))%Q.

(** [abs(x)] *)
Definition py_abs (x : Q) : Q := Qabs x.

(** [np.mean(l)] of a non-empty list of numbers. *)
Definition Qsum (l : list Q) : Q := foldr Qplus 0%Q l.
Definition np_mean (l : list Q) : Q := (Qsum l / inject_Z (Z.of_nat (length l)))%Q.

(** [bool(v)]: truthiness. *)
Definition py_truthy (v : pyval) : bool :=
  match v with
  | PyNone => false
  | PyNum q => negb (Qeq_bool q 0)
  | PyStr s => negb (String.eqb s "")
  end.

(** *** Strings *)

Definition ascii_lower (c : ascii) : ascii :=
  let n := Ascii.N_of_ascii c in
  if ((65 <=? n) && (n <=? 90))%N then Ascii.ascii_of_N (n + 32) else c.

(** [s.lower()], on ASCII letters. *)
Fixpoint str_lower (s : string) : string :=
  match s with
  | EmptyString => EmptyString
  | String c r => String (ascii_lower c) (str_lower r)
  end.

(** [v.lower()]: only strings have the method. *)
Definition py_lower (v : pyval) : exc string :=
  match v with PyStr s => Ok (str_lower s) | _ => Raise AttributeError end.

(** [sub in s] *)
Fixpoint str_contains (sub s : string) : bool :=
  String.prefix sub s ||
  match s with
  | EmptyString => false
  | String _ r => str_contains sub r
  end.

(** *** Number formatting in f-strings *)

(** Round a non-negative rational to the nearest integer, ties to even. *)
Definition round_half_even (q : Q) : Z :=
  let f := Qfloor q in
  match (q - inject_Z f ?= 1 # 2)%Q with
  | Lt => f
  | Gt => (f + 1)%Z
  | Eq => if Z.even f then f else (f + 1)%Z
  end.

Definition pad3 (n : N) : string :=
  (if (n <? 10)%N then "00" else if (n <? 100)%N then "0" else "") +:+ pretty n.

Fixpoint group_thousands (fuel : nat) (n : N) : string :=
  match fuel with
  | O => pretty n
  | S fuel' =>
      if (n <? 1000)%N then pretty n
      else group_thousands fuel' (n / 1000)%N +:+ "," +:+ pad3 (n mod 1000)%N
  end.

Definition sign_of (q : Q) : string := if Qltb q 0 then "-" else "".

(** [f"{q:,.0f}"] *)
Definition fmt_comma_0f (q : Q) : string :=
  let n := Z.to_N (round_half_even (Qabs q)) in
  sign_of q +:+ group_thousands (N.to_nat (N.log2 n)) n.

(** [f"{q:.1%}"] *)
Definition fmt_pct_1 (q : Q) : string :=
  let t := Z.to_N (round_half_even (Qabs (q * 100) * 10)) in
  sign_of q +:+ pretty (t / 10)%N +:+ "." +:+ pretty (t mod 10)%N +:+ "%".

End Py.
Import Py.


(** A filing, and each entry of a history, is a [dict] from field names
    to JSON values. *)
Abbreviation filing := (gmap string pyval).

(** [[f.get('income', 0) for f in history if f.get('income', 0) > 0]]:
    the list comprehension both detectors apply to the history.  The
    comparison raises on the first entry whose income is not a number. *)
Fixpoint positive_incomes (history : list filing) : exc (list Q) :=
  match history with
  | [] => Ok []
  | f :: rest =>
      let v := dict_get f "income" (PyNum 0) in
      keep <- py_gt v 0 ;;
      if keep then
        q <- py_num v ;; tl <- positive_incomes rest ;; Ok (q :: tl)
      else positive_incomes rest
  end.

(** ** [fraud_detector.py]: the rule-based analyzer *)

Module FraudDetector.
Local Open Scope Q_scope.

(** The [{'risk': ..., 'reason': ...}] result of one check. *)
Record finding : Type := Finding { risk : Q; reason : string }.

Definition no_finding : finding := {| risk := 0; reason := "" |}.

Record sector_data : Type :=
  SectorData { sd_income_ratio : Q; sd_deduction_ratio : Q }.

#[global] Instance sector_data_inhabited : Inhabited sector_data :=
  populate (SectorData 0 0).

(** [__init__]: the two tables of the detector. *)
Definition industry_averages : gmap string sector_data :=
  list_to_map
    [ ("retail", SectorData 1.0 0.35);
      ("manufacturing", SectorData 1.0 0.28);
      ("services", SectorData 1.0 0.42);
      ("construction", SectorData 1.0 0.38);
      ("agriculture", SectorData 1.0 0.32) ].

Definition risk_weights : gmap string Q :=
  list_to_map
    [ ("income_deviation", 0.3);
      ("deduction_ratio", 0.25);
      ("historical_inconsistency", 0.2);
      ("round_numbers", 0.15);
      ("unusual_timing", 0.1) ].

(** [_check_industry_deviation(income, business_sector, history)] *)
Definition _check_industry_deviation
    (income : pyval) (business_sector : string)
    (history : option (list filing)) : exc finding :=
  very_low <- py_lt income 10000 ;;
  if very_low then
    shown <- py_num income ;;
    Ok {| risk := 0.8;
          reason := "Income (ZMW " +:+ fmt_comma_0f shown
                    +:+ ") significantly below typical "
                    +:+ business_sector +:+ " business levels" |}
  else
    low <- py_lt income 25000 ;;
    if low then
      Ok {| risk := 0.4;
            reason := "Income below average for "
                      +:+ business_sector +:+ " sector" |}
    else Ok no_finding.

(** [_check_deduction_ratio(deduction_ratio, business_sector)] *)
Definition _check_deduction_ratio
    (deduction_ratio : Q) (business_sector : string) : finding :=
  let sector_data :=
    dict_get industry_averages business_sector
             (industry_averages !!! "services") in
  let typical_ratio := sd_deduction_ratio sector_data in
  if Qltb 0.7 deduction_ratio then
    {| risk := 0.9;
       reason := "Deductions represent " +:+ fmt_pct_1 deduction_ratio
                 +:+ " of income (typical: " +:+ fmt_pct_1 typical_ratio
                 +:+ ")" |}
  else if Qltb 0.5 deduction_ratio then
    {| risk := 0.6;
       reason := "High deduction ratio (" +:+ fmt_pct_1 deduction_ratio
                 +:+ ") compared to industry average ("
                 +:+ fmt_pct_1 typical_ratio +:+ ")" |}
  else if Qltb (typical_ratio + 0.1) deduction_ratio then
    {| risk := 0.3;
       reason := "Above average deduction ratio for "
                 +:+ business_sector +:+ " sector" |}
  else no_finding.

(** [_check_historical_consistency(current_filing, history)] *)
Definition _check_historical_consistency
    (current_filing : filing) (history : list filing) : exc finding :=
  match history with
  | [] => Ok no_finding
  | _ =>
      let current_income := dict_get current_filing "income" (PyNum 0) in
      historical_incomes <- positive_incomes history ;;
      match historical_incomes with
      | [] => Ok no_finding
      | _ =>
          let avg_historical := np_mean historical_incomes in
          if Qltb 0 avg_historical then
            diff <- py_sub current_income (PyNum avg_historical) ;;
            deviation <- py_truediv (PyNum (py_abs diff)) (PyNum avg_historical) ;;
            if Qltb 0.5 deviation then
              Ok {| risk := 0.7;
                    reason := "Income deviates " +:+ fmt_pct_1 deviation
                              +:+ " from historical average" |}
            else if Qltb 0.3 deviation then
              Ok {| risk := 0.4;
                    reason := "Significant income change from historical pattern" |}
            else Ok no_finding
          else Ok no_finding
      end
  end.

(** [is_round_number(num)]: [num % 1000 == 0 or num % 5000 == 0] *)
Definition is_round_number (num : pyval) : exc bool :=
  r1 <- py_mod num 1000 ;;
  if Qeq_bool r1 0 then Ok true
  else r5 <- py_mod num 5000 ;; Ok (Qeq_bool r5 0).

(** [sum([b1, b2, b3])] of booleans. *)
Definition count_true (l : list bool) : nat := length (filter (λ b, b = true) l).

(** [_check_round_numbers(income, deductions, taxable_income)] *)
Definition _check_round_numbers
    (income deductions taxable_income : pyval) : exc finding :=
  b1 <- is_round_number income ;;
  b2 <- is_round_number deductions ;;
  b3 <- is_round_number taxable_income ;;
  let round_count := count_true [b1; b2; b3] in
  if (2 <=? round_count)%nat then
    Ok {| risk := 0.5;
          reason := "Multiple round numbers suggest estimated figures" |}
  else if (round_count =? 1)%nat then
    Ok {| risk := 0.2; reason := "Some figures appear rounded" |}
  else Ok no_finding.

Definition timing_finding : finding :=
  {| risk := 0.3; reason := "Unusual filing timing pattern" |}.

(** [_check_filing_timing(tax_period)].  The body of its [try] either
    returns the finding or falls through; the bare [except: pass] turns
    any exception into falling through. *)
Definition _check_filing_timing (tax_period : pyval) : finding :=
  let body : exc (option finding) :=
    if py_truthy tax_period then
      l1 <- py_lower tax_period ;;
      if str_contains "early" l1 then Ok (Some timing_finding)
      else
        l2 <- py_lower tax_period ;;
        if str_contains "delay" l2 then Ok (Some timing_finding)
        else Ok None
    else Ok None in
  default no_finding (try_except body (λ _, None)).

(** [_get_risk_level(risk_score)] *)
Definition _get_risk_level (risk_score : Q) : string :=
  if Qle_bool 0.7 risk_score then "HIGH"
  else if Qle_bool 0.4 risk_score then "MEDIUM"
  else "LOW".

Definition base_recommendations : gmap string string :=
  list_to_map
    [ ("LOW", "Standard processing - no additional review required");
      ("MEDIUM", "Consider automated verification checks");
      ("HIGH", "Manual review recommended - request supporting documents") ].

(** [any(w in factor.lower() for factor in risk_factors)] *)
Definition any_mentions (w : string) (risk_factors : list string) : bool :=
  existsb (λ factor, str_contains w (str_lower factor)) risk_factors.

(** [_generate_recommendations(risk_level, risk_factors)] *)
Definition _generate_recommendations
    (risk_level : string) (risk_factors : list string) : string :=
  let recommendation :=
    dict_get base_recommendations risk_level "Review required" in
  let recommendation :=
    if any_mentions "deduction" risk_factors
    then recommendation +:+ " | Verify deduction documentation"
    else recommendation in
  let recommendation :=
    if any_mentions "income" risk_factors
    then recommendation +:+ " | Cross-reference with third-party data"
    else recommendation in
  recommendation.

(** The [detailed_analysis] entry: the breakdown on the normal path,
    [{'error': str(e)}] on the error path. *)
Record breakdown : Type := Breakdown {
  fb_income_deviation : Q;
  fb_deduction_ratio : Q;
  fb_historical_inconsistency : Q;
  fb_round_numbers : Q;
  fb_unusual_timing : Q }.

Inductive details : Type :=
| Details (da_deduction_ratio : Q) (da_taxable_income : Q)
          (da_industry_comparison : finding) (da_factors_breakdown : breakdown)
| DetailsError (error : exn).

(** The dictionary returned by [analyze]. *)
Record assessment : Type := Assessment {
  score : Q;
  level : string;
  factors : list string;
  recommendation : string;
  confidence : Q;
  detailed_analysis : details }.

(** [if r['risk'] > 0: risk_factors.append(r['reason']);
     risk_score += r['risk'] * self.risk_weights[name]]
    on the pair [(risk_factors, risk_score)]. *)
Definition record_finding (name : string) (r : finding)
    (acc : list string * Q) : list string * Q :=
  if Qltb 0 (risk r)
  then (acc.1 ++ [reason r], acc.2 + risk r * (risk_weights !!! name))
  else acc.

(** [if taxpayer_history:] — [None] and the empty list are false. *)
Definition history_given (taxpayer_history : option (list filing)) : bool :=
  match taxpayer_history with
  | Some (_ :: _) => true
  | _ => false
  end.

(** The body of the [try] block of [analyze]. *)
Definition analyze_body
    (filing_data : filing) (taxpayer_history : option (list filing))
    : exc assessment :=
  let income := dict_get filing_data "income" (PyNum 0) in
  let deductions := dict_get filing_data "deductions" (PyNum 0) in
  business_sector <-
    py_lower (dict_get filing_data "business_sector" (PyStr "services")) ;;
  let tax_period := dict_get filing_data "tax_period" (PyStr "") in
  deduction_ratio <-
    (positive <- py_gt income 0 ;;
     if positive then py_truediv deductions income else Ok 0) ;;
  taxable_income <- py_sub income deductions ;;
  let acc : list string * Q := ([], 0) in
  (* 1. income deviation *)
  industry_risk <-
    _check_industry_deviation income business_sector taxpayer_history ;;
  let acc := record_finding "income_deviation" industry_risk acc in
  (* 2. deduction ratio *)
  let deduction_risk := _check_deduction_ratio deduction_ratio business_sector in
  let acc := record_finding "deduction_ratio" deduction_risk acc in
  (* 3. historical consistency *)
  history_risk <-
    (if history_given taxpayer_history
     then _check_historical_consistency filing_data (default [] taxpayer_history)
     else Ok no_finding) ;;
  let acc :=
    if history_given taxpayer_history
    then record_finding "historical_inconsistency" history_risk acc
    else acc in
  (* 4. round numbers *)
  round_risk <- _check_round_numbers income deductions (PyNum taxable_income) ;;
  let acc := record_finding "round_numbers" round_risk acc in
  (* 5. timing *)
  let timing_risk := _check_filing_timing tax_period in
  let acc := record_finding "unusual_timing" timing_risk acc in
  let risk_factors := acc.1 in
  (* min(risk_score, 1.0) *)
  let risk_score := if Qltb 1 acc.2 then 1 else acc.2 in
  let risk_level := _get_risk_level risk_score in
  let recommendations := _generate_recommendations risk_level risk_factors in
  (* max(0.7, 1.0 - len(risk_factors) * 0.05) *)
  let c := 1 - inject_Z (Z.of_nat (length risk_factors)) * 0.05 in
  let confidence := if Qltb 0.7 c then c else 0.7 in
  Ok {| score := risk_score;
        level := risk_level;
        factors := risk_factors;
        recommendation := recommendations;
        confidence := confidence;
        detailed_analysis :=
          Details deduction_ratio taxable_income industry_risk
            {| fb_income_deviation := risk industry_risk;
               fb_deduction_ratio := risk deduction_risk;
               fb_historical_inconsistency :=
                 if history_given taxpayer_history then risk history_risk else 0;
               fb_round_numbers := risk round_risk;
               fb_unusual_timing := risk timing_risk |} |}.

(** The [except Exception as e:] branch of [analyze]. *)
Definition analysis_error (e : exn) : assessment :=
  {| score := 0;
     level := "LOW";
     factors := ["Analysis error"];
     recommendation := "Manual review required due to analysis error";
     confidence := 0;
     detailed_analysis := DetailsError e |}.

(** [analyze(filing_data, taxpayer_history=None)] *)
Definition analyze
    (filing_data : filing) (taxpayer_history : option (list filing))
    : assessment :=
  try_except (analyze_body filing_data taxpayer_history) analysis_error.

End FraudDetector.


(** ** [advanced_fraud_detector.py]: feature extractor, statistical
    estimator and ensemble combiner *)

Module AdvancedFraudDetector.
Local Open Scope Q_scope.

(** One slot of the feature vector: a number computed by rational
    arithmetic, or [np.log1p] of one, kept symbolic. *)
Inductive feat : Type :=
| FNum (q : Q)
| FLog1p (q : Q).

(** NumPy: [log1p(x)] is finite for [x > -1], [-inf] at [x = -1] and
    [nan] below. *)
Definition feat_finite (x : feat) : bool :=
  match x with
  | FNum _ => true
  | FLog1p q => Qltb (-1) q
  end.

(** [np.log1p(v)]: the ufunc rejects [None] and strings.  (It also
    rejects a Python [int] beyond 64 bits, which is not told apart from
    a [float] here: see [amount_limit].) *)
Definition np_log1p (v : pyval) : exc feat :=
  q <- py_num v ;; Ok (FLog1p q).

(** The detector object.  The fitted scaler and classifier come from
    scikit-learn; they are the fields of [self] the methods call. *)
Record detector : Type := Detector {
  model_path : string;
  scaled : Type;
  scaler_transform : list feat → exc scaled;
  ml_predict_proba : scaled → exc (Q * Q);
  ml_feature_importances : list Q }.

Definition feature_names : list string :=
  [ "income"; "deductions"; "deduction_ratio"; "income_industry_deviation";
    "historical_income_change"; "round_number_count"; "filing_timing_score" ].

(** The sector table local to [extract_features]. *)
Definition industry_averages : gmap string Q :=
  list_to_map [ ("retail", 50000); ("services", 60000); ("manufacturing", 70000) ].

(** [industry_averages.get(business_sector, 50000)]: a key that is not
    a string is not in the table. *)
Definition industry_avg_of (business_sector : pyval) : Q :=
  match business_sector with
  | PyStr s => dict_get industry_averages s 50000
  | _ => 50000
  end.

(** [is_round_number(num)], the nested function of [extract_features]. *)
Definition is_round_number (num : pyval) : exc bool :=
  r1 <- py_mod num 1000 ;;
  if Qeq_bool r1 0 then Ok true
  else r5 <- py_mod num 5000 ;; Ok (Qeq_bool r5 0).

Definition count_true (l : list bool) : nat := length (filter (λ b, b = true) l).

(** [extract_features(self, filing_data, taxpayer_history=None)] *)
Definition extract_features
    (self : detector) (filing_data : filing)
    (taxpayer_history : option (list filing)) : exc (list feat) :=
  let income := dict_get filing_data "income" (PyNum 0) in
  let deductions := dict_get filing_data "deductions" (PyNum 0) in
  let business_sector := dict_get filing_data "business_sector" (PyStr "services") in
  deduction_ratio <-
    (positive <- py_gt income 0 ;;
     if positive then py_truediv deductions income else Ok 0) ;;
  let industry_avg := industry_avg_of business_sector in
  income_industry_deviation <-
    (if Qltb 0 industry_avg
     then d <- py_sub income (PyNum industry_avg) ;;
          py_truediv (PyNum d) (PyNum industry_avg)
     else Ok 0) ;;
  historical_income_change <-
    match taxpayer_history with
    | Some ((_ :: _) as history) =>
        prev_incomes <- positive_incomes history ;;
        match prev_incomes with
        | [] => Ok 0
        | _ =>
            let avg_historical := np_mean prev_incomes in
            if Qltb 0 avg_historical
            then d <- py_sub income (PyNum avg_historical) ;;
                 py_truediv (PyNum d) (PyNum avg_historical)
            else Ok 0
        end
    | _ => Ok 0
    end ;;
  b1 <- is_round_number income ;;
  b2 <- is_round_number deductions ;;
  taxable <- py_sub income deductions ;;
  b3 <- is_round_number (PyNum taxable) ;;
  let round_number_count := count_true [b1; b2; b3] in
  let filing_timing_score := 0.1 in
  log_income <- np_log1p income ;;
  log_deductions <- np_log1p deductions ;;
  Ok [ log_income;
       log_deductions;
       FNum deduction_ratio;
       FNum income_industry_deviation;
       FNum historical_income_change;
       FNum (inject_Z (Z.of_nat round_number_count));
       FNum filing_timing_score ].

(** The values stored in the result dictionaries. *)
Inductive outval : Type :=
| ONum (q : Q)
| OBool (b : bool)
| OError (e : exn)                (* [str(e)] *)
| ODict (m : gmap string Q).

Definition out_num (v : outval) : exc Q :=
  match v with ONum q => Ok q | _ => Raise TypeError end.

(** [np.max] of the two class probabilities. *)
Definition np_max2 (p : Q * Q) : Q := if Qltb p.1 p.2 then p.2 else p.1.

(** The body of the [try] block of [predict]. *)
Definition predict_body
    (self : detector) (filing_data : filing)
    (taxpayer_history : option (list filing)) : exc (gmap string outval) :=
  features <- extract_features self filing_data taxpayer_history ;;
  features_scaled <- scaler_transform self features ;;
  proba <- ml_predict_proba self features_scaled ;;
  let fraud_probability := proba.2 in
  let feature_importance : gmap string Q :=
    list_to_map (zip feature_names (ml_feature_importances self)) in
  proba_again <- ml_predict_proba self features_scaled ;;
  Ok (list_to_map
        [ ("fraud_probability", ONum fraud_probability);
          ("prediction", OBool (Qltb 0.5 fraud_probability));
          ("feature_importance", ODict feature_importance);
          ("model_confidence", ONum (np_max2 proba_again)) ]).

(** The [except Exception as e:] branch of [predict]. *)
Definition prediction_error (e : exn) : gmap string outval :=
  list_to_map
    [ ("fraud_probability", ONum 0);
      ("prediction", OBool false);
      ("feature_importance", ODict ∅);
      ("model_confidence", ONum 0);
      ("error", OError e) ].

(** [predict(self, filing_data, taxpayer_history=None)] *)
Definition predict
    (self : detector) (filing_data : filing)
    (taxpayer_history : option (list filing)) : gmap string outval :=
  try_except (predict_body self filing_data taxpayer_history) prediction_error.

(** [ensemble_predict(self, filing_data, taxpayer_history=None,
    rule_based_score=0.0)].  It has no [try]: a missing key or a
    non-numeric probability in [ml_result] would propagate. *)
Definition ensemble_predict
    (self : detector) (filing_data : filing)
    (taxpayer_history : option (list filing)) (rule_based_score : Q)
    : exc (gmap string outval) :=
  let ml_result := predict self filing_data taxpayer_history in
  let ml_weight := 0.7 in
  let rule_weight := 0.3 in
  fraud_probability <-
    (v <- dict_getitem ml_result "fraud_probability" ;; out_num v) ;;
  let ensemble_score :=
    fraud_probability * ml_weight + rule_based_score * rule_weight in
  ml_score <- dict_getitem ml_result "fraud_probability" ;;
  ml_confidence <- dict_getitem ml_result "model_confidence" ;;
  feature_importance <- dict_getitem ml_result "feature_importance" ;;
  Ok (list_to_map
        [ ("ensemble_score", ONum ensemble_score);
          ("ml_score", ml_score);
          ("rule_based_score", ONum rule_based_score);
          ("final_prediction", OBool (Qltb 0.6 ensemble_score));
          ("ml_confidence", ml_confidence);
          ("feature_importance", feature_importance) ]).

End AdvancedFraudDetector.

(** ** The scalar arithmetic in IEEE 754 binary64

    The lines of the code whose boundary cases are named by the
    properties, evaluated as Python evaluates them, on binary64 floats.
    They serve to check that the boundary cases fall the same way as
    over the rationals.  [_check_deduction_ratio] is modelled here in
    full: its lowest threshold is the float sum [typical_ratio + 0.1],
    which is not the decimal sum. *)

Module Binary64.
Import PrimFloat SpecFloat FloatOps.
Set Warnings "-inexact-float".
Local Open Scope float_scope.

(** [fraud_probability * ml_weight + rule_based_score * rule_weight] *)
Definition ensemble_score (fraud_probability rule_based_score : float) : float :=
  fraud_probability * 0.7 + rule_based_score * 0.3.

(** [ensemble_score > 0.6] *)
Definition final_prediction (fraud_probability rule_based_score : float) : bool :=
  ltb 0.6 (ensemble_score fraud_probability rule_based_score).

(** [_get_risk_level(risk_score)] *)
Definition _get_risk_level (risk_score : float) : string :=
  if leb 0.7 risk_score then "HIGH"
  else if leb 0.4 risk_score then "MEDIUM"
  else "LOW".

(** A small count as a float (exact: every step adds 1.0). *)
Definition float_of_count (n : nat) : float := Nat.iter n (λ x, x + 1.0) 0.0.

(** [max(0.7, 1.0 - (len(risk_factors) * 0.05))] *)
Definition confidence (factor_count : nat) : float :=
  let c := 1.0 - float_of_count factor_count * 0.05 in
  if ltb 0.7 c then c else 0.7.

(** [risk_score += risk * weight] over a list of (risk, weight) pairs,
    from 0.0, then [min(risk_score, 1.0)]. *)
Definition aggregate (contributions : list (float * float)) : float :=
  let total := foldl (λ acc rw, acc + rw.1 * rw.2) 0.0 contributions in
  if ltb 1.0 total then 1.0 else total.

(** The [{'risk': ..., 'reason': ...}] result of one check, with the
    risk as the float it is. *)
Record finding : Type := Finding { risk : float; reason : string }.

Definition no_finding : finding := {| risk := 0.0; reason := "" |}.

Record sector_data : Type :=
  SectorData { sd_income_ratio : float; sd_deduction_ratio : float }.

#[global] Instance sector_data_inhabited : Inhabited sector_data :=
  populate (SectorData 0.0 0.0).

(** [self.industry_averages], the float literals as Python reads them. *)
Definition industry_averages : gmap string sector_data :=
  list_to_map
    [ ("retail", SectorData 1.0 0.35);
      ("manufacturing", SectorData 1.0 0.28);
      ("services", SectorData 1.0 0.42);
      ("construction", SectorData 1.0 0.38);
      ("agriculture", SectorData 1.0 0.32) ].

(** [f"{x:.1%}"] for a float: the product [x * 100] is rounded to
    binary64, then its exact value is printed with one decimal, ties to
    even. *)
Definition fmt_pct_1 (x : float) : string :=
  let sign (s : bool) : string := if s then "-" else "" in
  match Prim2SF (x * 100) with
  | S754_nan => "nan%"
  | S754_infinity s => sign s +:+ "inf%"
  | S754_zero s => sign s +:+ "0.0%"
  | S754_finite s m e =>
      let t := Z.to_N (round_half_even
                         (Qmult (Qmult (inject_Z (Z.pos m)) (Qpower 2 e)) 10)) in
      sign s +:+ pretty (t / 10)%N +:+ "." +:+ pretty (t mod 10)%N +:+ "%"
  end.

(** [_check_deduction_ratio(deduction_ratio, business_sector)] on
    floats: the three comparisons, and the sum [typical_ratio + 0.1], are
    the binary64 operations.  (The [int] 0 that [analyze] passes for a
    filing without positive income compares as the float 0.0.) *)
Definition _check_deduction_ratio
    (deduction_ratio : float) (business_sector : string) : finding :=
  let sector_data :=
    default (industry_averages !!! "services")
            (industry_averages !! business_sector) in
  let typical_ratio := sd_deduction_ratio sector_data in
  if 0.7 <? deduction_ratio then
    {| risk := 0.9;
       reason := "Deductions represent " +:+ fmt_pct_1 deduction_ratio
                 +:+ " of income (typical: " +:+ fmt_pct_1 typical_ratio
                 +:+ ")" |}
  else if 0.5 <? deduction_ratio then
    {| risk := 0.6;
       reason := "High deduction ratio (" +:+ fmt_pct_1 deduction_ratio
                 +:+ ") compared to industry average ("
                 +:+ fmt_pct_1 typical_ratio +:+ ")" |}
  else if typical_ratio + 0.1 <? deduction_ratio then
    {| risk := 0.3;
       reason := "Above average deduction ratio for "
                 +:+ business_sector +:+ " sector" |}
  else no_finding.

End Binary64.

Module AFD := AdvancedFraudDetector.
Import FraudDetector.
Local Open Scope Q_scope.

(** ** [optimization/performance_monitor.py]

    The clock and the system probes ([time.time], [datetime.now],
    [psutil], the database connection) are read by the caller and passed
    in; times and timestamps are rationals, in seconds. *)

Module PerformanceMonitor.
Local Open Scope Q_scope.

(** One entry of [metrics['response_times']]. *)
Record response_record : Type := ResponseRecord {
  rr_endpoint : string;
  rr_response_time : Q;
  rr_timestamp : Q }.

(** The monitor object: [self.metrics] and [self.start_time]. *)
Record monitor : Type := Monitor {
  response_times : list response_record;
  memory_usage : list Q;
  database_queries : list Q;
  cache_hits : Z;
  cache_misses : Z;
  start_time : Q }.

(** [__init__], at clock reading [now]. *)
Definition __init__ (now : Q) : monitor :=
  {| response_times := []; memory_usage := []; database_queries := [];
     cache_hits := 0; cache_misses := 0; start_time := now |}.

Definition set_response_times (self : monitor) (l : list response_record) : monitor :=
  {| response_times := l;
     memory_usage := memory_usage self;
     database_queries := database_queries self;
     cache_hits := cache_hits self;
     cache_misses := cache_misses self;
     start_time := start_time self |}.

(** [l[-n:]] for a positive [n]: the last [n] elements, or all of [l]. *)
Definition last_n {A} (n : nat) (l : list A) : list A := drop (length l - n) l.

(** [track_response_time(self, endpoint, response_time)]; [now] is the
    reading of [datetime.now()]. *)
Definition track_response_time
    (self : monitor) (endpoint : string) (response_time now : Q) : monitor :=
  let appended :=
    response_times self
    ++ [ {| rr_endpoint := endpoint; rr_response_time := response_time;
            rr_timestamp := now |} ] in
  if (1000 <? length appended)%nat
  then set_response_times self (last_n 1000 appended)
  else set_response_times self appended.

(** [record_cache_hit(self)] *)
Definition record_cache_hit (self : monitor) : monitor :=
  {| response_times := response_times self;
     memory_usage := memory_usage self;
     database_queries := database_queries self;
     cache_hits := cache_hits self + 1;
     cache_misses := cache_misses self;
     start_time := start_time self |}.

(** [record_cache_miss(self)] *)
Definition record_cache_miss (self : monitor) : monitor :=
  {| response_times := response_times self;
     memory_usage := memory_usage self;
     database_queries := database_queries self;
     cache_hits := cache_hits self;
     cache_misses := cache_misses self + 1;
     start_time := start_time self |}.

(** [_calculate_cache_hit_rate(self)] *)
Definition _calculate_cache_hit_rate (self : monitor) : Q :=
  let total := (cache_hits self + cache_misses self)%Z in
  if (0 <? total)%Z then inject_Z (cache_hits self) / inject_Z total else 0.

(** A number or [float('inf')]. *)
Inductive xnum : Type :=
| Inf
| Fin (q : Q).

(** [min(m, x)] for a finite [x]: the first argument unless the second
    is smaller. *)
Definition py_min_x (m : xnum) (x : Q) : xnum :=
  match m with
  | Inf => Fin x
  | Fin a => if Qltb x a then Fin x else Fin a
  end.

(** [max(m, x)]: the first argument unless the second is larger. *)
Definition py_max (m x : Q) : Q := if Qltb m x then x else m.

(** The per-endpoint dictionary built by the first loop of
    [_get_endpoint_metrics]. *)
Record endpoint_stats : Type := EndpointStats {
  count : Z;
  total_time : Q;
  min_time : xnum;
  max_time : Q }.

Definition fresh_stats : endpoint_stats :=
  {| count := 0; total_time := 0; min_time := Inf; max_time := 0 |}.

(** The body of the first loop, for one response. *)
Definition add_response (acc : gmap string endpoint_stats) (response : response_record)
    : gmap string endpoint_stats :=
  let endpoint := rr_endpoint response in
  let metrics := default fresh_stats (acc !! endpoint) in
  <[endpoint :=
      {| count := count metrics + 1;
         total_time := total_time metrics + rr_response_time response;
         min_time := py_min_x (min_time metrics) (rr_response_time response);
         max_time := py_max (max_time metrics) (rr_response_time response) |}]> acc.

(** The entries after the second loop: the statistics and
    [avg_time = total_time / count]. *)
Record endpoint_metrics : Type := EndpointMetrics {
  stats : endpoint_stats;
  avg_time : Q }.

(** [_get_endpoint_metrics(self)]: over the last 100 responses. *)
Definition _get_endpoint_metrics (self : monitor) : gmap string endpoint_metrics :=
  let collected := foldl add_response ∅ (last_n 100 (response_times self)) in
  (λ s, {| stats := s; avg_time := total_time s / inject_Z (count s) |}) <$> collected.

(** The three methods the views call on the shared monitor, and a
    monitor driven through a sequence of such calls. *)
Inductive call : Type :=
| CallHit
| CallMiss
| CallTrack (endpoint : string) (response_time now : Q).

Definition apply_call (self : monitor) (c : call) : monitor :=
  match c with
  | CallHit => record_cache_hit self
  | CallMiss => record_cache_miss self
  | CallTrack endpoint response_time now =>
      track_response_time self endpoint response_time now
  end.

Definition after_calls (self : monitor) (calls : list call) : monitor :=
  foldl apply_call self calls.

Definition is_track (c : call) : bool :=
  match c with CallTrack _ _ _ => true | _ => false end.
Definition is_hit (c : call) : bool :=
  match c with CallHit => true | _ => false end.
Definition is_miss (c : call) : bool :=
  match c with CallMiss => true | _ => false end.

(** The responses of one endpoint among a list of records, and their
    times. *)
Definition responses_of (endpoint : string) (l : list response_record)
    : list response_record :=
  List.filter (λ r, String.eqb (rr_endpoint r) endpoint) l.

Definition times_of (l : list response_record) : list Q :=
  List.map rr_response_time l.

End PerformanceMonitor.

(** ** [optimization/cache_manager.py]

    Django's cache is a store from keys to values with a time-out; its
    content at the moment of a request is a finite map.  The store
    serialises a value when it is set, so a later assignment to the
    cached dictionary does not reach the stored copy.  The back end is
    taken to work (no exception from [cache.get] or [cache.set]), and
    the expiry of entries between two requests is not modelled.  The
    digest of the canonical JSON text of a filing,
    [hashlib.md5(json.dumps(data, sort_keys=True).encode()).hexdigest()],
    is a parameter [data_hash]. *)

Module CacheManager.

(** [generate_cache_key(self, prefix, data)] *)
Definition generate_cache_key (data_hash : filing → string)
    (prefix : string) (data : filing) : string :=
  prefix +:+ ":" +:+ data_hash data.

(** [cache.set(key, value, timeout)] and [cache.get(key)] on the content
    of the store. *)
Definition cache_set {V} (store : gmap string (V * Z))
    (key : string) (value : V) (timeout : Z) : gmap string (V * Z) :=
  <[key := (value, timeout)]> store.

Definition cache_get {V} (store : gmap string (V * Z)) (key : string) : option V :=
  fst <$> store !! key.

(** [cache_analysis_result(self, filing_data, analysis_result)]: the new
    store and the key returned. *)
Definition cache_analysis_result {V} (data_hash : filing → string)
    (store : gmap string (V * Z)) (filing_data : filing) (analysis_result : V)
    : gmap string (V * Z) * string :=
  let cache_key := generate_cache_key data_hash "fraud_analysis" filing_data in
  (cache_set store cache_key analysis_result 86400, cache_key).

(** [get_cached_analysis(self, filing_data)] *)
Definition get_cached_analysis {V} (data_hash : filing → string)
    (store : gmap string (V * Z)) (filing_data : filing) : option V :=
  cache_get store (generate_cache_key data_hash "fraud_analysis" filing_data).

End CacheManager.

(** ** [views_optimized.py]: the cached fraud-detection endpoint *)

Module OptimizedFraudDetectionAPI.
Local Open Scope Q_scope.

(** The values of a response body. *)
Inductive rval : Type :=
| RBool (b : bool)
| RInt (z : Z)
| RStr (s : string)
| ROut (v : AFD.outval).       (* a value passed through from the detector *)

Record response : Type := Response {
  status : Z;
  body : gmap string rval }.

(** The request body: [request.data], with [filing_data] a JSON object
    of numbers, strings and nulls and [taxpayer_history] a list of such
    objects.  An absent [taxpayer_history] is read as [{}], which the
    detector treats like [None] (both are falsy): it is [None] here. *)
Record request : Type := Request {
  req_filing_data : option filing;
  req_taxpayer_history : option (list filing) }.

(** [bool(d)] for a dictionary. *)
Definition dict_truthy {V} (d : gmap string V) : bool := negb (size d =? 0)%nat.

(** [int(x)]: truncation toward zero. *)
Definition py_int (x : Q) : Z :=
  if Qltb x 0 then Qceiling x else Qfloor x.

(** [_get_risk_level(self, score)] *)
Definition _get_risk_level (score : AFD.outval) : exc string :=
  s <- AFD.out_num score ;;
  Ok (if Qle_bool 0.7 s then "HIGH"
      else if Qle_bool 0.4 s then "MEDIUM"
      else "LOW").

(** [_get_recommendation(self, score)] *)
Definition _get_recommendation (score : AFD.outval) : exc string :=
  s <- AFD.out_num score ;;
  Ok (if Qle_bool 0.7 s
      then "Immediate manual review required - high fraud probability"
      else if Qle_bool 0.4 s
      then "Enhanced verification recommended - moderate risk"
      else "Standard processing - low risk detected").

(** The three shared objects the view works on. *)
Record services : Type := Services {
  detector : AFD.detector;
  cache : gmap string (gmap string rval * Z);
  monitor : PerformanceMonitor.monitor }.

(** The three clock readings of one call: [time.time()] on entry,
    [time.time()] when the response time is taken, and
    [datetime.now()] inside the monitor. *)
Record clock : Type := Clock {
  t_start : Q;
  t_end : Q;
  t_stamp : Q }.

(** The statements of the [try] block after a cache miss, up to the
    response body that is cached. *)
Definition analysis_body (self : AFD.detector)
    (filing_data : filing) (taxpayer_history : option (list filing))
    : exc (gmap string rval) :=
  let ml_result := AFD.predict self filing_data taxpayer_history in
  fraud_probability <-
    (v <- dict_getitem ml_result "fraud_probability" ;; AFD.out_num v) ;;
  ensemble_result <-
    AFD.ensemble_predict self filing_data taxpayer_history fraud_probability ;;
  risk_score <- dict_getitem ensemble_result "ensemble_score" ;;
  risk_level <- _get_risk_level risk_score ;;
  ml_confidence <- dict_getitem ensemble_result "ml_confidence" ;;
  feature_importance <- dict_getitem ensemble_result "feature_importance" ;;
  recommendation <- _get_recommendation risk_score ;;
  Ok (list_to_map
        [ ("success", RBool true);
          ("cached", RBool false);
          ("risk_score", ROut risk_score);
          ("risk_level", RStr risk_level);
          ("ml_confidence", ROut ml_confidence);
          ("feature_importance", ROut feature_importance);
          ("analysis_method", RStr "advanced_ensemble");
          ("recommendation", RStr recommendation) ]).

(** [post(self, request)]: the response and the state of the shared
    objects after the call. *)
Definition post (data_hash : filing → string)
    (sv : services) (req : request) (clk : clock) : response * services :=
  let endpoint_name := "fraud_detection" in
  let filing_data := default ∅ (req_filing_data req) in
  let taxpayer_history := req_taxpayer_history req in
  let response_time := t_end clk - t_start clk in
  let processing_time_ms := RInt (py_int (response_time * 1000)) in
  let track m :=
    PerformanceMonitor.track_response_time
      m endpoint_name response_time (t_stamp clk) in
  (* the path taken when nothing usable is cached *)
  let on_miss : response * services :=
    let missed := PerformanceMonitor.record_cache_miss (monitor sv) in
    match analysis_body (detector sv) filing_data taxpayer_history with
    | Ok response_data =>
        let stored :=
          (CacheManager.cache_analysis_result
             data_hash (cache sv) filing_data response_data).1 in
        ({| status := 200;
            body := <["processing_time_ms" := processing_time_ms]> response_data |},
         {| detector := detector sv; cache := stored; monitor := track missed |})
    | Raise e =>
        (* except Exception as e *)
        ({| status := 500;
            body := list_to_map
                      [ ("success", RBool false);
                        ("error", RStr "Analysis failed");
                        ("details", ROut (AFD.OError e));
                        ("processing_time_ms", processing_time_ms) ] |},
         {| detector := detector sv; cache := cache sv; monitor := track missed |})
    end in
  match CacheManager.get_cached_analysis data_hash (cache sv) filing_data with
  | Some cached_result =>
      if dict_truthy cached_result then
        let hit := PerformanceMonitor.record_cache_hit (monitor sv) in
        (* {'success': True, 'cached': True, **cached_result,
            'processing_time_ms': ...}: later entries win *)
        ({| status := 200;
            body := <["processing_time_ms" := processing_time_ms]>
                      (cached_result
                       ∪ <["cached" := RBool true]> (<["success" := RBool true]> ∅)) |},
         {| detector := detector sv; cache := cache sv; monitor := track hit |})
      else on_miss
  | None => on_miss
  end.

End OptimizedFraudDetectionAPI.

Module PM := PerformanceMonitor.
Module CM := CacheManager.
Module OV := OptimizedFraudDetectionAPI.

(** ** Concrete inputs used below *)

(** The "High Risk Filing" scenario of [final_validation.py]. *)
Definition high_risk_filing : filing :=
  <["income" := PyNum 10000]>
    (<["deductions" := PyNum 8000]>
       (<["business_sector" := PyStr "retail"]> ∅)).

(** The "Low Risk Filing" scenario of [final_validation.py]. *)
Definition low_risk_filing : filing :=
  <["income" := PyNum 50000]>
    (<["deductions" := PyNum 15000]>
       (<["business_sector" := PyStr "services"]> ∅)).

(** A filing whose income is not a number. *)
Definition malformed_filing : filing :=
  <["income" := PyStr "n/a"]> (<["deductions" := PyNum 100]> ∅).

(** A detector whose scaler is the identity and whose classifier answers
    the class probabilities [(1 - p, p)] on every input. *)
Definition constant_detector (p : Q) : AFD.detector :=
  {| AFD.model_path := "ai_engine/ml_models/saved_models/";
     AFD.scaled := list AFD.feat;
     AFD.scaler_transform := λ features, Ok features;
     AFD.ml_predict_proba := λ _, Ok (1 - p, p);
     AFD.ml_feature_importances := [0.2; 0.1; 0.3; 0.1; 0.1; 0.1; 0.1] |}.

(** A filing labelled as submitted early. *)
Definition early_filing : filing :=
  <["income" := PyNum 52340]>
    (<["deductions" := PyNum 11250]>
       (<["business_sector" := PyStr "services"]>
          (<["tax_period" := PyStr "2024-Q1-EARLY"]> ∅))).

(** The marker test of [_check_filing_timing]:
    ["early" in tax_period.lower() or "delay" in tax_period.lower()]. *)
Definition has_timing_marker (tax_period : string) : bool :=
  str_contains "early" (str_lower tax_period)
  || str_contains "delay" (str_lower tax_period).

(** One prior filing, as in [integration_tests/test_utils.py]. *)
Definition one_prior_filing : list filing :=
  [ <["income" := PyNum 42000]>
      (<["deductions" := PyNum 28000]>
         (<["tax_period" := PyStr "2023-Q4"]> ∅)) ].

(** A filing reporting no income. *)
Definition zero_income_filing : filing :=
  <["income" := PyNum 0]>
    (<["deductions" := PyNum 500]>
       (<["business_sector" := PyStr "retail"]> ∅)).

(** A filing reporting a negative income. *)
Definition negative_income_filing : filing :=
  <["income" := PyNum (-2)]> (<["deductions" := PyNum 0]> ∅).

(** A computation that does not end in [ZeroDivisionError]: no division
    it evaluates has a zero divisor. *)
Definition no_zero_division {A} (m : exc A) : Prop :=
  m ≠ Raise ZeroDivisionError.

(** A detector whose scaler rejects a feature vector holding NaN or an
    infinity with [ValueError].  (This is a stricter validation than
    scikit-learn's [StandardScaler], which rejects infinities and lets
    NaN through.) *)
Definition strict_detector (p : Q) : AFD.detector :=
  {| AFD.model_path := "ai_engine/ml_models/saved_models/";
     AFD.scaled := list AFD.feat;
     AFD.scaler_transform := λ features,
       if forallb AFD.feat_finite features then Ok features else Raise ValueError;
     AFD.ml_predict_proba := λ _, Ok (1 - p, p);
     AFD.ml_feature_importances := [0.2; 0.1; 0.3; 0.1; 0.1; 0.1; 0.1] |}.

(** A result dictionary of [predict] or [ensemble_predict] carries the
    error marker when it has an ['error'] entry. *)
Definition degraded (d : gmap string AFD.outval) : Prop := is_Some (d !! "error").

(** ** Further inputs and notions used by the later properties *)

(** A filing on which every check of the rule-based analyzer fires at
    its highest tier, together with [doubled_income_history]. *)
Definition all_checks_filing : filing :=
  <["income" := PyNum 9000]>
    (<["deductions" := PyNum 8000]>
       (<["business_sector" := PyStr "Retail"]>
          (<["tax_period" := PyStr "2024-Q2 (delayed)"]> ∅))).

Definition doubled_income_history : list filing :=
  [ <["income" := PyNum 20000]> ∅; <["income" := PyNum 0]> ∅ ].

(** [q] is an integer multiple of 1000. *)
Definition multiple_of_1000 (q : Q) : Prop :=
  ∃ k : Z, q == inject_Z (1000 * k).

(** The income of an entry of a history is a number (or absent). *)
Definition numeric_income (f : filing) : Prop :=
  ∃ q, dict_get f "income" (PyNum 0) = PyNum q.

(** A computation whose only possible exception is [e0]. *)
Definition raises_only {A} (e0 : exn) (m : exc A) : Prop :=
  ∀ e, m = Raise e → e = e0.

(** The magnitude up to which the embedding's exact arithmetic and
    Python's agree on what raises and on whole amounts: below it no
    conversion of an [int] to a [float] overflows, NumPy accepts the
    value, and sums and differences of integers are exact in binary64
    ([2 * 10^15 < 2^53]). *)
Definition amount_limit : Q := 1000000000000000.

(** A field value that is no number, or a number within the limit. *)
Definition amount_in_range (v : pyval) : bool :=
  match v with
  | PyNum q => Qle_bool (Qabs q) amount_limit
  | _ => true
  end.

(** The amounts both detectors read: income and deductions of the
    filing, and the incomes of the history. *)
Definition amounts_in_range (f : filing) (h : option (list filing)) : bool :=
  amount_in_range (dict_get f "income" (PyNum 0))
  && amount_in_range (dict_get f "deductions" (PyNum 0))
  && forallb (λ g, amount_in_range (dict_get g "income" (PyNum 0)))
             (default [] h).

(** A whole amount: an integer within the limit.  On whole amounts
    [-] and [%] are exact in Python, for an [int] and for a [float]. *)
Definition whole_amount (q : Q) : bool :=
  Qeq_bool q (inject_Z (Qfloor q)) && Qle_bool (Qabs q) amount_limit.

(** ** Inputs for the properties of the endpoint *)

(** A stand-in for the MD5 digest, enough to tell the example filings
    apart. *)
Definition toy_digest (f : filing) : string :=
  match f !! "income" with
  | Some (PyNum q) => pretty (Qnum q)
  | _ => "none"
  end.

(** The shared objects at start-up: empty cache, fresh monitor. *)
Definition fresh_services (self : AFD.detector) : OptimizedFraudDetectionAPI.services :=
  {| OptimizedFraudDetectionAPI.detector := self;
     OptimizedFraudDetectionAPI.cache := ∅;
     OptimizedFraudDetectionAPI.monitor := PerformanceMonitor.__init__ 0 |}.

Definition request_of (f : filing) (h : option (list filing))
    : OptimizedFraudDetectionAPI.request :=
  {| OptimizedFraudDetectionAPI.req_filing_data := Some f;
     OptimizedFraudDetectionAPI.req_taxpayer_history := h |}.

Definition clock_of (t0 t1 : Q) : OptimizedFraudDetectionAPI.clock :=
  {| OptimizedFraudDetectionAPI.t_start := t0;
     OptimizedFraudDetectionAPI.t_end := t1;
     OptimizedFraudDetectionAPI.t_stamp := t1 |}.

(** The shared objects with one answer already stored for a filing. *)
Definition warm_services (self : AFD.detector) (f : filing)
    (answer : gmap string OptimizedFraudDetectionAPI.rval)
    : OptimizedFraudDetectionAPI.services :=
  {| OptimizedFraudDetectionAPI.detector := self;
     OptimizedFraudDetectionAPI.cache :=
       (CacheManager.cache_analysis_result toy_digest ∅ f answer).1;
     OptimizedFraudDetectionAPI.monitor := PerformanceMonitor.__init__ 0 |}.

(** ** Comparisons on rationals *)

Lemma Qltb_lt (x y : Q) : Qltb x y = true ↔ x < y.
Proof.
  unfold Qltb. rewrite negb_true_iff.
  split.
  - intros H. apply Qnot_le_lt. intros Hle.
    apply Qle_bool_iff in Hle. congruence.
  - intros H. destruct (Qle_bool y x) eqn:E; [|reflexivity].
    apply Qle_bool_iff in E. lra.
Qed.

Lemma Qltb_ge (x y : Q) : Qltb x y = false ↔ y <= x.
Proof.
  unfold Qltb. rewrite negb_false_iff. apply Qle_bool_iff.
Qed.

Lemma Qle_bool_gt (x y : Q) : Qle_bool x y = false ↔ y < x.
Proof.
  split.
  - intros H. apply Qnot_le_lt. intros Hle.
    apply Qle_bool_iff in Hle. congruence.
  - intros H. destruct (Qle_bool x y) eqn:E; [|reflexivity].
    apply Qle_bool_iff in E. lra.
Qed.

(** Case analysis on a strict comparison, leaving the order fact. *)
Ltac case_Qltb x y :=
  let E := fresh "E" in
  destruct (Qltb x y) eqn:E;
  [apply Qltb_lt in E | apply Qltb_ge in E].

(** ** The risk level tiers *)

(** C4.  The level is LOW exactly below 0.4, MEDIUM exactly on
    [0.4, 0.7) and HIGH exactly from 0.7 on; the four boundary scores
    0.3999, 0.4, 0.6999 and 0.7 fall as LOW, MEDIUM, MEDIUM, HIGH. *)
Theorem risk_level_tiers (s : Q) :
  (_get_risk_level s = "LOW" ↔ s < 0.4) ∧
  (_get_risk_level s = "MEDIUM" ↔ 0.4 <= s ∧ s < 0.7) ∧
  (_get_risk_level s = "HIGH" ↔ 0.7 <= s) ∧
  _get_risk_level 0.3999 = "LOW" ∧
  _get_risk_level 0.4 = "MEDIUM" ∧
  _get_risk_level 0.6999 = "MEDIUM" ∧
  _get_risk_level 0.7 = "HIGH".
Proof.
  unfold _get_risk_level.
  destruct (Qle_bool 0.7 s) eqn:E7; destruct (Qle_bool 0.4 s) eqn:E4;
    try apply Qle_bool_iff in E7; try apply Qle_bool_iff in E4;
    try apply Qle_bool_gt in E7; try apply Qle_bool_gt in E4;
    repeat split; intros; try discriminate; try reflexivity; try lra.
Qed.

(** ** The deduction-ratio check *)

(** The typical deduction ratio the check compares against: the entry of
    the sector, or the one of "services" for an unknown sector. *)
Lemma typical_ratio_cases (sector : string) :
  let t := sd_deduction_ratio
             (dict_get industry_averages sector (industry_averages !!! "services")) in
  t = 0.35 ∨ t = 0.28 ∨ t = 0.42 ∨ t = 0.38 ∨ t = 0.32.
Proof.
  unfold dict_get, industry_averages. simpl.
  repeat (rewrite lookup_insert; case_decide; [simpl; tauto|]).
  rewrite lookup_empty. simpl. vm_compute. tauto.
Qed.

(** ** Sequencing *)

Lemma bind_Ok {A B} (m : exc A) (k : A → exc B) (b : B) :
  bind m k = Ok b → ∃ a, m = Ok a ∧ k a = Ok b.
Proof. destruct m as [a|e]; simpl; [eauto | discriminate]. Qed.

Lemma bind_Raise {A B} (m : exc A) (k : A → exc B) (e : exn) :
  bind m k = Raise e → m = Raise e ∨ ∃ a, m = Ok a ∧ k a = Raise e.
Proof. destruct m as [a|e']; simpl; [eauto | intros [= ->]; auto]. Qed.

(** Peel the leading binds of a computation known to return. *)
Ltac bind_inv H :=
  repeat (let a := fresh "v" in let E := fresh "Ev" in
          apply bind_Ok in H; destruct H as (a & E & H)).

(** ** The assessment of a successful analysis *)

Lemma record_finding_length (name : string) (r : finding) (acc : list string * Q) :
  (length (record_finding name r acc).1 <= S (length acc.1))%nat.
Proof.
  unfold record_finding. destruct (Qltb 0 (risk r)); simpl.
  - rewrite length_app. simpl. lia.
  - lia.
Qed.

(** The five checks append at most one factor each. *)
Lemma analyze_body_factors (f : filing) (h : option (list filing)) (a : assessment) :
  analyze_body f h = Ok a →
  (length (factors a) <= 5)%nat ∧
  confidence a =
    (let c := 1 - inject_Z (Z.of_nat (length (factors a))) * 0.05 in
     if Qltb 0.7 c then c else 0.7).
Proof.
  unfold analyze_body. intros H. bind_inv H.
  injection H as <-. simpl. split; [|reflexivity].
  destruct (history_given h);
    repeat match goal with
    | |- context [record_finding ?n ?r ?acc] =>
        pose proof (record_finding_length n r acc);
        generalize dependent (record_finding n r acc); intros
    | H : context [record_finding ?n ?r ?acc] |- _ =>
        pose proof (record_finding_length n r acc);
        generalize dependent (record_finding n r acc); intros
    end; simpl in *; lia.
Qed.

Lemma confidence_above_floor (n : nat) :
  (n <= 5)%nat →
  let c := 1 - inject_Z (Z.of_nat n) * 0.05 in
  Qltb 0.7 c = true ∧ 0.75 <= c ∧ c <= 1.
Proof.
  intros Hn.
  do 6 (destruct n as [|n]; [vm_compute; intuition discriminate|]).
  lia.
Qed.

(** C10.  A call of [analyze] that takes the normal path appends at most
    five risk factors, so its confidence is [1 - 0.05 * factor count]
    itself (the 0.7 floor of the [max] is never selected) and lies in
    [0.75, 1]; a confidence below 0.75 is returned only by the error
    path, where it is 0. *)
Theorem analyze_confidence_range (f : filing) (h : option (list filing)) :
  (∀ a, analyze_body f h = Ok a →
        analyze f h = a ∧
        (length (factors a) <= 5)%nat ∧
        confidence a = 1 - inject_Z (Z.of_nat (length (factors a))) * 0.05 ∧
        0.7 < confidence a ∧
        0.75 <= confidence a ∧ confidence a <= 1) ∧
  (confidence (analyze f h) < 0.75 →
   ∃ e, analyze_body f h = Raise e ∧ analyze f h = analysis_error e ∧
        confidence (analyze f h) = 0).
Proof.
  assert (Hok : ∀ a, analyze_body f h = Ok a →
        (length (factors a) <= 5)%nat ∧
        confidence a = 1 - inject_Z (Z.of_nat (length (factors a))) * 0.05 ∧
        0.7 < confidence a ∧
        0.75 <= confidence a ∧ confidence a <= 1).
  { intros a Ha. destruct (analyze_body_factors f h a Ha) as [Hlen Hconf].
    destruct (confidence_above_floor _ Hlen) as (Hsel & Hlo & Hhi).
    cbv zeta in Hconf. rewrite Hsel in Hconf. rewrite Hconf.
    repeat split; try assumption. lra. }
  split.
  - intros a Ha. split; [|auto].
    unfold analyze. rewrite Ha. reflexivity.
  - intros Hlow. unfold analyze in *.
    destruct (analyze_body f h) as [a|e] eqn:Ha; simpl in *.
    + destruct (Hok a eq_refl) as (_ & _ & _ & Hlo & _). lra.
    + exists e. auto.
Qed.

(** The normal path of C10 on the high-risk scenario: three factors,
    confidence 0.85. *)
Lemma analyze_confidence_range_witness :
  (length (factors (analyze high_risk_filing None)) <= 5)%nat ∧
  0.75 <= confidence (analyze high_risk_filing None).
Proof.
  destruct (analyze_confidence_range high_risk_filing None) as [Hok _].
  destruct (Hok (analyze high_risk_filing None)) as (_ & Hlen & _ & _ & Hlo & _).
  - vm_compute. reflexivity.
  - split; assumption.
Defined.

(** ** The error path of [analyze] *)

(** C8.  [analyze] returns an assessment on every input (its result type
    has no exception).  Whenever a step of its body raises, the
    assessment returned is the degraded one: score 0, level LOW,
    confidence 0, and the recommendation carrying the manual-review
    note. *)
Theorem analyze_degrades_on_error
    (f : filing) (h : option (list filing)) (e : exn) :
  analyze_body f h = Raise e →
  analyze f h = analysis_error e ∧
  score (analyze f h) = 0 ∧
  level (analyze f h) = "LOW" ∧
  confidence (analyze f h) = 0 ∧
  recommendation (analyze f h) = "Manual review required due to analysis error" ∧
  str_contains "Manual review required" (recommendation (analyze f h)) = true ∧
  detailed_analysis (analyze f h) = DetailsError e.
Proof.
  intros H. unfold analyze. rewrite H. simpl.
  repeat split; reflexivity.
Qed.

(** The error path is taken: an income that is not a number makes the
    first comparison raise [TypeError]. *)
Lemma analyze_degrades_on_error_witness :
  analyze_body malformed_filing None = Raise TypeError ∧
  analyze malformed_filing None = analysis_error TypeError.
Proof.
  assert (H : analyze_body malformed_filing None = Raise TypeError)
    by (vm_compute; reflexivity).
  split; [exact H|].
  exact (proj1 (analyze_degrades_on_error malformed_filing None TypeError H)).
Defined.

(** ** The statistical estimator and the ensemble combiner *)

(** The entries [ensemble_predict] reads are present in every result of
    [predict], on both of its paths. *)
Lemma predict_entries
    (self : AFD.detector) (f : filing) (h : option (list filing)) :
  ∃ p c fi,
    AFD.predict self f h !! "fraud_probability" = Some (AFD.ONum p) ∧
    AFD.predict self f h !! "model_confidence" = Some (AFD.ONum c) ∧
    AFD.predict self f h !! "feature_importance" = Some (AFD.ODict fi).
Proof.
  unfold AFD.predict.
  destruct (AFD.predict_body self f h) as [d|e] eqn:Hb; simpl.
  - unfold AFD.predict_body in Hb. bind_inv Hb. injection Hb as <-.
    do 3 eexists. repeat split; reflexivity.
  - do 3 eexists. repeat split; reflexivity.
Qed.

(** The error marker is present exactly on the error path of [predict],
    together with the zero probability and the zero confidence. *)
Lemma predict_degraded_iff
    (self : AFD.detector) (f : filing) (h : option (list filing)) :
  degraded (AFD.predict self f h) ↔
  ∃ e, AFD.predict_body self f h = Raise e ∧
       AFD.predict self f h = AFD.prediction_error e.
Proof.
  unfold degraded, AFD.predict.
  destruct (AFD.predict_body self f h) as [d|e] eqn:Hb; simpl.
  - split.
    + unfold AFD.predict_body in Hb. bind_inv Hb. injection Hb as <-.
      intros [x Hx]. vm_compute in Hx. discriminate.
    + intros (e & He & _). discriminate.
  - split; [eauto|]. intros _. eexists. reflexivity.
Qed.

(** C1.  [ensemble_predict] returns; its [ensemble_score] is
    [0.7 * p + 0.3 * r] for the estimator probability [p] (also passed
    through as [ml_score]) and the rule score [r], hence within 1e-9 of
    it; [final_prediction] is true iff the score is strictly above 0.6,
    so false at exactly 0.6; and for [p] and [r] in [0, 1] the score is
    in [0, 1] without clamping. *)
Theorem ensemble_score_weighted
    (self : AFD.detector) (f : filing) (h : option (list filing)) (r : Q) :
  ∃ p d s b,
    AFD.predict self f h !! "fraud_probability" = Some (AFD.ONum p) ∧
    AFD.ensemble_predict self f h r = Ok d ∧
    d !! "ml_score" = Some (AFD.ONum p) ∧
    d !! "rule_based_score" = Some (AFD.ONum r) ∧
    d !! "ensemble_score" = Some (AFD.ONum s) ∧
    d !! "final_prediction" = Some (AFD.OBool b) ∧
    s == 0.7 * p + 0.3 * r ∧
    Qabs (s - (0.7 * p + 0.3 * r)) <= 0.000000001 ∧
    (b = true ↔ 0.6 < s) ∧
    (s == 0.6 → b = false) ∧
    (0 <= p ∧ p <= 1 → 0 <= r ∧ r <= 1 → 0 <= s ∧ s <= 1).
Proof.
  destruct (predict_entries self f h) as (p & c & fi & Hp & Hc & Hfi).
  pose (s := p * 0.7 + r * 0.3).
  assert (He : AFD.ensemble_predict self f h r =
               Ok (list_to_map
                     [ ("ensemble_score", AFD.ONum s);
                       ("ml_score", AFD.ONum p);
                       ("rule_based_score", AFD.ONum r);
                       ("final_prediction", AFD.OBool (Qltb 0.6 s));
                       ("ml_confidence", AFD.ONum c);
                       ("feature_importance", AFD.ODict fi) ])).
  { unfold AFD.ensemble_predict, dict_getitem.
    rewrite Hp, Hc, Hfi. reflexivity. }
  exists p. eexists. exists s, (Qltb 0.6 s).
  split; [exact Hp|]. split; [exact He|].
  do 4 (split; [reflexivity|]).
  assert (Hs : s == 0.7 * p + 0.3 * r) by (unfold s; ring).
  split; [exact Hs|].
  split.
  { apply Qabs_Qle_condition. split; lra. }
  split; [apply Qltb_lt|].
  split.
  { intros H6. apply Qltb_ge. lra. }
  intros [? ?] [? ?]. split; lra.
Qed.

(** C1 at the boundary: probability 0.6 and rule score 0.6 give the
    ensemble score 0.6 exactly, which is in range and not flagged. *)
Lemma ensemble_score_weighted_witness :
  ∃ d s,
    AFD.ensemble_predict (constant_detector 0.6) high_risk_filing None 0.6 = Ok d ∧
    d !! "ensemble_score" = Some (AFD.ONum s) ∧ s == 0.6 ∧ 0 <= s ∧ s <= 1 ∧
    d !! "final_prediction" = Some (AFD.OBool false).
Proof.
  destruct (ensemble_score_weighted (constant_detector 0.6) high_risk_filing None 0.6)
    as (p & d & s & b & Hp & He & _ & _ & Hs & Hb & Heq & _ & _ & Hflag & Hrange).
  vm_compute in Hp. injection Hp as <-.
  assert (H6 : s == 0.6) by (rewrite Heq; reflexivity).
  exists d, s. split; [exact He|]. split; [exact Hs|]. split; [exact H6|].
  destruct Hrange as [Hlo Hhi]; [split; discriminate | split; discriminate |].
  split; [exact Hlo|]. split; [exact Hhi|].
  rewrite Hb. rewrite (Hflag H6). reflexivity.
Defined.

(** Just above the boundary the filing is flagged. *)
Example ensemble_flag_above_boundary :
  ∃ d, AFD.ensemble_predict (constant_detector 0.60001) high_risk_filing None 0.60001 = Ok d ∧
       d !! "final_prediction" = Some (AFD.OBool true).
Proof. eexists. split; vm_compute; reflexivity. Qed.

(** C2, as stated, fails.  On a filing whose income is not a number
    [predict] degrades (zero probability, zero confidence, error
    marker), and [ensemble_predict] returns an ordinary result without
    any error marker. *)
Lemma ensemble_drops_error_marker :
  degraded (AFD.predict (constant_detector 0.9) malformed_filing None) ∧
  AFD.predict (constant_detector 0.9) malformed_filing None
    = AFD.prediction_error TypeError ∧
  ∃ d, AFD.ensemble_predict (constant_detector 0.9) malformed_filing None 0.5 = Ok d ∧
       ¬ degraded d.
Proof.
  split; [exists (AFD.OError TypeError); vm_compute; reflexivity|].
  split; [vm_compute; reflexivity|].
  eexists. split; [vm_compute; reflexivity|].
  intros [x Hx]. vm_compute in Hx. discriminate.
Qed.

(** The same happens when the estimator itself fails, here with a
    scaler that validates its input: the income -2 puts a NaN into the
    feature vector, this scaler rejects it, [predict] degrades, and the
    ensemble result is 0.3 times the rule score with no marker. *)
Example ensemble_after_scaler_failure :
  AFD.predict (strict_detector 0.9) negative_income_filing None
    = AFD.prediction_error ValueError ∧
  ∃ d s, AFD.ensemble_predict (strict_detector 0.9) negative_income_filing None 1 = Ok d ∧
         d !! "ensemble_score" = Some (AFD.ONum s) ∧ s == 0.3 ∧
         d !! "final_prediction" = Some (AFD.OBool false) ∧
         d !! "error" = None.
Proof.
  split; [vm_compute; reflexivity|].
  do 2 eexists. split; [vm_compute; reflexivity|].
  repeat split; vm_compute; reflexivity.
Qed.

(** C2, amended.  When [predict] degrades, [ensemble_predict] still
    returns an ordinary six-entry result.  The degradation shows only in
    the values passed through ([ml_score] 0, [ml_confidence] 0, empty
    [feature_importance]); the error marker is dropped, the score is
    0.3 times the rule score, and a rule score of at most 1 is never
    flagged. *)
Theorem ensemble_on_degraded_estimator
    (self : AFD.detector) (f : filing) (h : option (list filing)) (r : Q) :
  degraded (AFD.predict self f h) →
  ∃ d s,
    AFD.ensemble_predict self f h r = Ok d ∧
    ¬ degraded d ∧
    dom d = {[ "ensemble_score"; "ml_score"; "rule_based_score";
               "final_prediction"; "ml_confidence"; "feature_importance" ]} ∧
    d !! "ml_score" = Some (AFD.ONum 0) ∧
    d !! "ml_confidence" = Some (AFD.ONum 0) ∧
    d !! "feature_importance" = Some (AFD.ODict ∅) ∧
    d !! "rule_based_score" = Some (AFD.ONum r) ∧
    d !! "ensemble_score" = Some (AFD.ONum s) ∧ s == 0.3 * r ∧
    d !! "final_prediction" = Some (AFD.OBool (Qltb 0.6 s)) ∧
    (r <= 1 → Qltb 0.6 s = false).
Proof.
  intros Hdeg. apply predict_degraded_iff in Hdeg as (e & _ & He).
  exists (list_to_map
            [ ("ensemble_score", AFD.ONum (0 * 0.7 + r * 0.3));
              ("ml_score", AFD.ONum 0);
              ("rule_based_score", AFD.ONum r);
              ("final_prediction", AFD.OBool (Qltb 0.6 (0 * 0.7 + r * 0.3)));
              ("ml_confidence", AFD.ONum 0);
              ("feature_importance", AFD.ODict ∅) ]),
         (0 * 0.7 + r * 0.3).
  split; [unfold AFD.ensemble_predict; rewrite He; reflexivity|].
  split; [intros [x Hx]; vm_compute in Hx; discriminate|].
  split; [vm_compute; reflexivity|].
  do 5 (split; [reflexivity|]).
  split; [ring|]. split; [reflexivity|].
  intros Hr. apply Qltb_ge. lra.
Qed.

Lemma ensemble_on_degraded_estimator_witness :
  ∃ d, AFD.ensemble_predict (constant_detector 0.9) malformed_filing None 0.5 = Ok d ∧
       d !! "ml_confidence" = Some (AFD.ONum 0) ∧ ¬ degraded d.
Proof.
  destruct (ensemble_on_degraded_estimator
              (constant_detector 0.9) malformed_filing None 0.5)
    as (d & s & He & Hnd & _ & _ & Hc & _).
  - exists (AFD.OError TypeError). vm_compute. reflexivity.
  - exists d. split; [exact He|]. split; [exact Hc | exact Hnd].
Defined.

(** ** The timing slot of the feature vector *)

(** The rule-based timing check fires exactly on a string holding one
    of the two markers. *)
Lemma check_filing_timing_risk (tax_period : pyval) :
  risk (_check_filing_timing tax_period) =
    match tax_period with
    | PyStr s => if has_timing_marker s then 0.3 else 0
    | _ => 0
    end.
Proof.
  unfold _check_filing_timing, has_timing_marker.
  destruct tax_period as [|q|s]; simpl.
  - reflexivity.
  - destruct (negb (Qeq_bool q 0)); reflexivity.
  - destruct s as [|c s']; [reflexivity|].
    cbn [String.eqb negb].
    destruct (str_contains "early" (str_lower (String c s'))); [reflexivity|].
    destruct (str_contains "delay" (str_lower (String c s'))); reflexivity.
Qed.

(** [extract_features] never reads [tax_period]. *)
Lemma extract_features_ignores_tax_period
    (self : AFD.detector) (f : filing) (h : option (list filing)) (tp : pyval) :
  AFD.extract_features self (<["tax_period" := tp]> f) h
  = AFD.extract_features self f h.
Proof.
  unfold AFD.extract_features, dict_get.
  rewrite !lookup_insert_ne by done. reflexivity.
Qed.

(** C5, as stated, fails.  The filing labelled "2024-Q1-EARLY" holds a
    marker, and the rule-based timing check fires on it, yet the timing
    slot of its feature vector is the default 0.1, not above it. *)
Lemma timing_slot_not_elevated :
  has_timing_marker "2024-Q1-EARLY" = true ∧
  risk (_check_filing_timing (dict_get early_filing "tax_period" (PyStr ""))) = 0.3 ∧
  ∃ v, AFD.extract_features (constant_detector 0.5) early_filing None = Ok v ∧
       v !! 6%nat = Some (AFD.FNum 0.1) ∧
       ¬ (∃ t, v !! 6%nat = Some (AFD.FNum t) ∧ 0.1 < t).
Proof.
  split; [vm_compute; reflexivity|].
  split; [vm_compute; reflexivity|].
  eexists. split; [vm_compute; reflexivity|].
  split; [reflexivity|].
  intros (t & Ht & Hlt). injection Ht as <-. lra.
Qed.

(** C5, amended.  Whenever [extract_features] returns, the vector has
    seven slots and its timing slot is the constant 0.1 whatever the
    [tax_period] label is (replacing the label leaves the whole vector
    unchanged); the markers raise only the timing finding of the
    rule-based analyzer, to 0.3. *)
Theorem timing_slot_constant
    (self : AFD.detector) (f : filing) (h : option (list filing))
    (v : list AFD.feat) :
  AFD.extract_features self f h = Ok v →
  length v = 7%nat ∧
  v !! 6%nat = Some (AFD.FNum 0.1) ∧
  (∀ tp, AFD.extract_features self (<["tax_period" := tp]> f) h = Ok v) ∧
  (∀ s, risk (_check_filing_timing (PyStr s))
        = if has_timing_marker s then 0.3 else 0).
Proof.
  intros H. split; [|split; [|split]].
  - unfold AFD.extract_features in H. bind_inv H. injection H as <-. reflexivity.
  - unfold AFD.extract_features in H. bind_inv H. injection H as <-. reflexivity.
  - intros tp. rewrite extract_features_ignores_tax_period. exact H.
  - intros s. apply (check_filing_timing_risk (PyStr s)).
Qed.

Lemma timing_slot_constant_witness :
  ∃ v, AFD.extract_features (constant_detector 0.5) early_filing None = Ok v ∧
       v !! 6%nat = Some (AFD.FNum 0.1).
Proof.
  eexists. split; [vm_compute; reflexivity|].
  refine (proj1 (proj2 (timing_slot_constant (constant_detector 0.5)
                          early_filing None _ _))).
  vm_compute. reflexivity.
Defined.

(** ** What the feature extractor reads *)

(** The vector depends on three entries of the filing and on the
    history, and on nothing else: not on the other entries, and not on
    the detector object (fitted model, scaler, model path). *)
Lemma extract_features_reads
    (self1 self2 : AFD.detector) (f1 f2 : filing) (h : option (list filing)) :
  f1 !! "income" = f2 !! "income" →
  f1 !! "deductions" = f2 !! "deductions" →
  f1 !! "business_sector" = f2 !! "business_sector" →
  AFD.extract_features self1 f1 h = AFD.extract_features self2 f2 h.
Proof.
  intros Hi Hd Hs. unfold AFD.extract_features, dict_get.
  rewrite Hi, Hd, Hs. reflexivity.
Qed.

(** ** The high-risk scenario *)

(** C3.  What [analyze] computes for income 10000, deductions 8000,
    sector "retail", no history.  The income is not below 10000, so the
    income finding is the low tier (risk 0.4), not the very-low tier
    (0.8); the deduction ratio 0.8 gives the finding of risk 0.9; the
    three round figures give 0.5.  The weighted aggregate is
    [0.4*0.3 + 0.9*0.25 + 0.5*0.15 = 0.42], far from the clamp at 1.0,
    and the level is MEDIUM, not HIGH. *)
Theorem high_risk_scenario_is_medium :
  _check_industry_deviation (PyNum 10000) "retail" None
    = Ok {| risk := 0.4; reason := "Income below average for retail sector" |} ∧
  analyze_body high_risk_filing None = Ok (analyze high_risk_filing None) ∧
  match detailed_analysis (analyze high_risk_filing None) with
  | Details ratio taxable industry parts =>
      ratio == 0.8 ∧ taxable == 2000 ∧ risk industry = 0.4 ∧
      _check_deduction_ratio ratio "retail"
        = {| risk := 0.9;
             reason := "Deductions represent 80.0% of income (typical: 35.0%)" |} ∧
      parts = {| fb_income_deviation := 0.4;
                 fb_deduction_ratio := 0.9;
                 fb_historical_inconsistency := 0;
                 fb_round_numbers := 0.5;
                 fb_unusual_timing := 0 |}
  | DetailsError _ => False
  end ∧
  factors (analyze high_risk_filing None)
    = [ "Income below average for retail sector";
        "Deductions represent 80.0% of income (typical: 35.0%)";
        "Multiple round numbers suggest estimated figures" ] ∧
  score (analyze high_risk_filing None) == 0.42 ∧
  level (analyze high_risk_filing None) = "MEDIUM" ∧
  level (analyze high_risk_filing None) ≠ "HIGH" ∧
  confidence (analyze high_risk_filing None) == 0.85 ∧
  recommendation (analyze high_risk_filing None)
    = "Consider automated verification checks | Verify deduction documentation | Cross-reference with third-party data".
Proof.
  split; [vm_compute; reflexivity|].
  split; [vm_compute; reflexivity|].
  split; [vm_compute; repeat split; reflexivity|].
  split; [vm_compute; reflexivity|].
  split; [vm_compute; reflexivity|].
  split; [vm_compute; reflexivity|].
  split; [vm_compute; discriminate|].
  split; vm_compute; reflexivity.
Qed.

(** ** Bounds on the aggregate score *)

Lemma industry_risk_cases (income : pyval) (sector : string)
    (h : option (list filing)) (r : finding) :
  _check_industry_deviation income sector h = Ok r →
  risk r = 0.8 ∨ risk r = 0.4 ∨ risk r = 0.
Proof.
  unfold _check_industry_deviation. intros H.
  destruct income as [|q|s]; simpl in H; try discriminate.
  destruct (Qltb q 10000); simpl in H.
  - injection H as <-. auto.
  - destruct (Qltb q 25000); injection H as <-; auto.
Qed.

Lemma deduction_risk_cases (ratio : Q) (sector : string) :
  let k := risk (_check_deduction_ratio ratio sector) in
  k = 0.9 ∨ k = 0.6 ∨ k = 0.3 ∨ k = 0.
Proof.
  unfold _check_deduction_ratio.
  repeat match goal with |- context [if ?b then _ else _] => destruct b end;
    simpl; auto.
Qed.

Lemma historical_risk_cases (f : filing) (history : list filing) (r : finding) :
  _check_historical_consistency f history = Ok r →
  risk r = 0.7 ∨ risk r = 0.4 ∨ risk r = 0.
Proof.
  unfold _check_historical_consistency. intros H.
  destruct history as [|f0 rest]; [injection H as <-; auto|].
  apply bind_Ok in H as (incomes & _ & H).
  destruct incomes as [|q0 qs]; [injection H as <-; auto|].
  destruct (Qltb 0 (np_mean (q0 :: qs))); [|injection H as <-; auto].
  bind_inv H.
  repeat match type of H with
         | context [if ?b then _ else _] => destruct b
         end; injection H as <-; auto.
Qed.

Lemma round_risk_cases (income deductions taxable : pyval) (r : finding) :
  _check_round_numbers income deductions taxable = Ok r →
  risk r = 0.5 ∨ risk r = 0.2 ∨ risk r = 0.
Proof.
  unfold _check_round_numbers. intros H. bind_inv H.
  repeat match type of H with
         | context [if ?b then _ else _] => destruct b
         end; injection H as <-; auto.
Qed.

Lemma timing_risk_cases (tax_period : pyval) :
  risk (_check_filing_timing tax_period) = 0.3 ∨
  risk (_check_filing_timing tax_period) = 0.
Proof.
  rewrite check_filing_timing_risk.
  destruct tax_period as [|q|s]; auto.
  destruct (has_timing_marker s); auto.
Qed.

(** One recorded finding raises the running score by its risk times the
    weight of its check, and by nothing when the risk is zero. *)
Lemma record_finding_score (name : string) (r : finding)
    (acc : list string * Q) (w b : Q) :
  risk_weights !!! name = w → 0 <= w → 0 <= risk r → risk r <= b →
  acc.2 <= (record_finding name r acc).2 ∧
  (record_finding name r acc).2 <= acc.2 + b * w.
Proof.
  intros Hw Hw0 Hr0 Hrb. unfold record_finding. rewrite Hw.
  assert (risk r * w <= b * w) by (apply Qmult_le_compat_r; assumption).
  assert (0 <= risk r * w) by (apply Qmult_le_0_compat; assumption).
  destruct (Qltb 0 (risk r)); simpl; split; lra.
Qed.

(** The aggregate score of a successful analysis is at most 0.71, so the
    clamp at 1.0 never changes it; without a history it is at most
    0.57, and the level HIGH cannot be reached. *)
Theorem analyze_score_bound
    (f : filing) (h : option (list filing)) (a : assessment) :
  analyze_body f h = Ok a →
  0 <= score a ∧ score a <= 0.71 ∧
  (history_given h = false → score a <= 0.57 ∧ level a ≠ "HIGH").
Proof.
  unfold analyze_body. intros H. bind_inv H. injection H as <-.
  cbn [score level].
  match goal with
  | |- context [_get_risk_level ?s] => set (sc := s)
  end.
  pose proof (industry_risk_cases _ _ _ _ Ev2) as C1.
  pose proof (deduction_risk_cases v0 v) as C2. cbv zeta in C2.
  pose proof (round_risk_cases _ _ _ _ Ev4) as C4.
  pose proof (timing_risk_cases (dict_get f "tax_period" (PyStr ""))) as C5.
  set (acc1 := record_finding "income_deviation" v2 ([], 0)) in *.
  set (acc2 := record_finding "deduction_ratio" (_check_deduction_ratio v0 v) acc1) in *.
  assert (B1 : 0 <= acc1.2 ∧ acc1.2 <= 0.8 * 0.3).
  { destruct (record_finding_score "income_deviation" v2 ([], 0) 0.3 0.8) as [L U];
      try reflexivity; try discriminate;
      [ destruct C1 as [-> | [-> | ->]]; discriminate
      | destruct C1 as [-> | [-> | ->]]; discriminate |].
    fold acc1 in L, U. simpl in L, U. split; lra. }
  assert (B2 : acc1.2 <= acc2.2 ∧ acc2.2 <= acc1.2 + 0.9 * 0.25).
  { apply (record_finding_score "deduction_ratio" _ acc1 0.25 0.9);
      try reflexivity; try discriminate;
      destruct C2 as [-> | [-> | [-> | ->]]]; discriminate. }
  assert (B3 : ∀ acc3,
    acc3 = (if history_given h
            then record_finding "historical_inconsistency" v3 acc2 else acc2) →
    acc2.2 <= acc3.2 ∧
    acc3.2 <= acc2.2 + (if history_given h then 0.7 * 0.2 else 0)).
  { intros acc3 ->. destruct (history_given h) eqn:Hh.
    - pose proof (historical_risk_cases _ _ _ Ev3) as C3.
      apply (record_finding_score "historical_inconsistency" _ acc2 0.2 0.7);
        try reflexivity; try discriminate;
        destruct C3 as [-> | [-> | ->]]; discriminate.
    - split; lra. }
  specialize (B3 _ eq_refl).
  set (acc3 := if history_given h
               then record_finding "historical_inconsistency" v3 acc2 else acc2) in *.
  set (acc4 := record_finding "round_numbers" v4 acc3) in *.
  assert (B4 : acc3.2 <= acc4.2 ∧ acc4.2 <= acc3.2 + 0.5 * 0.15).
  { apply (record_finding_score "round_numbers" _ acc3 0.15 0.5);
      try reflexivity; try discriminate;
      destruct C4 as [-> | [-> | ->]]; discriminate. }
  set (acc5 := record_finding "unusual_timing" _ acc4) in *.
  assert (B5 : acc4.2 <= acc5.2 ∧ acc5.2 <= acc4.2 + 0.3 * 0.1).
  { apply (record_finding_score "unusual_timing" _ acc4 0.1 0.3);
      try reflexivity; try discriminate;
      destruct C5 as [-> | ->]; discriminate. }
  assert (Hsc : sc = acc5.2).
  { subst sc. case_Qltb 1 (acc5.2); [|reflexivity].
    destruct (history_given h); lra. }
  rewrite Hsc.
  split; [lra|]. split; [destruct (history_given h); lra|].
  intros Hh. rewrite Hh in B3.
  assert (acc5.2 <= 0.57) by lra.
  split; [assumption|].
  unfold _get_risk_level.
  destruct (Qle_bool 0.7 acc5.2) eqn:E7.
  - apply Qle_bool_iff in E7. lra.
  - destruct (Qle_bool 0.4 acc5.2); discriminate.
Qed.

(** ** Guarded divisions *)

Lemma nzd_Ok {A} (a : A) : no_zero_division (Ok a).
Proof. discriminate. Qed.

Lemma nzd_bind {A B} (m : exc A) (k : A → exc B) :
  no_zero_division m → (∀ a, m = Ok a → no_zero_division (k a)) →
  no_zero_division (bind m k).
Proof.
  unfold no_zero_division. intros Hm Hk H.
  apply bind_Raise in H as [H | (a & Ha & H)]; [auto | eapply Hk; eauto].
Qed.

Lemma nzd_py_num (v : pyval) : no_zero_division (py_num v).
Proof. destruct v; discriminate. Qed.

Lemma nzd_py_gt (v : pyval) (b : Q) : no_zero_division (py_gt v b).
Proof. destruct v; discriminate. Qed.

Lemma nzd_py_lt (v : pyval) (b : Q) : no_zero_division (py_lt v b).
Proof. destruct v; discriminate. Qed.

Lemma nzd_py_sub (a b : pyval) : no_zero_division (py_sub a b).
Proof. destruct a, b; discriminate. Qed.

Lemma nzd_py_mod (a : pyval) (m : Q) : no_zero_division (py_mod a m).
Proof. destruct a; discriminate. Qed.

(** A division whose divisor passed the test [> 0] does not raise
    [ZeroDivisionError]. *)
Lemma nzd_py_truediv_positive (a : pyval) (y : Q) :
  Qltb 0 y = true → no_zero_division (py_truediv a (PyNum y)).
Proof.
  intros Hy. apply Qltb_lt in Hy. unfold py_truediv.
  destruct a as [|x|s]; try discriminate. simpl.
  destruct (Qeq_bool y 0) eqn:E; [|discriminate].
  apply Qeq_bool_iff in E. lra.
Qed.

Lemma py_gt_true (v : pyval) (b : Q) :
  py_gt v b = Ok true → ∃ q, v = PyNum q ∧ Qltb b q = true.
Proof.
  destruct v as [|q|s]; simpl; try discriminate.
  intros [= H]. eauto.
Qed.

(** The guarded ratio [deductions / income if income > 0 else 0]. *)
Lemma nzd_deduction_ratio (income deductions : pyval) :
  no_zero_division
    (positive <- py_gt income 0 ;;
     if positive then py_truediv deductions income else Ok 0).
Proof.
  apply nzd_bind; [apply nzd_py_gt|].
  intros [|] Hpos; [|apply nzd_Ok].
  apply py_gt_true in Hpos as (q & -> & Hq).
  apply nzd_py_truediv_positive; assumption.
Qed.

Lemma nzd_positive_incomes (history : list filing) :
  no_zero_division (positive_incomes history).
Proof.
  induction history as [|f rest IH]; simpl; [apply nzd_Ok|].
  apply nzd_bind; [apply nzd_py_gt|].
  intros [|] _; [|exact IH].
  apply nzd_bind; [apply nzd_py_num|]. intros q _.
  apply nzd_bind; [exact IH|]. intros tl _. apply nzd_Ok.
Qed.

Lemma nzd_is_round_number_rule (num : pyval) :
  no_zero_division (FraudDetector.is_round_number num).
Proof.
  apply nzd_bind; [apply nzd_py_mod|]. intros r1 _.
  destruct (Qeq_bool r1 0); [apply nzd_Ok|].
  apply nzd_bind; [apply nzd_py_mod|]. intros; apply nzd_Ok.
Qed.

Lemma nzd_is_round_number_feat (num : pyval) :
  no_zero_division (AFD.is_round_number num).
Proof.
  apply nzd_bind; [apply nzd_py_mod|]. intros r1 _.
  destruct (Qeq_bool r1 0); [apply nzd_Ok|].
  apply nzd_bind; [apply nzd_py_mod|]. intros; apply nzd_Ok.
Qed.

(** A relative difference [(income - base) / base] taken under the
    guard [base > 0]. *)
Lemma nzd_relative_difference (income : pyval) (base : Q) :
  no_zero_division
    (if Qltb 0 base
     then d <- py_sub income (PyNum base) ;;
          py_truediv (PyNum d) (PyNum base)
     else Ok 0).
Proof.
  destruct (Qltb 0 base) eqn:Hb; [|apply nzd_Ok].
  apply nzd_bind; [apply nzd_py_sub|]. intros d _.
  apply nzd_py_truediv_positive; assumption.
Qed.

(** No input makes [extract_features] divide by zero. *)
Lemma extract_features_no_zero_division
    (self : AFD.detector) (f : filing) (h : option (list filing)) :
  no_zero_division (AFD.extract_features self f h).
Proof.
  unfold AFD.extract_features.
  apply nzd_bind; [apply nzd_deduction_ratio|]. intros ratio _.
  apply nzd_bind; [apply nzd_relative_difference|]. intros dev _.
  apply nzd_bind.
  { destruct h as [[|f0 rest]|]; try apply nzd_Ok.
    apply nzd_bind; [apply nzd_positive_incomes|]. intros incomes _.
    destruct incomes as [|q0 qs]; [apply nzd_Ok|].
    apply nzd_relative_difference. }
  intros change _.
  apply nzd_bind; [apply nzd_is_round_number_feat|]. intros b1 _.
  apply nzd_bind; [apply nzd_is_round_number_feat|]. intros b2 _.
  apply nzd_bind; [apply nzd_py_sub|]. intros taxable _.
  apply nzd_bind; [apply nzd_is_round_number_feat|]. intros b3 _.
  apply nzd_bind; [apply nzd_bind; [apply nzd_py_num | intros; apply nzd_Ok]|].
  intros l1 _.
  apply nzd_bind; [apply nzd_bind; [apply nzd_py_num | intros; apply nzd_Ok]|].
  intros l2 _. apply nzd_Ok.
Qed.

Lemma nzd_check_industry_deviation (income : pyval) (sector : string)
    (h : option (list filing)) :
  no_zero_division (_check_industry_deviation income sector h).
Proof.
  unfold _check_industry_deviation.
  apply nzd_bind; [apply nzd_py_lt|]. intros [|] _.
  - apply nzd_bind; [apply nzd_py_num|]. intros; apply nzd_Ok.
  - apply nzd_bind; [apply nzd_py_lt|]. intros [|] _; apply nzd_Ok.
Qed.

Lemma nzd_check_historical_consistency (f : filing) (history : list filing) :
  no_zero_division (_check_historical_consistency f history).
Proof.
  unfold _check_historical_consistency.
  destruct history as [|f0 rest]; [apply nzd_Ok|].
  apply nzd_bind; [apply nzd_positive_incomes|]. intros incomes _.
  destruct incomes as [|q0 qs]; [apply nzd_Ok|].
  destruct (Qltb 0 (np_mean (q0 :: qs))) eqn:Havg; [|apply nzd_Ok].
  apply nzd_bind; [apply nzd_py_sub|]. intros diff _.
  apply nzd_bind; [apply nzd_py_truediv_positive; assumption|].
  intros deviation _.
  destruct (Qltb 0.5 deviation); [apply nzd_Ok|].
  destruct (Qltb 0.3 deviation); apply nzd_Ok.
Qed.

Lemma nzd_check_round_numbers (income deductions taxable : pyval) :
  no_zero_division (_check_round_numbers income deductions taxable).
Proof.
  unfold _check_round_numbers.
  apply nzd_bind; [apply nzd_is_round_number_rule|]. intros b1 _.
  apply nzd_bind; [apply nzd_is_round_number_rule|]. intros b2 _.
  apply nzd_bind; [apply nzd_is_round_number_rule|]. intros b3 _.
  destruct (2 <=? _)%nat; [apply nzd_Ok|].
  destruct (_ =? 1)%nat; apply nzd_Ok.
Qed.

(** No input makes the body of [analyze] divide by zero. *)
Lemma analyze_body_no_zero_division (f : filing) (h : option (list filing)) :
  no_zero_division (analyze_body f h).
Proof.
  unfold analyze_body.
  apply nzd_bind; [destruct (dict_get f "business_sector" _); discriminate|].
  intros sector _.
  apply nzd_bind; [apply nzd_deduction_ratio|]. intros ratio _.
  apply nzd_bind; [apply nzd_py_sub|]. intros taxable _.
  apply nzd_bind; [apply nzd_check_industry_deviation|]. intros r1 _.
  apply nzd_bind.
  { destruct (history_given h);
      [apply nzd_check_historical_consistency | apply nzd_Ok]. }
  intros r3 _.
  apply nzd_bind; [apply nzd_check_round_numbers|]. intros r4 _.
  apply nzd_Ok.
Qed.

(** ** The deduction ratio of a filing without positive income *)

(** C6, as stated, fails in its last part.  For the income -2 the
    deduction ratio is 0 and nothing is divided by zero, yet the
    feature vector is not free of NaN: its first slot is
    [np.log1p(-2)]. *)
Lemma nonpositive_income_vector_not_finite :
  dict_get negative_income_filing "income" (PyNum 0) = PyNum (-2) ∧
  -2 <= 0 ∧
  ∃ v, AFD.extract_features (constant_detector 0.5) negative_income_filing None = Ok v ∧
       v !! 2%nat = Some (AFD.FNum 0) ∧
       v !! 0%nat = Some (AFD.FLog1p (-2)) ∧
       AFD.feat_finite (AFD.FLog1p (-2)) = false ∧
       forallb AFD.feat_finite v = false.
Proof.
  split; [vm_compute; reflexivity|].
  split; [discriminate|].
  eexists. split; [vm_compute; reflexivity|].
  repeat split; vm_compute; reflexivity.
Qed.

(** C6, amended.  For a filing whose income is a number [q <= 0]:
    the guarded ratio is 0 whatever the deductions are (also when they
    could not be divided), so the division by the income is not
    evaluated; the ratio reported by [analyze] and the ratio slot of the
    feature vector are 0, as is the deduction-ratio finding; and neither
    function divides by zero.  The guard does not keep NaN and
    infinities out of the feature vector: its first slot is
    [np.log1p(q)], which is not guarded, and is not finite when
    [q <= -1]. *)
Theorem nonpositive_income_ratio_zero
    (self : AFD.detector) (f : filing) (h : option (list filing)) (q : Q) :
  dict_get f "income" (PyNum 0) = PyNum q → q <= 0 →
  (∀ deductions : pyval,
     (positive <- py_gt (PyNum q) 0 ;;
      if positive then py_truediv deductions (PyNum q) else Ok 0) = Ok 0) ∧
  (∀ a, analyze_body f h = Ok a →
        ∃ taxable industry parts,
          detailed_analysis a = Details 0 taxable industry parts ∧
          fb_deduction_ratio parts = 0) ∧
  (∀ v, AFD.extract_features self f h = Ok v →
        v !! 2%nat = Some (AFD.FNum 0) ∧
        v !! 0%nat = Some (AFD.FLog1p q) ∧
        (q <= -1 → forallb AFD.feat_finite v = false)) ∧
  no_zero_division (analyze_body f h) ∧
  no_zero_division (AFD.extract_features self f h).
Proof.
  intros Hinc Hq.
  assert (Hguard : Qltb 0 q = false) by (apply Qltb_ge; assumption).
  split; [intros deductions; simpl; rewrite Hguard; reflexivity|].
  split; [|split; [|split]].
  - intros a Ha. unfold analyze_body in Ha. rewrite Hinc in Ha.
    simpl in Ha. rewrite Hguard in Ha.
    bind_inv Ha. injection Ev0 as <-. injection Ha as <-.
    do 3 eexists. split; [reflexivity|].
    cbn [fb_deduction_ratio]. unfold _check_deduction_ratio.
    destruct (typical_ratio_cases v) as [Ht | [Ht | [Ht | [Ht | Ht]]]];
      cbv zeta in Ht; rewrite Ht; reflexivity.
  - intros v Hv. unfold AFD.extract_features in Hv. rewrite Hinc in Hv.
    simpl in Hv. rewrite Hguard in Hv.
    bind_inv Hv. injection Ev as <-. injection Hv as <-.
    split; [reflexivity|]. split; [reflexivity|].
    intros Hq1. apply Qltb_ge in Hq1.
    cbn [forallb AFD.feat_finite]. rewrite Hq1. reflexivity.
  - apply analyze_body_no_zero_division.
  - apply extract_features_no_zero_division.
Qed.

(** C6 on a filing with income 0 and deductions 500: the ratio slot is
    0 and the first slot is [np.log1p(0)]. *)
Lemma nonpositive_income_ratio_zero_witness :
  ∃ v, AFD.extract_features (constant_detector 0.5) zero_income_filing None = Ok v ∧
       v !! 2%nat = Some (AFD.FNum 0) ∧ v !! 0%nat = Some (AFD.FLog1p 0).
Proof.
  destruct (nonpositive_income_ratio_zero
              (constant_detector 0.5) zero_income_filing None 0)
    as (_ & _ & Hv & _).
  - vm_compute. reflexivity.
  - discriminate.
  - eexists. split; [vm_compute; reflexivity|].
    match goal with
    | |- ?v !! _ = _ ∧ _ =>
        destruct (Hv v ltac:(vm_compute; reflexivity)) as (H2 & H0 & _)
    end.
    split; [exact H2 | exact H0].
Defined.

(** ** Well-formed input never fails *)

(** A history is well formed when the income of each entry, if present,
    is a number. *)
Lemma positive_incomes_returns (history : list filing) :
  Forall (λ f, ∃ q, dict_get f "income" (PyNum 0) = PyNum q) history →
  ∃ l, positive_incomes history = Ok l.
Proof.
  induction 1 as [|f rest (q & Hq) _ (l & IH)]; simpl; [eauto|].
  rewrite Hq. simpl. destruct (Qltb 0 q); simpl; rewrite IH; simpl; eauto.
Qed.

Lemma py_truediv_positive_returns (x y : Q) :
  Qltb 0 y = true → py_truediv (PyNum x) (PyNum y) = Ok (x / y).
Proof.
  intros Hy. apply Qltb_lt in Hy. unfold py_truediv. simpl.
  destruct (Qeq_bool y 0) eqn:E; [|reflexivity].
  apply Qeq_bool_iff in E. lra.
Qed.

Lemma is_round_number_returns (q : Q) :
  ∃ b, FraudDetector.is_round_number (PyNum q) = Ok b.
Proof.
  unfold FraudDetector.is_round_number. simpl.
  destruct (Qeq_bool _ 0); eauto.
Qed.

Lemma check_historical_consistency_returns (f : filing) (history : list filing) (q : Q) :
  dict_get f "income" (PyNum 0) = PyNum q →
  Forall (λ f, ∃ q, dict_get f "income" (PyNum 0) = PyNum q) history →
  ∃ r, _check_historical_consistency f history = Ok r.
Proof.
  intros Hq Hh. unfold _check_historical_consistency.
  destruct history as [|f0 rest]; [eauto|].
  destruct (positive_incomes_returns _ Hh) as (l & ->). simpl.
  destruct l as [|q0 qs]; [eauto|].
  destruct (Qltb 0 (np_mean (q0 :: qs))) eqn:Havg; [|eauto].
  rewrite Hq. simpl. rewrite (py_truediv_positive_returns _ _ Havg). simpl.
  destruct (Qltb 0.5 _); [eauto|]. destruct (Qltb 0.3 _); eauto.
Qed.

(** On a filing whose income and deductions are numbers and whose
    sector is a string, with a well-formed history, the body of
    [analyze] returns: [analyze] takes its normal path. *)
Theorem analyze_returns_on_well_formed
    (f : filing) (h : option (list filing)) (q d : Q) (s : string) :
  dict_get f "income" (PyNum 0) = PyNum q →
  dict_get f "deductions" (PyNum 0) = PyNum d →
  dict_get f "business_sector" (PyStr "services") = PyStr s →
  Forall (λ f, ∃ q, dict_get f "income" (PyNum 0) = PyNum q) (default [] h) →
  ∃ a, analyze_body f h = Ok a ∧ analyze f h = a.
Proof.
  intros Hq Hd Hs Hh.
  assert (∃ a, analyze_body f h = Ok a) as (a & Ha).
  { unfold analyze_body. rewrite Hq, Hd, Hs. simpl.
    assert (∃ ratio, (if Qltb 0 q then py_truediv (PyNum d) (PyNum q) else Ok 0)
                     = Ok ratio) as (ratio & ->).
    { destruct (Qltb 0 q) eqn:E; [|eauto].
      rewrite (py_truediv_positive_returns _ _ E). eauto. }
    simpl.
    assert (∃ r, _check_industry_deviation (PyNum q) (str_lower s) h = Ok r)
      as (r1 & ->).
    { unfold _check_industry_deviation. simpl.
      destruct (Qltb q 10000); simpl; [eauto|].
      destruct (Qltb q 25000); eauto. }
    simpl.
    assert (∃ r, (if history_given h
                  then _check_historical_consistency f (default [] h)
                  else Ok no_finding) = Ok r) as (r3 & ->).
    { destruct (history_given h); [|eauto].
      eapply check_historical_consistency_returns; eauto. }
    simpl.
    assert (∃ r, _check_round_numbers (PyNum q) (PyNum d) (PyNum (q - d)) = Ok r)
      as (r4 & ->).
    { unfold _check_round_numbers.
      destruct (is_round_number_returns q) as (b1 & ->).
      destruct (is_round_number_returns d) as (b2 & ->).
      destruct (is_round_number_returns (q - d)) as (b3 & ->). simpl.
      repeat match goal with
             | |- context [if ?b then _ else _] => destruct b
             end; eauto. }
    simpl. eauto. }
  exists a. split; [exact Ha|]. unfold analyze. rewrite Ha. reflexivity.
Qed.

(** Under the same conditions [extract_features] returns a vector, for
    any detector and any sector value. *)
Theorem extract_features_returns_on_well_formed
    (self : AFD.detector) (f : filing) (h : option (list filing)) (q d : Q) :
  dict_get f "income" (PyNum 0) = PyNum q →
  dict_get f "deductions" (PyNum 0) = PyNum d →
  Forall (λ f, ∃ q, dict_get f "income" (PyNum 0) = PyNum q) (default [] h) →
  ∃ v, AFD.extract_features self f h = Ok v.
Proof.
  intros Hq Hd Hh. unfold AFD.extract_features. rewrite Hq, Hd. simpl.
  assert (∃ ratio, (if Qltb 0 q then py_truediv (PyNum d) (PyNum q) else Ok 0)
                   = Ok ratio) as (ratio & ->).
  { destruct (Qltb 0 q) eqn:E; [|eauto].
    rewrite (py_truediv_positive_returns _ _ E). eauto. }
  simpl.
  set (avg := AFD.industry_avg_of _).
  assert (∃ dev, (if Qltb 0 avg
                  then py_truediv (PyNum (q - avg)) (PyNum avg) else Ok 0)
                 = Ok dev) as (dev & ->).
  { destruct (Qltb 0 avg) eqn:E; [|eauto].
    rewrite (py_truediv_positive_returns _ _ E). eauto. }
  simpl.
  match goal with
  | |- ∃ v, bind ?m _ = _ => assert (∃ c, m = Ok c) as (c & ->)
  end.
  { destruct h as [[|f0 rest]|]; [eauto| |eauto].
    simpl in Hh. cbv beta iota.
    destruct (positive_incomes_returns _ Hh) as (l & ->). simpl.
    destruct l as [|q0 qs]; [eauto|].
    destruct (Qltb 0 (np_mean (q0 :: qs))) eqn:E; [|eauto].
    rewrite (py_truediv_positive_returns _ _ E). eauto. }
  simpl.
  destruct (is_round_number_returns q) as (b1 & Hb1).
  destruct (is_round_number_returns d) as (b2 & Hb2).
  destruct (is_round_number_returns (q - d)) as (b3 & Hb3).
  change FraudDetector.is_round_number with AFD.is_round_number in Hb1, Hb2, Hb3.
  rewrite Hb1. simpl. rewrite Hb2. simpl. rewrite Hb3. simpl. eauto.
Qed.

(** ** Further scenarios of the validation scripts *)

(** The "Low Risk Filing" scenario: the ratio 0.3 is below every tier,
    only the round figures are reported, and the level is LOW. *)
Example low_risk_scenario :
  factors (analyze low_risk_filing None)
    = [ "Multiple round numbers suggest estimated figures" ] ∧
  score (analyze low_risk_filing None) == 0.075 ∧
  level (analyze low_risk_filing None) = "LOW" ∧
  confidence (analyze low_risk_filing None) == 0.95.
Proof. repeat split; vm_compute; reflexivity. Qed.

(** An income of 45000 against a historical mean of 42000 deviates by
    about 7%, below both tiers: no historical finding. *)
Example history_scenario :
  _check_historical_consistency
    (<["income" := PyNum 45000]> ∅) one_prior_filing = Ok no_finding.
Proof. vm_compute. reflexivity. Qed.

(** With a history the feature vector carries the relative change of the
    income against the mean of the positive historical incomes. *)
Example feature_vector_with_history :
  ∃ change,
    AFD.extract_features (constant_detector 0.5) high_risk_filing
      (Some one_prior_filing)
    = Ok [ AFD.FLog1p 10000; AFD.FLog1p 8000; AFD.FNum 0.8000;
           AFD.FNum (-40000 # 50000); AFD.FNum change; AFD.FNum 3;
           AFD.FNum 0.1 ] ∧
    change == (10000 - 42000) / 42000.
Proof. eexists. split; vm_compute; reflexivity. Qed.

(** * Further properties *)

(** ** The bound on the score, at a scenario *)

(** A filing without a history stays below HIGH. *)
Lemma analyze_score_bound_witness :
  score (analyze high_risk_filing None) <= 0.57 ∧
  level (analyze high_risk_filing None) ≠ "HIGH".
Proof.
  destruct (analyze_score_bound high_risk_filing None
              (analyze high_risk_filing None)) as (_ & _ & Hn).
  - vm_compute. reflexivity.
  - apply Hn. reflexivity.
Defined.

(** ** The score and its breakdown *)

(** A recorded finding adds its risk times the weight of its check; a
    zero risk adds nothing. *)
Lemma record_finding_adds (name : string) (r : finding)
    (acc : list string * Q) (w : Q) :
  risk_weights !!! name = w → 0 <= risk r →
  (record_finding name r acc).2 == acc.2 + risk r * w ∧
  length (record_finding name r acc).1
    = (length acc.1 + Nat.b2n (Qltb 0 (risk r)))%nat.
Proof.
  intros Hw Hr. unfold record_finding. rewrite Hw.
  case_Qltb 0 (risk r); simpl.
  - split; [reflexivity|]. rewrite length_app. reflexivity.
  - split; [|lia].
    assert (H0 : risk r == 0) by lra. rewrite H0. ring.
Qed.

(** What a successful analysis returns, entry by entry: the breakdown
    holds the risks of the five checks, each from its fixed set of
    tiers; the score is their weighted sum and the level is read off
    the score; one factor is reported per non-zero entry. *)
Lemma analyze_body_breakdown
    (f : filing) (h : option (list filing)) (a : assessment) :
  analyze_body f h = Ok a →
  ∃ ratio taxable industry parts,
    detailed_analysis a = Details ratio taxable industry parts ∧
    score a == 0.3 * fb_income_deviation parts
               + 0.25 * fb_deduction_ratio parts
               + 0.2 * fb_historical_inconsistency parts
               + 0.15 * fb_round_numbers parts
               + 0.1 * fb_unusual_timing parts ∧
    length (factors a)
      = (Nat.b2n (Qltb 0 (fb_income_deviation parts))
         + Nat.b2n (Qltb 0 (fb_deduction_ratio parts))
         + Nat.b2n (Qltb 0 (fb_historical_inconsistency parts))
         + Nat.b2n (Qltb 0 (fb_round_numbers parts))
         + Nat.b2n (Qltb 0 (fb_unusual_timing parts)))%nat ∧
    level a = _get_risk_level (score a) ∧
    (fb_income_deviation parts = 0.8 ∨ fb_income_deviation parts = 0.4
     ∨ fb_income_deviation parts = 0) ∧
    (fb_deduction_ratio parts = 0.9 ∨ fb_deduction_ratio parts = 0.6
     ∨ fb_deduction_ratio parts = 0.3 ∨ fb_deduction_ratio parts = 0) ∧
    (fb_historical_inconsistency parts = 0.7
     ∨ fb_historical_inconsistency parts = 0.4
     ∨ fb_historical_inconsistency parts = 0) ∧
    (fb_round_numbers parts = 0.5 ∨ fb_round_numbers parts = 0.2
     ∨ fb_round_numbers parts = 0) ∧
    (fb_unusual_timing parts = 0.3 ∨ fb_unusual_timing parts = 0).
Proof.
  intros H.
  unfold analyze_body in H. bind_inv H. injection H as <-.
  cbn [score factors detailed_analysis level] in *.
  do 4 eexists. split; [reflexivity|].
  cbn [fb_income_deviation fb_deduction_ratio fb_historical_inconsistency
       fb_round_numbers fb_unusual_timing].
  pose proof (industry_risk_cases _ _ _ _ Ev2) as C1.
  pose proof (deduction_risk_cases v0 v) as C2. cbv zeta in C2.
  pose proof (round_risk_cases _ _ _ _ Ev4) as C4.
  pose proof (timing_risk_cases (dict_get f "tax_period" (PyStr ""))) as C5.
  assert (0 <= risk v2 ∧ risk v2 <= 0.8) as [N1 U1]
    by (destruct C1 as [-> | [-> | ->]]; split; discriminate).
  assert (0 <= risk (_check_deduction_ratio v0 v) ∧
          risk (_check_deduction_ratio v0 v) <= 0.9) as [N2 U2]
    by (destruct C2 as [-> | [-> | [-> | ->]]]; split; discriminate).
  assert (0 <= risk v4 ∧ risk v4 <= 0.5) as [N4 U4]
    by (destruct C4 as [-> | [-> | ->]]; split; discriminate).
  assert (0 <= risk (_check_filing_timing (dict_get f "tax_period" (PyStr ""))) ∧
          risk (_check_filing_timing (dict_get f "tax_period" (PyStr ""))) <= 0.3)
    as [N5 U5] by (destruct C5 as [-> | ->]; split; discriminate).
  set (acc1 := record_finding "income_deviation" v2 ([], 0)) in *.
  destruct (record_finding_adds "income_deviation" v2 ([], 0) 0.3 eq_refl N1)
    as [S1 L1]. fold acc1 in S1, L1.
  set (acc2 := record_finding "deduction_ratio" (_check_deduction_ratio v0 v) acc1) in *.
  destruct (record_finding_adds "deduction_ratio" _ acc1 0.25 eq_refl N2)
    as [S2 L2]. fold acc2 in S2, L2.
  set (r3 := if history_given h then risk v3 else 0).
  set (acc3 := if history_given h
               then record_finding "historical_inconsistency" v3 acc2 else acc2) in *.
  assert (S3 : (acc3.2 == acc2.2 + r3 * 0.2 ∧
                length acc3.1 = (length acc2.1 + Nat.b2n (Qltb 0 r3))%nat) ∧
               r3 <= 0.7).
  { subst acc3 r3. destruct (history_given h).
    - pose proof (historical_risk_cases _ _ _ Ev3) as C3. split.
      + apply record_finding_adds; [reflexivity|].
        destruct C3 as [-> | [-> | ->]]; discriminate.
      + destruct C3 as [-> | [-> | ->]]; discriminate.
    - split; [split; [ring | simpl; lia] | discriminate]. }
  destruct S3 as [[S3 L3] U3].
  set (acc4 := record_finding "round_numbers" v4 acc3) in *.
  destruct (record_finding_adds "round_numbers" v4 acc3 0.15 eq_refl N4)
    as [S4 L4]. fold acc4 in S4, L4.
  set (acc5 := record_finding "unusual_timing" _ acc4) in *.
  destruct (record_finding_adds "unusual_timing" _ acc4 0.1 eq_refl N5)
    as [S5 L5]. fold acc5 in S5, L5.
  simpl in S1, L1.
  split; [case_Qltb 1 (acc5.2); lra|].
  split; [lia|].
  split; [reflexivity|].
  split; [exact C1|]. split; [exact C2|].
  split; [|split; [exact C4 | exact C5]].
  subst r3. destruct (history_given h); [|auto].
  exact (historical_risk_cases _ _ _ Ev3).
Qed.

(** The aggregate score is the weighted sum of the five entries of the
    breakdown, with the weights 0.3, 0.25, 0.2, 0.15 and 0.1: the clamp
    at 1.0 never changes it.  One factor is reported per non-zero entry
    of the breakdown. *)
Theorem analyze_score_is_weighted_breakdown
    (f : filing) (h : option (list filing)) (a : assessment) :
  analyze_body f h = Ok a →
  ∃ ratio taxable industry parts,
    detailed_analysis a = Details ratio taxable industry parts ∧
    score a == 0.3 * fb_income_deviation parts
               + 0.25 * fb_deduction_ratio parts
               + 0.2 * fb_historical_inconsistency parts
               + 0.15 * fb_round_numbers parts
               + 0.1 * fb_unusual_timing parts ∧
    length (factors a)
      = (Nat.b2n (Qltb 0 (fb_income_deviation parts))
         + Nat.b2n (Qltb 0 (fb_deduction_ratio parts))
         + Nat.b2n (Qltb 0 (fb_historical_inconsistency parts))
         + Nat.b2n (Qltb 0 (fb_round_numbers parts))
         + Nat.b2n (Qltb 0 (fb_unusual_timing parts)))%nat.
Proof.
  intros H.
  destruct (analyze_body_breakdown f h a H)
    as (ratio & taxable & industry & parts & Hd & Hs & Hl & _).
  exists ratio, taxable, industry, parts. auto.
Qed.

(** The "High Risk Filing" scenario: three factors, and the score is the
    weighted sum of its breakdown. *)
Lemma analyze_score_is_weighted_breakdown_witness :
  ∃ parts, score (analyze high_risk_filing None)
           == 0.3 * fb_income_deviation parts
              + 0.25 * fb_deduction_ratio parts
              + 0.2 * fb_historical_inconsistency parts
              + 0.15 * fb_round_numbers parts
              + 0.1 * fb_unusual_timing parts ∧
           length (factors (analyze high_risk_filing None)) = 3%nat.
Proof.
  destruct (analyze_score_is_weighted_breakdown high_risk_filing None
              (analyze high_risk_filing None))
    as (ratio & taxable & industry & parts & Hd & Hs & Hl).
  - vm_compute. reflexivity.
  - exists parts. split; [exact Hs|]. vm_compute. reflexivity.
Defined.

(** The level HIGH is reached exactly when all five checks report
    their highest tier (0.8, 0.9, 0.7, 0.5 and 0.3); the score is then
    0.71.  Any weaker finding, or a missing history, keeps the level
    below HIGH. *)
Theorem analyze_high_iff_all_checks_at_top
    (f : filing) (h : option (list filing)) (a : assessment) :
  analyze_body f h = Ok a →
  ∃ ratio taxable industry parts,
    detailed_analysis a = Details ratio taxable industry parts ∧
    (level a = "HIGH" ↔
       fb_income_deviation parts = 0.8 ∧
       fb_deduction_ratio parts = 0.9 ∧
       fb_historical_inconsistency parts = 0.7 ∧
       fb_round_numbers parts = 0.5 ∧
       fb_unusual_timing parts = 0.3) ∧
    (level a = "HIGH" → score a == 0.71).
Proof.
  intros H.
  destruct (analyze_body_breakdown f h a H)
    as (ratio & taxable & industry & parts & Hd & Hs & _ & Hlev & C1 & C2 & C3 & C4 & C5).
  exists ratio, taxable, industry, parts. split; [exact Hd|].
  rewrite Hlev.
  assert (Hhigh : _get_risk_level (score a) = "HIGH" ↔ 0.7 <= score a).
  { unfold _get_risk_level. destruct (Qle_bool 0.7 (score a)) eqn:E7.
    - apply Qle_bool_iff in E7. tauto.
    - apply Qle_bool_gt in E7.
      destruct (Qle_bool 0.4 (score a)); split; (discriminate || lra). }
  rewrite Hhigh.
  assert (Hall : 0.7 <= score a →
                 fb_income_deviation parts = 0.8 ∧
                 fb_deduction_ratio parts = 0.9 ∧
                 fb_historical_inconsistency parts = 0.7 ∧
                 fb_round_numbers parts = 0.5 ∧
                 fb_unusual_timing parts = 0.3).
  { intros Hge. rewrite Hs in Hge.
    destruct C1 as [E1 | [E1 | E1]]; rewrite E1 in Hge;
    destruct C2 as [E2 | [E2 | [E2 | E2]]]; rewrite E2 in Hge;
    destruct C3 as [E3 | [E3 | E3]]; rewrite E3 in Hge;
    destruct C4 as [E4 | [E4 | E4]]; rewrite E4 in Hge;
    destruct C5 as [E5 | E5]; rewrite E5 in Hge;
    try (exfalso; revert Hge; vm_compute; intros Hge; apply Hge; reflexivity);
    auto. }
  split.
  - split; [exact Hall|].
    intros (E1 & E2 & E3 & E4 & E5). rewrite Hs, E1, E2, E3, E4, E5.
    vm_compute. discriminate.
  - intros Hge. destruct (Hall Hge) as (E1 & E2 & E3 & E4 & E5).
    rewrite Hs, E1, E2, E3, E4, E5. reflexivity.
Qed.

(** A filing on which all five checks fire at their highest tier is
    HIGH, with score 0.71. *)
Lemma analyze_high_iff_all_checks_at_top_witness :
  level (analyze all_checks_filing (Some doubled_income_history)) = "HIGH" ∧
  score (analyze all_checks_filing (Some doubled_income_history)) == 0.71.
Proof.
  destruct (analyze_high_iff_all_checks_at_top all_checks_filing
              (Some doubled_income_history)
              (analyze all_checks_filing (Some doubled_income_history)))
    as (ratio & taxable & industry & parts & Hd & Hiff & Hscore).
  - vm_compute. reflexivity.
  - assert (Hl : level (analyze all_checks_filing (Some doubled_income_history))
                 = "HIGH") by (vm_compute; reflexivity).
    split; [exact Hl | exact (Hscore Hl)].
Defined.

(** ** Which inputs take the error path *)

Lemma ro_Ok {A} (e0 : exn) (a : A) : raises_only e0 (Ok a).
Proof. intros e H. discriminate. Qed.

Lemma ro_bind {A B} (e0 : exn) (m : exc A) (k : A → exc B) :
  raises_only e0 m → (∀ a, m = Ok a → raises_only e0 (k a)) →
  raises_only e0 (bind m k).
Proof.
  intros Hm Hk e H.
  apply bind_Raise in H as [H | (a & Ha & H)]; [auto | eapply Hk; eauto].
Qed.

Lemma ro_py_num (v : pyval) : raises_only TypeError (py_num v).
Proof. destruct v; intros e [= <-]; reflexivity. Qed.

Lemma ro_py_gt (v : pyval) (b : Q) : raises_only TypeError (py_gt v b).
Proof. destruct v; intros e [= <-]; reflexivity. Qed.

Lemma ro_py_lt (v : pyval) (b : Q) : raises_only TypeError (py_lt v b).
Proof. destruct v; intros e [= <-]; reflexivity. Qed.

Lemma ro_py_sub (a b : pyval) : raises_only TypeError (py_sub a b).
Proof. destruct a, b; intros e [= <-]; reflexivity. Qed.

Lemma ro_py_mod (a : pyval) (m : Q) : raises_only TypeError (py_mod a m).
Proof. destruct a; intros e [= <-]; reflexivity. Qed.

Lemma ro_py_truediv_positive (a : pyval) (y : Q) :
  Qltb 0 y = true → raises_only TypeError (py_truediv a (PyNum y)).
Proof.
  intros Hy. destruct a as [|x|s]; try (intros e [= <-]; reflexivity).
  rewrite (py_truediv_positive_returns _ _ Hy). apply ro_Ok.
Qed.

Lemma ro_deduction_ratio (income deductions : pyval) :
  raises_only TypeError
    (positive <- py_gt income 0 ;;
     if positive then py_truediv deductions income else Ok 0).
Proof.
  apply ro_bind; [apply ro_py_gt|].
  intros [|] Hpos; [|apply ro_Ok].
  apply py_gt_true in Hpos as (q & -> & Hq).
  apply ro_py_truediv_positive; assumption.
Qed.

Lemma ro_positive_incomes (history : list filing) :
  raises_only TypeError (positive_incomes history).
Proof.
  induction history as [|f rest IH]; simpl; [apply ro_Ok|].
  apply ro_bind; [apply ro_py_gt|].
  intros [|] _; [|exact IH].
  apply ro_bind; [apply ro_py_num|]. intros q _.
  apply ro_bind; [exact IH|]. intros tl _. apply ro_Ok.
Qed.

Lemma ro_is_round_number_rule (num : pyval) :
  raises_only TypeError (FraudDetector.is_round_number num).
Proof.
  apply ro_bind; [apply ro_py_mod|]. intros r1 _.
  destruct (Qeq_bool r1 0); [apply ro_Ok|].
  apply ro_bind; [apply ro_py_mod|]. intros; apply ro_Ok.
Qed.

Lemma ro_check_industry_deviation (income : pyval) (sector : string)
    (h : option (list filing)) :
  raises_only TypeError (_check_industry_deviation income sector h).
Proof.
  unfold _check_industry_deviation.
  apply ro_bind; [apply ro_py_lt|]. intros [|] _.
  - apply ro_bind; [apply ro_py_num|]. intros; apply ro_Ok.
  - apply ro_bind; [apply ro_py_lt|]. intros [|] _; apply ro_Ok.
Qed.

Lemma ro_check_historical_consistency (f : filing) (history : list filing) :
  raises_only TypeError (_check_historical_consistency f history).
Proof.
  unfold _check_historical_consistency.
  destruct history as [|f0 rest]; [apply ro_Ok|].
  apply ro_bind; [apply ro_positive_incomes|]. intros incomes _.
  destruct incomes as [|q0 qs]; [apply ro_Ok|].
  destruct (Qltb 0 (np_mean (q0 :: qs))) eqn:Havg; [|apply ro_Ok].
  apply ro_bind; [apply ro_py_sub|]. intros diff _.
  apply ro_bind; [apply ro_py_truediv_positive; assumption|].
  intros deviation _.
  destruct (Qltb 0.5 deviation); [apply ro_Ok|].
  destruct (Qltb 0.3 deviation); apply ro_Ok.
Qed.

Lemma ro_check_round_numbers (income deductions taxable : pyval) :
  raises_only TypeError (_check_round_numbers income deductions taxable).
Proof.
  unfold _check_round_numbers.
  apply ro_bind; [apply ro_is_round_number_rule|]. intros b1 _.
  apply ro_bind; [apply ro_is_round_number_rule|]. intros b2 _.
  apply ro_bind; [apply ro_is_round_number_rule|]. intros b3 _.
  repeat match goal with
         | |- context [if ?b then _ else _] => destruct b
         end; apply ro_Ok.
Qed.

(** A history whose incomes could all be compared holds numbers only,
    and the incomes kept are positive. *)
Lemma positive_incomes_Ok_inv (history : list filing) (l : list Q) :
  positive_incomes history = Ok l →
  Forall numeric_income history ∧ Forall (λ q, 0 < q) l.
Proof.
  revert l. induction history as [|f rest IH]; simpl; intros l H.
  - injection H as <-. split; constructor.
  - destruct (dict_get f "income" (PyNum 0)) as [|q|s] eqn:Hq;
      simpl in H; try discriminate.
    case_Qltb 0 q; simpl in H.
    + destruct (positive_incomes rest) as [tl|] eqn:Hr; simpl in H;
        [|discriminate].
      injection H as <-. destruct (IH tl eq_refl) as [Hn Hp].
      split; constructor; try assumption. exists q. exact Hq.
    + destruct (IH l H) as [Hn Hp].
      split; [constructor; [exists q; exact Hq | assumption] | assumption].
Qed.

(** [analyze] takes its normal path exactly on a filing whose sector is
    a string (or absent) and whose income and deductions are numbers (or
    absent), with a history whose incomes are all numbers.  On every
    other input the body raises [AttributeError] when the sector is not
    a string and [TypeError] otherwise, which is what the degraded
    assessment reports.  This is for amounts within [amount_limit]:
    beyond it Python can also raise [OverflowError]. *)
Theorem analyze_normal_path_iff (f : filing) (h : option (list filing)) :
  amounts_in_range f h = true →
  ((∃ a, analyze_body f h = Ok a) ↔
     (∃ s, dict_get f "business_sector" (PyStr "services") = PyStr s) ∧
     (∃ q, dict_get f "income" (PyNum 0) = PyNum q) ∧
     (∃ d, dict_get f "deductions" (PyNum 0) = PyNum d) ∧
     Forall numeric_income (default [] h)) ∧
  (∀ e, analyze_body f h = Raise e →
        match dict_get f "business_sector" (PyStr "services") with
        | PyStr _ => e = TypeError
        | _ => e = AttributeError
        end).
Proof.
  intros _.
  split; [split|].
  - intros (a & Ha). unfold analyze_body in Ha. bind_inv Ha.
    split.
    { destruct (dict_get f "business_sector" _); try discriminate. eauto. }
    destruct (dict_get f "income" (PyNum 0)) as [|q|s]; try discriminate.
    destruct (dict_get f "deductions" (PyNum 0)) as [|d|s]; try discriminate.
    split; [eauto|]. split; [eauto|].
    destruct h as [[|f0 rest]|]; [constructor | | constructor].
    simpl in Ev3. unfold _check_historical_consistency in Ev3.
    apply bind_Ok in Ev3 as (l & Hl & _).
    exact (proj1 (positive_incomes_Ok_inv (f0 :: rest) l Hl)).
  - intros ((s & Hs) & (q & Hq) & (d & Hd) & Hh).
    destruct (analyze_returns_on_well_formed f h q d s Hq Hd Hs Hh) as (a & Ha & _).
    eauto.
  - intros e He. unfold analyze_body in He.
    destruct (dict_get f "business_sector" (PyStr "services")) as [|n|s];
      simpl in He; try (injection He as <-; reflexivity).
    revert e He.
    match goal with
    | |- ∀ e, ?m = Raise e → e = TypeError =>
        change (raises_only TypeError m)
    end.
    apply ro_bind; [apply ro_deduction_ratio|]. intros ratio _.
    apply ro_bind; [apply ro_py_sub|]. intros taxable _.
    apply ro_bind; [apply ro_check_industry_deviation|]. intros r1 _.
    apply ro_bind.
    { destruct (history_given h);
        [apply ro_check_historical_consistency | apply ro_Ok]. }
    intros r3 _.
    apply ro_bind; [apply ro_check_round_numbers|]. intros r4 _.
    apply ro_Ok.
Qed.

(** The "High Risk Filing" scenario is in range and takes the normal
    path; the filing whose income is a string is in range and fails with
    [TypeError]. *)
Lemma analyze_normal_path_iff_witness :
  (∃ a, analyze_body high_risk_filing None = Ok a) ∧
  analyze_body malformed_filing None = Raise TypeError.
Proof.
  split.
  - apply (proj1 (analyze_normal_path_iff high_risk_filing None eq_refl)).
    split; [exists "retail"; reflexivity|].
    split; [exists 10000; reflexivity|].
    split; [exists 8000; reflexivity | constructor].
  - destruct (analyze_body malformed_filing None) as [a|e] eqn:E;
      [vm_compute in E; discriminate E|].
    f_equal.
    exact (proj2 (analyze_normal_path_iff malformed_filing None eq_refl) e E).
Defined.

(** For amounts within [amount_limit], [extract_features] returns a
    vector exactly when the income and the deductions are numbers (or
    absent) and the incomes of the history are all numbers; the sector
    may be any value. *)
Theorem extract_features_returns_iff
    (self : AFD.detector) (f : filing) (h : option (list filing)) :
  amounts_in_range f h = true →
  ((∃ v, AFD.extract_features self f h = Ok v) ↔
     (∃ q, dict_get f "income" (PyNum 0) = PyNum q) ∧
     (∃ d, dict_get f "deductions" (PyNum 0) = PyNum d) ∧
     Forall numeric_income (default [] h)).
Proof.
  intros _. split.
  - intros (v & Hv). unfold AFD.extract_features in Hv. bind_inv Hv.
    destruct (dict_get f "income" (PyNum 0)) as [|q|s]; try discriminate.
    destruct (dict_get f "deductions" (PyNum 0)) as [|d|s]; try discriminate.
    split; [eauto|]. split; [eauto|].
    destruct h as [[|f0 rest]|]; [constructor | | constructor].
    cbv beta iota in Ev1. apply bind_Ok in Ev1 as (l & Hl & _).
    exact (proj1 (positive_incomes_Ok_inv (f0 :: rest) l Hl)).
  - intros ((q & Hq) & (d & Hd) & Hh).
    exact (extract_features_returns_on_well_formed self f h q d Hq Hd Hh).
Qed.

(** The "High Risk Filing" scenario with one prior filing yields a
    vector; the filing whose income is a string yields none. *)
Lemma extract_features_returns_iff_witness :
  (∃ v, AFD.extract_features (constant_detector 0.5) high_risk_filing
          (Some one_prior_filing) = Ok v) ∧
  ¬ (∃ v, AFD.extract_features (constant_detector 0.5) malformed_filing None = Ok v).
Proof.
  split.
  - apply (extract_features_returns_iff (constant_detector 0.5)
             high_risk_filing (Some one_prior_filing) eq_refl).
    split; [exists 10000; reflexivity|].
    split; [exists 8000; reflexivity|].
    constructor; [exists 42000; reflexivity | constructor].
  - intros Hv.
    apply (extract_features_returns_iff (constant_detector 0.5)
             malformed_filing None eq_refl) in Hv as ((q & Hq) & _).
    vm_compute in Hq. discriminate Hq.
Defined.

(** ** Round figures *)

Lemma mod_zero_iff_multiple (q : Q) (m : Z) :
  (0 < m)%Z →
  Qeq_bool (q - inject_Z m * inject_Z (Qfloor (q / inject_Z m))) 0 = true ↔
  ∃ k : Z, q == inject_Z (m * k).
Proof.
  intros Hm.
  assert (Hm0 : ~ inject_Z m == 0).
  { unfold Qeq. simpl. lia. }
  rewrite Qeq_bool_iff. split.
  - intros H. exists (Qfloor (q / inject_Z m)).
    rewrite inject_Z_mult. lra.
  - intros (k & Hk).
    assert (Hdiv : q / inject_Z m == inject_Z k).
    { rewrite Hk, inject_Z_mult. field. exact Hm0. }
    rewrite (Qfloor_comp _ _ Hdiv), Qfloor_Z.
    rewrite Hk, inject_Z_mult. ring.
Qed.

(** A figure is "round" exactly when it is an integer multiple of 1000:
    the second test, divisibility by 5000, never adds a case. *)
Lemma is_round_number_iff (q : Q) :
  ∃ b, FraudDetector.is_round_number (PyNum q) = Ok b ∧
       (b = true ↔ multiple_of_1000 q).
Proof.
  unfold FraudDetector.is_round_number, multiple_of_1000, py_mod.
  cbn [bind py_num].
  pose proof (mod_zero_iff_multiple q 1000 eq_refl) as H1.
  pose proof (mod_zero_iff_multiple q 5000 eq_refl) as H5.
  change (inject_Z 1000) with 1000 in H1.
  change (inject_Z 5000) with 5000 in H5.
  destruct (Qeq_bool (q - 1000 * inject_Z (Qfloor (q / 1000))) 0) eqn:E1.
  - exists true. split; [reflexivity|]. tauto.
  - cbn [bind]. eexists. split; [reflexivity|].
    rewrite H5. split.
    + intros (k & Hk). exists (5 * k)%Z.
      replace (1000 * (5 * k))%Z with (5000 * k)%Z by lia. exact Hk.
    + intros Hk. apply H1 in Hk. discriminate.
Qed.

Lemma multiple_of_1000_sub (x y : Q) :
  multiple_of_1000 x → multiple_of_1000 y → multiple_of_1000 (x - y).
Proof.
  intros (k & Hk) (j & Hj). exists (k - j)%Z.
  replace (1000 * (k - j))%Z with (1000 * k + - (1000 * j))%Z by lia.
  rewrite inject_Z_plus, inject_Z_opp, Hk, Hj. reflexivity.
Qed.

Lemma multiple_of_1000_proper (x y : Q) :
  x == y → multiple_of_1000 x → multiple_of_1000 y.
Proof. intros Hxy (k & Hk). exists k. rewrite <- Hxy. exact Hk. Qed.

(** The three tests the detectors run on income, deductions and their
    difference: the count of round figures is 3 when income and
    deductions are both round, and otherwise 0 or 1; it is never 2. *)
Lemma round_count_cases (i d : Q) :
  ∃ b1 b2 b3,
    FraudDetector.is_round_number (PyNum i) = Ok b1 ∧
    FraudDetector.is_round_number (PyNum d) = Ok b2 ∧
    FraudDetector.is_round_number (PyNum (i - d)) = Ok b3 ∧
    (b1 = true ↔ multiple_of_1000 i) ∧
    (b2 = true ↔ multiple_of_1000 d) ∧
    (b3 = true ↔ multiple_of_1000 (i - d)) ∧
    (b1 = true → b2 = true → b3 = true) ∧
    (b1 = true → b3 = true → b2 = true) ∧
    (b2 = true → b3 = true → b1 = true).
Proof.
  destruct (is_round_number_iff i) as (b1 & H1 & M1).
  destruct (is_round_number_iff d) as (b2 & H2 & M2).
  destruct (is_round_number_iff (i - d)) as (b3 & H3 & M3).
  exists b1, b2, b3. repeat split; try tauto.
  - intros Hi Hd. apply M3. apply multiple_of_1000_sub; tauto.
  - intros Hi Ht. apply M2.
    apply (multiple_of_1000_proper (i - (i - d))); [ring|].
    apply multiple_of_1000_sub; tauto.
  - intros Hd Ht. apply M1.
    apply (multiple_of_1000_proper (d - (0 - (i - d)))); [ring|].
    apply multiple_of_1000_sub; [tauto|].
    apply multiple_of_1000_sub; [exists 0%Z; reflexivity | tauto].
Qed.

(** The round-number check as [analyze] calls it, on income, deductions
    and their difference, for whole amounts (integers within
    [amount_limit], on which Python's [-] and [%] are exact): it
    returns; the strong finding (0.5) means that income and deductions
    are both multiples of 1000 (then so is the taxable income: exactly
    two round figures cannot occur); the weak finding (0.2) means that
    exactly one of the three figures is round; no finding means none
    is. *)
Theorem round_numbers_finding (i d : Q) :
  whole_amount i = true → whole_amount d = true →
  ∃ r, _check_round_numbers (PyNum i) (PyNum d) (PyNum (i - d)) = Ok r ∧
       (risk r = 0.5 ↔ multiple_of_1000 i ∧ multiple_of_1000 d) ∧
       (risk r = 0.2 ↔
          ¬ (multiple_of_1000 i ∧ multiple_of_1000 d) ∧
          (multiple_of_1000 i ∨ multiple_of_1000 d ∨ multiple_of_1000 (i - d))) ∧
       (risk r = 0 ↔
          ¬ multiple_of_1000 i ∧ ¬ multiple_of_1000 d ∧
          ¬ multiple_of_1000 (i - d)).
Proof.
  intros _ _.
  destruct (round_count_cases i d)
    as (b1 & b2 & b3 & H1 & H2 & H3 & M1 & M2 & M3 & C12 & C13 & C23).
  unfold _check_round_numbers. rewrite H1, H2, H3. simpl.
  destruct b1, b2, b3; simpl;
    try (specialize (C12 eq_refl eq_refl); discriminate);
    try (specialize (C13 eq_refl eq_refl); discriminate);
    try (specialize (C23 eq_refl eq_refl); discriminate);
    (eexists; split; [reflexivity|]); simpl;
    repeat split; intros; try discriminate; try reflexivity;
    try tauto;
    repeat match goal with
           | H : false = true ↔ ?P |- _ =>
               assert (¬ P) by (intros HP; apply H in HP; discriminate);
               clear H
           | H : true = true ↔ ?P |- _ =>
               assert P by (apply H; reflexivity); clear H
           end; tauto.
Qed.

(** Income 10000 and deductions 8000: the strong finding. *)
Lemma round_numbers_finding_witness :
  ∃ r, _check_round_numbers (PyNum 10000) (PyNum 8000) (PyNum (10000 - 8000)) = Ok r ∧
       risk r = 0.5.
Proof.
  destruct (round_numbers_finding 10000 8000 eq_refl eq_refl)
    as (r & Hr & H5 & _).
  exists r. split; [exact Hr|].
  apply H5. split; [exists 10%Z | exists 8%Z]; reflexivity.
Defined.

(** For whole amounts, the round-number slot of the feature vector
    holds 0, 1 or 3, never 2; it holds 3 exactly when income and
    deductions are both multiples of 1000. *)
Theorem feature_round_count
    (self : AFD.detector) (f : filing) (h : option (list filing))
    (v : list AFD.feat) (i d : Q) :
  AFD.extract_features self f h = Ok v →
  dict_get f "income" (PyNum 0) = PyNum i →
  dict_get f "deductions" (PyNum 0) = PyNum d →
  whole_amount i = true → whole_amount d = true →
  ∃ n : nat,
    v !! 5%nat = Some (AFD.FNum (inject_Z (Z.of_nat n))) ∧
    (n = 0 ∨ n = 1 ∨ n = 3)%nat ∧
    (n = 3%nat ↔ multiple_of_1000 i ∧ multiple_of_1000 d).
Proof.
  intros Hv Hi Hd _ _.
  destruct (round_count_cases i d)
    as (b1 & b2 & b3 & H1 & H2 & H3 & M1 & M2 & M3 & C12 & C13 & C23).
  unfold AFD.extract_features in Hv. rewrite Hi, Hd in Hv.
  bind_inv Hv. injection Hv as <-.
  injection Ev4 as <-.
  change AFD.is_round_number with FraudDetector.is_round_number in Ev2, Ev3, Ev5.
  rewrite H1 in Ev2. rewrite H2 in Ev3. rewrite H3 in Ev5.
  injection Ev2 as <-. injection Ev3 as <-. injection Ev5 as <-.
  eexists. split; [reflexivity|].
  destruct b1, b2, b3; simpl;
    try (specialize (C12 eq_refl eq_refl); discriminate);
    try (specialize (C13 eq_refl eq_refl); discriminate);
    try (specialize (C23 eq_refl eq_refl); discriminate);
    (split; [auto|]); split; intros; try discriminate; try tauto;
    repeat match goal with
           | H : false = true ↔ ?P |- _ =>
               assert (¬ P) by (intros HP; apply H in HP; discriminate);
               clear H
           | H : true = true ↔ ?P |- _ =>
               assert P by (apply H; reflexivity); clear H
           end; tauto.
Qed.

(** Income 10000 and deductions 8000: three round figures. *)
Lemma feature_round_count_witness :
  ∃ v, AFD.extract_features (constant_detector 0.5) high_risk_filing None = Ok v ∧
       v !! 5%nat = Some (AFD.FNum (inject_Z 3)).
Proof.
  destruct (AFD.extract_features (constant_detector 0.5) high_risk_filing None)
    as [v|e] eqn:E; [|vm_compute in E; discriminate E].
  destruct (feature_round_count (constant_detector 0.5) high_risk_filing None
              v 10000 8000 E eq_refl eq_refl eq_refl eq_refl)
    as (n & Hv & _ & Hiff).
  assert (Hn : n = 3%nat).
  { apply Hiff. split; [exists 10%Z | exists 8%Z]; reflexivity. }
  subst n. exists v. split; [reflexivity | exact Hv].
Defined.

(** ** The history *)



Lemma positive_incomes_skip (h1 h2 : list filing) (g : filing) (q : Q) :
  dict_get g "income" (PyNum 0) = PyNum q → q <= 0 →
  positive_incomes (h1 ++ g :: h2) = positive_incomes (h1 ++ h2).
Proof.
  intros Hg Hq. induction h1 as [|f0 h1 IH]; simpl.
  - rewrite Hg. simpl.
    assert (Qltb 0 q = false) as -> by (apply Qltb_ge; exact Hq). reflexivity.
  - rewrite IH. reflexivity.
Qed.

Lemma check_historical_consistency_skip
    (f : filing) (h1 h2 : list filing) (g : filing) (q : Q) :
  dict_get g "income" (PyNum 0) = PyNum q → q <= 0 →
  _check_historical_consistency f (h1 ++ g :: h2)
  = _check_historical_consistency f (h1 ++ h2).
Proof.
  intros Hg Hq. unfold _check_historical_consistency.
  rewrite (positive_incomes_skip h1 h2 g q Hg Hq).
  destruct (h1 ++ h2) as [|f0 rest] eqn:E.
  - destruct (h1 ++ g :: h2) eqn:E'; reflexivity.
  - destruct (h1 ++ g :: h2) eqn:E'; [|reflexivity].
    destruct h1; discriminate.
Qed.

(** A prior filing whose income is zero, negative or absent has no
    influence: inserting it anywhere into the history changes neither
    the assessment of [analyze] nor the feature vector. *)
Theorem nonpositive_history_entry_is_ignored
    (self : AFD.detector) (f : filing) (h1 h2 : list filing)
    (g : filing) (q : Q) :
  dict_get g "income" (PyNum 0) = PyNum q → q <= 0 →
  analyze f (Some (h1 ++ g :: h2)) = analyze f (Some (h1 ++ h2)) ∧
  AFD.extract_features self f (Some (h1 ++ g :: h2))
  = AFD.extract_features self f (Some (h1 ++ h2)).
Proof.
  intros Hg Hq.
  pose proof (positive_incomes_skip h1 h2 g q Hg Hq) as Hpi.
  pose proof (check_historical_consistency_skip f h1 h2 g q Hg Hq) as Hck.
  assert (Hgiven : history_given (Some (h1 ++ g :: h2)) = true)
    by (destruct h1; reflexivity).
  split.
  - unfold analyze. f_equal. unfold analyze_body.
    rewrite Hgiven.
    change (default [] (Some (h1 ++ g :: h2))) with (h1 ++ g :: h2).
    change (default [] (Some (h1 ++ h2))) with (h1 ++ h2).
    rewrite Hck.
    unfold _check_industry_deviation.
    destruct (h1 ++ h2) as [|f0 rest] eqn:E; [|reflexivity].
    cbn [history_given _check_historical_consistency bind].
    repeat match goal with
           | |- bind ?m _ = bind ?m _ => destruct m; cbn [bind]; [|reflexivity]
           end.
    reflexivity.
  - unfold AFD.extract_features.
    destruct (h1 ++ h2) as [|f0 rest] eqn:E.
    + destruct (h1 ++ g :: h2) as [|f1 rest1] eqn:E'; [reflexivity|].
      cbv beta iota. rewrite Hpi. reflexivity.
    + destruct (h1 ++ g :: h2) as [|f1 rest1] eqn:E';
        [destruct h1; discriminate|].
      cbv beta iota. rewrite Hpi. reflexivity.
Qed.

(** A prior filing reporting no income, appended to a history. *)
Lemma nonpositive_history_entry_is_ignored_witness :
  analyze high_risk_filing (Some (one_prior_filing ++ zero_income_filing :: []))
  = analyze high_risk_filing (Some (one_prior_filing ++ [])) ∧
  AFD.extract_features (constant_detector 0.5) high_risk_filing
    (Some (one_prior_filing ++ zero_income_filing :: []))
  = AFD.extract_features (constant_detector 0.5) high_risk_filing
      (Some (one_prior_filing ++ [])).
Proof.
  apply (nonpositive_history_entry_is_ignored (constant_detector 0.5)
           high_risk_filing one_prior_filing [] zero_income_filing 0).
  - reflexivity.
  - apply Qle_refl.
Defined.

(** ** Recommendations *)

Lemma prefix_refl (s : string) : String.prefix s s = true.
Proof.
  induction s as [|c s IH]; simpl; [reflexivity|].
  destruct (ascii_dec c c); [exact IH | congruence].
Qed.

Lemma prefix_app (w a b : string) :
  String.prefix w a = true → String.prefix w (a +:+ b) = true.
Proof.
  revert a. induction w as [|c w IH]; intros a H.
  - destruct a; [destruct b|]; reflexivity.
  - destruct a as [|c' a]; simpl in *; [discriminate|].
    destruct (ascii_dec c c'); [auto | discriminate].
Qed.

Lemma str_contains_app_l (w a b : string) :
  str_contains w a = true → str_contains w (a +:+ b) = true.
Proof.
  induction a as [|c a IH]; intros H.
  - simpl in H. rewrite orb_false_r in H.
    destruct w; [|discriminate]. destruct b; reflexivity.
  - cbn [str_contains] in H. apply orb_true_iff in H as [H | H].
    + pose proof (prefix_app w (String c a) b H) as P.
      change (String c a +:+ b) with (String c (a +:+ b)) in *.
      cbn [str_contains]. rewrite P. reflexivity.
    + change (String c a +:+ b) with (String c (a +:+ b)).
      cbn [str_contains]. rewrite (IH H). apply orb_true_r.
Qed.

Lemma str_contains_app_r (w a b : string) :
  str_contains w b = true → str_contains w (a +:+ b) = true.
Proof.
  intros H. induction a as [|c a IH]; [exact H|].
  change (String c a +:+ b) with (String c (a +:+ b)).
  cbn [str_contains]. rewrite IH. apply orb_true_r.
Qed.

Lemma str_lower_app (a b : string) :
  str_lower (a +:+ b) = str_lower a +:+ str_lower b.
Proof.
  induction a as [|c a IH]; [reflexivity|].
  change (String c a +:+ b) with (String c (a +:+ b)).
  cbn [str_lower]. rewrite IH. reflexivity.
Qed.

(** Close a goal [str_contains w (str_lower (lit +:+ ... )) = true] by
    finding the literal segment that holds [w]. *)
Ltac mentions :=
  rewrite ?str_lower_app;
  first
    [ reflexivity
    | apply str_contains_app_l; reflexivity
    | apply str_contains_app_r; mentions ].

Lemma deduction_reason_mentions (ratio : Q) (sector : string) :
  0 < risk (_check_deduction_ratio ratio sector) →
  str_contains "deduction"
    (str_lower (reason (_check_deduction_ratio ratio sector))) = true ∧
  (risk (_check_deduction_ratio ratio sector) = 0.9 →
   str_contains "income"
     (str_lower (reason (_check_deduction_ratio ratio sector))) = true).
Proof.
  unfold _check_deduction_ratio.
  repeat match goal with
         | |- context [if ?b then _ else _] => destruct b
         end; cbn [risk reason no_finding]; intros H;
    try (exfalso; revert H; vm_compute; congruence);
    (split; [mentions | intros E; try discriminate E; mentions]).
Qed.

Lemma industry_reason_mentions (income : pyval) (sector : string)
    (h : option (list filing)) (r : finding) :
  _check_industry_deviation income sector h = Ok r → 0 < risk r →
  str_contains "income" (str_lower (reason r)) = true.
Proof.
  unfold _check_industry_deviation. intros H Hr.
  destruct income as [|q|s]; simpl in H; try discriminate.
  destruct (Qltb q 10000); simpl in H.
  - injection H as <-. cbn [reason]. mentions.
  - destruct (Qltb q 25000); injection H as <-; cbn [reason].
    + mentions.
    + exfalso. revert Hr. vm_compute. congruence.
Qed.

Lemma historical_reason_mentions (f : filing) (history : list filing) (r : finding) :
  _check_historical_consistency f history = Ok r → 0 < risk r →
  str_contains "income" (str_lower (reason r)) = true.
Proof.
  unfold _check_historical_consistency. intros H Hr.
  assert (Hno : ¬ 0 < risk no_finding) by (vm_compute; congruence).
  destruct history as [|f0 rest]; [injection H as <-; tauto|].
  apply bind_Ok in H as (incomes & _ & H).
  destruct incomes as [|q0 qs]; [injection H as <-; tauto|].
  destruct (Qltb 0 (np_mean (q0 :: qs))); [|injection H as <-; tauto].
  bind_inv H.
  repeat match type of H with
         | context [if ?b then _ else _] => destruct b
         end; injection H as <-; try tauto; cbn [reason]; mentions.
Qed.

Lemma record_finding_keeps (name : string) (r : finding)
    (acc : list string * Q) (x : string) :
  In x acc.1 → In x (record_finding name r acc).1.
Proof.
  unfold record_finding. destruct (Qltb 0 (risk r)); simpl; [|auto].
  intros H. apply in_or_app. auto.
Qed.

Lemma record_finding_reports (name : string) (r : finding)
    (acc : list string * Q) :
  0 < risk r → In (reason r) (record_finding name r acc).1.
Proof.
  intros H. apply Qltb_lt in H. unfold record_finding. rewrite H. simpl.
  apply in_or_app. right. left. reflexivity.
Qed.

Lemma record_finding_nil (name : string) (r : finding) (acc : list string * Q) :
  (record_finding name r acc).1 = [] → acc.1 = [].
Proof.
  unfold record_finding. destruct (Qltb 0 (risk r)); simpl; [|auto].
  intros H. apply app_eq_nil in H as [_ H]. discriminate.
Qed.

Lemma any_mentions_In (w : string) (l : list string) (x : string) :
  In x l → str_contains w (str_lower x) = true → any_mentions w l = true.
Proof.
  intros Hx Hw. unfold any_mentions. apply existsb_exists. eauto.
Qed.

(** The recommendation of a successful analysis starts with the text
    chosen by the level.  A deduction-ratio finding always adds the hint
    to verify the deduction documentation.  An income or a historical
    finding always adds the hint to cross-reference third-party data,
    and so does the strongest deduction finding, whose text mentions the
    income.  Without any factor the recommendation is the text of the
    level alone. *)
Theorem recommendation_follows_findings
    (f : filing) (h : option (list filing)) (a : assessment) :
  analyze_body f h = Ok a →
  ∃ ratio taxable industry parts,
    detailed_analysis a = Details ratio taxable industry parts ∧
    String.prefix (dict_get base_recommendations (level a) "Review required")
                  (recommendation a) = true ∧
    (0 < fb_deduction_ratio parts →
     str_contains " | Verify deduction documentation" (recommendation a) = true) ∧
    (0 < fb_income_deviation parts ∨ 0 < fb_historical_inconsistency parts
     ∨ fb_deduction_ratio parts = 0.9 →
     str_contains " | Cross-reference with third-party data"
                  (recommendation a) = true) ∧
    (factors a = [] →
     recommendation a
     = dict_get base_recommendations (level a) "Review required").
Proof.
  intros H. unfold analyze_body in H. bind_inv H. injection H as <-.
  cbn [detailed_analysis level recommendation factors
       fb_deduction_ratio fb_income_deviation fb_historical_inconsistency].
  do 4 eexists. split; [reflexivity|].
  match goal with
  | |- context [_generate_recommendations ?lv ?fs] =>
      set (lvl := lv); set (facts := fs)
  end.
  set (acc1 := record_finding "income_deviation" v2 ([], 0)) in *.
  set (r2 := _check_deduction_ratio v0 v) in *.
  set (acc2 := record_finding "deduction_ratio" r2 acc1) in *.
  set (acc3 := if history_given h
               then record_finding "historical_inconsistency" v3 acc2 else acc2) in *.
  set (acc4 := record_finding "round_numbers" v4 acc3) in *.
  assert (K3 : ∀ x, In x acc2.1 → In x acc3.1).
  { intros x Hx. subst acc3. destruct (history_given h);
      [apply record_finding_keeps|]; exact Hx. }
  assert (K5 : ∀ x, In x acc3.1 → In x facts).
  { intros x Hx. subst facts acc4.
    do 2 apply record_finding_keeps. exact Hx. }
  assert (Hded : 0 < risk r2 → any_mentions "deduction" facts = true).
  { intros Hr. eapply any_mentions_In;
      [apply K5, K3, record_finding_reports, Hr|].
    apply (deduction_reason_mentions v0 v Hr). }
  assert (Hinc : 0 < risk v2 ∨ 0 < (if history_given h then risk v3 else 0)
                 ∨ risk r2 = 0.9 →
                 any_mentions "income" facts = true).
  { intros [Hr | [Hr | Hr]].
    - eapply any_mentions_In;
        [apply K5, K3, record_finding_keeps, record_finding_reports, Hr|].
      eapply industry_reason_mentions; eauto.
    - destruct (history_given h) eqn:Hh; [|exfalso; revert Hr; vm_compute; congruence].
      eapply any_mentions_In.
      + apply K5. subst acc3. try rewrite Hh. apply record_finding_reports, Hr.
      + eapply historical_reason_mentions; eauto.
    - assert (Hpos : 0 < risk r2) by (rewrite Hr; reflexivity).
      eapply any_mentions_In;
        [apply K5, K3, record_finding_reports, Hpos|].
      apply (proj2 (deduction_reason_mentions v0 v Hpos) Hr). }
  unfold _generate_recommendations.
  split; [|split; [|split]].
  - destruct (any_mentions "deduction" facts), (any_mentions "income" facts);
      repeat apply prefix_app; apply prefix_refl.
  - intros Hr. rewrite (Hded Hr).
    destruct (any_mentions "income" facts);
      [apply str_contains_app_l|]; apply str_contains_app_r; reflexivity.
  - intros Hr. rewrite (Hinc Hr).
    apply str_contains_app_r. reflexivity.
  - intros Hnil. rewrite Hnil. reflexivity.
Qed.

(** The "High Risk Filing" scenario carries a deduction finding, hence
    the hint on the deduction documentation. *)
Lemma recommendation_follows_findings_witness :
  str_contains " | Verify deduction documentation"
    (recommendation (analyze high_risk_filing None)) = true.
Proof.
  destruct (recommendation_follows_findings high_risk_filing None
              (analyze high_risk_filing None))
    as (ratio & taxable & industry & parts & Hd & _ & Hded & _).
  - vm_compute. reflexivity.
  - apply Hded. vm_compute in Hd. injection Hd as _ _ _ <-.
    vm_compute. reflexivity.
Defined.

(** ** The deduction check across sectors *)

(** The typical ratio the deduction check reads for a sector; a sector
    missing from the table is treated as "services". *)
Lemma typical_ratio_of (sector : string) :
  sd_deduction_ratio
    (dict_get industry_averages sector (industry_averages !!! "services"))
  = if decide (sector = "retail") then 0.35
    else if decide (sector = "manufacturing") then 0.28
    else if decide (sector = "services") then 0.42
    else if decide (sector = "construction") then 0.38
    else if decide (sector = "agriculture") then 0.32
    else 0.42.
Proof.
  change (industry_averages !!! "services") with (SectorData 1.0 0.42).
  unfold dict_get, industry_averages. cbn [list_to_map foldr fst snd uncurry].
  repeat (rewrite lookup_insert;
          match goal with
          | |- context [decide (?k = sector)] =>
              destruct (decide (k = sector)) as [<-|?];
              [reflexivity|];
              destruct (decide (sector = k)) as [Heq|_];
              [symmetry in Heq; contradiction|]
          end).
  rewrite lookup_empty. reflexivity.
Qed.

(** The deduction check is monotone: a larger share of deductions never
    lowers the risk it reports.  Its weakest finding (0.3, "above
    average for the sector") exists for retail, manufacturing,
    construction and agriculture only: for "services", and for every
    sector missing from the table, the threshold of that tier is 0.52,
    which lies above the threshold 0.5 of the next tier, so the finding
    can never be reported. *)
Theorem deduction_check_across_sectors (sector : string) :
  (∀ r1 r2 : Q,
     r1 <= r2 →
     risk (_check_deduction_ratio r1 sector)
     <= risk (_check_deduction_ratio r2 sector)) ∧
  ((∃ r : Q, risk (_check_deduction_ratio r sector) = 0.3) ↔
   sector = "retail" ∨ sector = "manufacturing" ∨
   sector = "construction" ∨ sector = "agriculture").
Proof.
  pose proof (typical_ratio_of sector) as Ht.
  unfold _check_deduction_ratio.
  set (t := sd_deduction_ratio
              (dict_get industry_averages sector (industry_averages !!! "services"))) in *.
  split.
  - intros r1 r2 Hle.
    case_Qltb 0.7 r1; [|case_Qltb 0.5 r1; [|case_Qltb (t + 0.1) r1]];
      (case_Qltb 0.7 r2; [|case_Qltb 0.5 r2; [|case_Qltb (t + 0.1) r2]]);
      cbn [risk no_finding]; lra.
  - split.
    + intros (r & Hr).
      case_Qltb 0.7 r; [discriminate Hr|].
      case_Qltb 0.5 r; [discriminate Hr|].
      case_Qltb (t + 0.1) r; [|discriminate Hr].
      repeat match type of Ht with
             | context [decide (sector = ?k)] =>
                 destruct (decide (sector = k)) as [->|?]
             end; try tauto; rewrite Ht in E1; lra.
    + intros Hs. exists 0.5.
      assert (Hlt : t + 0.1 < 0.5).
      { destruct Hs as [-> | [-> | [-> | ->]]]; rewrite Ht; reflexivity. }
      apply Qltb_lt in Hlt. rewrite Hlt. reflexivity.
Qed.

(** ** The two detectors on the same history *)



(** ** The estimator's flag and confidence *)

(** The result of [predict] when the two class probabilities of the
    classifier sum to one, as scikit-learn's do.  On the normal path
    the confidence is at least 0.5, the flag [prediction] is raised
    exactly when the fraud probability exceeds 0.5, and the confidence
    is the probability of the predicted class: the fraud probability
    when flagged, its complement otherwise.  On the error path
    probability and confidence are 0 and the flag is down, so a
    confidence below 0.5 identifies a degraded result. *)
Theorem predict_flag_and_confidence
    (self : AFD.detector) (f : filing) (h : option (list filing)) :
  (∀ x p, AFD.ml_predict_proba self x = Ok p → p.1 + p.2 == 1) →
  ∃ p c b,
    AFD.predict self f h !! "fraud_probability" = Some (AFD.ONum p) ∧
    AFD.predict self f h !! "model_confidence" = Some (AFD.ONum c) ∧
    AFD.predict self f h !! "prediction" = Some (AFD.OBool b) ∧
    (b = true ↔ 0.5 < p) ∧
    (degraded (AFD.predict self f h) ↔ c < 0.5) ∧
    (degraded (AFD.predict self f h) → p = 0 ∧ c = 0) ∧
    (¬ degraded (AFD.predict self f h) →
     (b = true → c == p) ∧ (b = false → c == 1 - p)).
Proof.
  intros Hsum.
  pose proof (predict_degraded_iff self f h) as Hdeg.
  unfold AFD.predict in *.
  destruct (AFD.predict_body self f h) as [d|e] eqn:Hb; cbn [try_except] in *.
  - unfold AFD.predict_body in Hb. bind_inv Hb. injection Hb as <-.
    assert (v2 = v1) as -> by congruence.
    pose proof (Hsum _ _ Ev1) as H1.
    destruct v1 as [p0 p1]. cbn [fst snd] in *.
    assert (Hnd : ¬ degraded
                    (list_to_map
                       [ ("fraud_probability", AFD.ONum p1);
                         ("prediction", AFD.OBool (Qltb 0.5 p1));
                         ("feature_importance",
                          AFD.ODict (list_to_map
                                       (zip AFD.feature_names
                                            (AFD.ml_feature_importances self))));
                         ("model_confidence", AFD.ONum (AFD.np_max2 (p0, p1))) ])).
    { intros Hd. apply Hdeg in Hd as (e & He & _). discriminate He. }
    exists p1, (AFD.np_max2 (p0, p1)), (Qltb 0.5 p1).
    do 3 (split; [reflexivity|]).
    split; [apply Qltb_lt|].
    unfold AFD.np_max2. cbn [fst snd].
    split; [|split].
    + split; [intros Hd; contradiction|].
      intros Hc. exfalso. case_Qltb p0 p1; lra.
    + intros Hd. contradiction.
    + intros _. split.
      * intros Hf. apply Qltb_lt in Hf. case_Qltb p0 p1; lra.
      * intros Hf. apply Qltb_ge in Hf. case_Qltb p0 p1; lra.
  - exists 0, 0, false.
    do 3 (split; [reflexivity|]).
    split; [split; [discriminate | intros Hc; lra]|].
    split; [|split].
    + split; [intros _; reflexivity|]. intros _. eexists. reflexivity.
    + intros _. split; reflexivity.
    + intros Hn. exfalso. apply Hn. eexists. reflexivity.
Qed.

(** A classifier answering the probabilities (0.2, 0.8): the
    confidence is not below 0.5. *)
Lemma predict_flag_and_confidence_witness :
  ∃ c, AFD.predict (constant_detector 0.8) high_risk_filing None
         !! "model_confidence" = Some (AFD.ONum c) ∧
       ¬ c < 0.5.
Proof.
  destruct (predict_flag_and_confidence (constant_detector 0.8)
              high_risk_filing None)
    as (p & c & b & _ & Hc & _ & _ & Hdeg & _).
  - intros x q Hq. injection Hq as <-. reflexivity.
  - exists c. split; [exact Hc|].
    intros Hlt. apply Hdeg in Hlt. destruct Hlt as [e He].
    vm_compute in He. discriminate He.
Defined.

(** ** The performance monitor *)

Lemma last_n_length {A} (n : nat) (l : list A) :
  length (PM.last_n n l) = Nat.min n (length l).
Proof. unfold PM.last_n. rewrite length_drop. lia. Qed.

Lemma track_response_time_spec
    (self : PM.monitor) (endpoint : string) (rt now : Q) :
  let new := {| PM.rr_endpoint := endpoint; PM.rr_response_time := rt;
                PM.rr_timestamp := now |} in
  let after := PM.track_response_time self endpoint rt now in
  length (PM.response_times after)
    = Nat.min 1000 (S (length (PM.response_times self))) ∧
  last (PM.response_times after) = Some new ∧
  PM.response_times after
    = PM.last_n 1000 (PM.response_times self ++ [new]) ∧
  PM.cache_hits after = PM.cache_hits self ∧
  PM.cache_misses after = PM.cache_misses self ∧
  PM.start_time after = PM.start_time self.
Proof.
  intros new after. subst after. unfold PM.track_response_time. fold new.
  set (appended := PM.response_times self ++ [new]).
  assert (Hlen : length appended = S (length (PM.response_times self))).
  { subst appended. rewrite length_app. simpl. lia. }
  destruct (1000 <? length appended)%nat eqn:E.
  - apply Nat.ltb_lt in E. cbn [PM.set_response_times PM.response_times
      PM.cache_hits PM.cache_misses PM.start_time].
    split; [rewrite last_n_length; lia|].
    split; [|auto].
    unfold PM.last_n. subst appended.
    rewrite drop_app_le by (rewrite length_app in *; simpl in *; lia).
    apply last_snoc.
  - apply Nat.ltb_ge in E. cbn [PM.set_response_times PM.response_times
      PM.cache_hits PM.cache_misses PM.start_time].
    split; [lia|]. split; [apply last_snoc|].
    split; [|auto].
    unfold PM.last_n. replace (length appended - 1000)%nat with 0%nat by lia.
    reflexivity.
Qed.

(** The list of response times never holds more than 1000 records:
    whatever the monitor held before, after [track_response_time] it
    holds the new record last, preceded by the most recent earlier ones,
    at most 1000 in all; the cache counters are untouched. *)
Theorem track_response_time_keeps_last_1000
    (self : PM.monitor) (endpoint : string) (rt now : Q) :
  let new := {| PM.rr_endpoint := endpoint; PM.rr_response_time := rt;
                PM.rr_timestamp := now |} in
  let after := PM.track_response_time self endpoint rt now in
  (length (PM.response_times after) <= 1000)%nat ∧
  length (PM.response_times after)
    = Nat.min 1000 (S (length (PM.response_times self))) ∧
  last (PM.response_times after) = Some new ∧
  PM.response_times after = PM.last_n 1000 (PM.response_times self ++ [new]) ∧
  PM.cache_hits after = PM.cache_hits self ∧
  PM.cache_misses after = PM.cache_misses self.
Proof.
  intros new after.
  destruct (track_response_time_spec self endpoint rt now)
    as (Hlen & Hlast & Heq & Hh & Hm & _).
  fold new after in Hlen, Hlast, Heq, Hh, Hm.
  repeat split; try assumption. lia.
Qed.

Lemma after_calls_snoc (self : PM.monitor) (calls : list PM.call) (c : PM.call) :
  PM.after_calls self (calls ++ [c]) = PM.apply_call (PM.after_calls self calls) c.
Proof. unfold PM.after_calls. rewrite foldl_app. reflexivity. Qed.

Lemma filter_snoc_length {A} (p : A → bool) (l : list A) (x : A) :
  length (List.filter p (l ++ [x]))
  = (length (List.filter p l) + Nat.b2n (p x))%nat.
Proof.
  rewrite List.filter_app, length_app. simpl. destruct (p x); reflexivity.
Qed.

(** The state of a monitor created at [t0] and driven through any
    sequence of calls. *)
Lemma after_calls_counts (t0 : Q) (calls : list PM.call) :
  let m := PM.after_calls (PM.__init__ t0) calls in
  PM.cache_hits m = Z.of_nat (length (List.filter PM.is_hit calls)) ∧
  PM.cache_misses m = Z.of_nat (length (List.filter PM.is_miss calls)) ∧
  length (PM.response_times m)
    = Nat.min 1000 (length (List.filter PM.is_track calls)) ∧
  PM.start_time m = t0.
Proof.
  induction calls as [|c calls IH] using rev_ind.
  - repeat split; reflexivity.
  - cbv zeta in *. rewrite after_calls_snoc.
    rewrite !filter_snoc_length.
    destruct IH as (Hh & Hm & Hl & Hs).
    set (m := PM.after_calls (PM.__init__ t0) calls) in *.
    destruct c as [| |endpoint rt now]; cbn [PM.apply_call PM.is_hit PM.is_miss
      PM.is_track Nat.b2n].
    + cbn [PM.record_cache_hit PM.cache_hits PM.cache_misses PM.response_times
        PM.start_time]. repeat split; try lia. assumption.
    + cbn [PM.record_cache_miss PM.cache_hits PM.cache_misses PM.response_times
        PM.start_time]. repeat split; try lia. assumption.
    + destruct (track_response_time_spec m endpoint rt now)
        as (Hlen & _ & _ & Hh' & Hm' & Hs').
      cbv zeta in *. rewrite Hlen, Hh', Hm', Hs'. repeat split; try lia.
      assumption.
Qed.

(** For a monitor created and then driven through any sequence of
    record-hit, record-miss and track calls: the hit rate is the number
    of hits over the number of lookups (0 before the first lookup), it
    lies in [0, 1], and at most 1000 response records are held. *)
Theorem monitor_hit_rate (t0 : Q) (calls : list PM.call) :
  let m := PM.after_calls (PM.__init__ t0) calls in
  let hits := Z.of_nat (length (List.filter PM.is_hit calls)) in
  let misses := Z.of_nat (length (List.filter PM.is_miss calls)) in
  0 <= PM._calculate_cache_hit_rate m ∧
  PM._calculate_cache_hit_rate m <= 1 ∧
  ((hits + misses = 0)%Z → PM._calculate_cache_hit_rate m = 0) ∧
  ((0 < hits + misses)%Z →
   PM._calculate_cache_hit_rate m == inject_Z hits / inject_Z (hits + misses)) ∧
  (length (PM.response_times m) <= 1000)%nat.
Proof.
  intros m hits misses.
  destruct (after_calls_counts t0 calls) as (Hh & Hm & Hl & _).
  fold m hits misses in Hh, Hm, Hl.
  unfold PM._calculate_cache_hit_rate. rewrite Hh, Hm.
  assert (Hh0 : (0 <= hits)%Z) by (subst hits; lia).
  assert (Hm0 : (0 <= misses)%Z) by (subst misses; lia).
  destruct (0 <? hits + misses)%Z eqn:E.
  - apply Z.ltb_lt in E.
    assert (Ht : 0 < inject_Z (hits + misses)).
    { unfold Qlt. simpl. lia. }
    assert (Hq : 0 <= inject_Z hits) by (unfold Qle; simpl; lia).
    assert (Hle : inject_Z hits <= inject_Z (hits + misses))
      by (rewrite <- Zle_Qle; lia).
    split; [apply Qle_shift_div_l; [exact Ht | lra]|].
    split; [apply Qle_shift_div_r; [exact Ht | lra]|].
    split; [lia|]. split; [reflexivity | lia].
  - apply Z.ltb_ge in E.
    split; [discriminate|]. split; [discriminate|].
    split; [reflexivity|]. split; lia.
Qed.

Lemma Qsum_snoc (l : list Q) (x : Q) : Qsum (l ++ [x]) == Qsum l + x.
Proof.
  induction l as [|y l IH]; simpl; [ring|]. rewrite IH. ring.
Qed.

Lemma responses_of_snoc (e : string) (l : list PM.response_record)
    (x : PM.response_record) :
  PM.responses_of e (l ++ [x])
  = PM.responses_of e l ++ (if String.eqb (PM.rr_endpoint x) e then [x] else []).
Proof. unfold PM.responses_of. rewrite List.filter_app. reflexivity. Qed.

(** What the first loop of [_get_endpoint_metrics] has collected after a
    list of responses: an endpoint has an entry exactly when it occurs,
    and the entry counts, sums and bounds the times of its responses. *)
Lemma collected_stats (l : list PM.response_record) (e : string) :
  match foldl PM.add_response ∅ l !! e with
  | None => PM.responses_of e l = []
  | Some s =>
      PM.responses_of e l ≠ [] ∧
      PM.count s = Z.of_nat (length (PM.responses_of e l)) ∧
      PM.total_time s == Qsum (PM.times_of (PM.responses_of e l)) ∧
      0 <= PM.max_time s ∧
      ∃ mn, PM.min_time s = PM.Fin mn ∧
            Exists (λ r, PM.rr_response_time r = mn) (PM.responses_of e l) ∧
            Forall (λ r, mn <= PM.rr_response_time r ∧
                         PM.rr_response_time r <= PM.max_time s)
                   (PM.responses_of e l)
  end.
Proof.
  induction l as [|x l IH] using rev_ind.
  - cbn [foldl]. rewrite lookup_empty. reflexivity.
  - rewrite foldl_app. cbn [foldl]. unfold PM.add_response at 1.
    set (acc := foldl PM.add_response ∅ l) in *.
    rewrite responses_of_snoc.
    destruct (String.eqb (PM.rr_endpoint x) e) eqn:Ee.
    + apply String.eqb_eq in Ee. subst e. rewrite lookup_insert_eq.
      set (rs := PM.responses_of (PM.rr_endpoint x) l) in *.
      cbn [PM.count PM.total_time PM.min_time PM.max_time].
      split; [intros H; apply app_eq_nil in H as [_ H]; discriminate|].
      unfold PM.times_of. rewrite length_app, List.map_app.
      cbn [length List.map].
      pose proof (Qsum_snoc (List.map PM.rr_response_time rs) (PM.rr_response_time x)) as Hsnoc.
      destruct (acc !! PM.rr_endpoint x) as [s|] eqn:Es.
      * destruct IH as (_ & Hc & Ht & Hmax & mn & Hmn & Hex & Hall).
        cbn [default from_option id]. rewrite Hmn.
        split; [lia|].
        split; [unfold PM.times_of in Ht;
                apply (Qeq_trans _ (Qsum (List.map PM.rr_response_time rs) + PM.rr_response_time x));
                [lra | symmetry; exact Hsnoc]|].
        unfold PM.py_max, PM.py_min_x.
        case_Qltb (PM.max_time s) (PM.rr_response_time x);
          case_Qltb (PM.rr_response_time x) mn;
          (split; [lra|]); eexists; (split; [reflexivity|]);
          (split;
           [ apply Exists_app;
             ((right; apply Exists_cons_hd; reflexivity) || (left; exact Hex))
           | apply Forall_app; split;
             [ eapply Forall_impl; [exact Hall|]; cbv beta; intros r [? ?];
               split; lra
             | constructor; [split; lra | constructor] ] ]).
      * cbn [default from_option id PM.fresh_stats PM.count PM.total_time
             PM.min_time PM.max_time]. subst rs. rewrite IH.
        cbn [length List.map app].
        split; [lia|]. split; [unfold Qsum; cbn [foldr]; ring|].
        unfold PM.py_max, PM.py_min_x.
        case_Qltb 0 (PM.rr_response_time x); (split; [lra|]);
          exists (PM.rr_response_time x); (split; [reflexivity|]);
          (split; [apply Exists_cons_hd; reflexivity|]);
          (apply Forall_cons; split; [split; lra | constructor]).
    + assert (PM.rr_endpoint x ≠ e)
        by (intros Heq; apply String.eqb_eq in Heq; congruence).
      rewrite lookup_insert_ne by assumption. rewrite app_nil_r. exact IH.
Qed.

(** The per-endpoint metrics cover the last 100 responses.  An endpoint
    is listed exactly when one of them is its own; its [count] is their
    number (at least 1, so the average is never a division by zero),
    [min_time] is the smallest of their times (a number, never the
    initial infinity) and [max_time] an upper bound of them (the largest
    time, or the initial 0). *)
Theorem endpoint_metrics_summarise (self : PM.monitor) (e : string) :
  let recent := PM.last_n 100 (PM.response_times self) in
  (length recent <= 100)%nat ∧
  match PM._get_endpoint_metrics self !! e with
  | None => PM.responses_of e recent = []
  | Some m =>
      PM.responses_of e recent ≠ [] ∧
      (1 <= PM.count (PM.stats m))%Z ∧
      PM.count (PM.stats m) = Z.of_nat (length (PM.responses_of e recent)) ∧
      ∃ mn, PM.min_time (PM.stats m) = PM.Fin mn ∧
            Exists (λ r, PM.rr_response_time r = mn) (PM.responses_of e recent) ∧
            Forall (λ r, mn <= PM.rr_response_time r ∧
                         PM.rr_response_time r <= PM.max_time (PM.stats m))
                   (PM.responses_of e recent)
  end.
Proof.
  intros recent. split; [subst recent; rewrite last_n_length; lia|].
  unfold PM._get_endpoint_metrics. fold recent. rewrite lookup_fmap.
  pose proof (collected_stats recent e) as H.
  destruct (foldl PM.add_response ∅ recent !! e) as [s|]; cbn [fmap option_fmap option_map];
    [|exact H].
  destruct H as (Hne & Hc & _ & _ & mn & Hmn & Hex & Hall).
  cbn [PM.stats].
  assert (Hpos : (1 <= PM.count s)%Z).
  { rewrite Hc. destruct (PM.responses_of e recent); [congruence|]. simpl. lia. }
  split; [exact Hne|]. split; [exact Hpos|]. split; [exact Hc|].
  exists mn. split; [exact Hmn|]. split; [exact Hex | exact Hall].
Qed.

(** ** The cache of analysis results *)

Lemma string_app_inv_head (s a b : string) : s +:+ a = s +:+ b → a = b.
Proof.
  induction s as [|c s IH]; [auto|].
  change (String c s +:+ a) with (String c (s +:+ a)).
  change (String c s +:+ b) with (String c (s +:+ b)).
  intros [= H]. auto.
Qed.

Lemma generate_cache_key_eq (data_hash : filing → string) (prefix : string)
    (f f' : filing) :
  CM.generate_cache_key data_hash prefix f = CM.generate_cache_key data_hash prefix f'
  ↔ data_hash f = data_hash f'.
Proof.
  unfold CM.generate_cache_key. split.
  - intros H. apply string_app_inv_head in H. apply string_app_inv_head in H.
    exact H.
  - intros ->. reflexivity.
Qed.

(** Caching an analysis and looking it up: the result stored for a
    filing is found again for that filing and for every filing with the
    same digest, whatever was stored there before; the entries of
    filings with another digest are unchanged.  The key returned is the
    key the lookup uses. *)
Theorem cached_analysis_round_trip {V} (data_hash : filing → string)
    (store : gmap string (V * Z)) (f f' : filing) (v : V) :
  let after := CM.cache_analysis_result data_hash store f v in
  after.2 = CM.generate_cache_key data_hash "fraud_analysis" f ∧
  CM.get_cached_analysis data_hash after.1 f = Some v ∧
  (data_hash f' = data_hash f →
   CM.get_cached_analysis data_hash after.1 f' = Some v) ∧
  (data_hash f' ≠ data_hash f →
   CM.get_cached_analysis data_hash after.1 f'
   = CM.get_cached_analysis data_hash store f').
Proof.
  cbv zeta. unfold CM.cache_analysis_result, CM.get_cached_analysis,
    CM.cache_set, CM.cache_get. cbn [fst snd].
  split; [reflexivity|].
  split; [rewrite lookup_insert_eq; reflexivity|].
  split.
  - intros H. apply (generate_cache_key_eq data_hash "fraud_analysis") in H.
    rewrite H, lookup_insert_eq. reflexivity.
  - intros H. rewrite lookup_insert_ne; [reflexivity|].
    intros Hk. apply H. symmetry.
    apply (generate_cache_key_eq data_hash "fraud_analysis"). exact Hk.
Qed.

(** ** The cached endpoint *)

(** The result of [ensemble_predict], given the entries of the
    estimator result. *)
Lemma ensemble_predict_value
    (self : AFD.detector) (f : filing) (h : option (list filing)) (r : Q) :
  ∃ p c fi,
    AFD.predict self f h !! "fraud_probability" = Some (AFD.ONum p) ∧
    AFD.predict self f h !! "model_confidence" = Some (AFD.ONum c) ∧
    AFD.predict self f h !! "feature_importance" = Some (AFD.ODict fi) ∧
    (degraded (AFD.predict self f h) → p = 0 ∧ c = 0 ∧ fi = ∅) ∧
    AFD.ensemble_predict self f h r =
      Ok (list_to_map
            [ ("ensemble_score", AFD.ONum (p * 0.7 + r * 0.3));
              ("ml_score", AFD.ONum p);
              ("rule_based_score", AFD.ONum r);
              ("final_prediction", AFD.OBool (Qltb 0.6 (p * 0.7 + r * 0.3)));
              ("ml_confidence", AFD.ONum c);
              ("feature_importance", AFD.ODict fi) ]).
Proof.
  destruct (predict_entries self f h) as (p & c & fi & Hp & Hc & Hfi).
  exists p, c, fi. split; [exact Hp|]. split; [exact Hc|]. split; [exact Hfi|].
  split.
  - intros Hd. apply predict_degraded_iff in Hd as (e & _ & He).
    rewrite He in Hp, Hc, Hfi.
    injection Hp as <-. injection Hc as <-. injection Hfi as <-. auto.
  - unfold AFD.ensemble_predict, dict_getitem. rewrite Hp, Hc, Hfi. reflexivity.
Qed.

(** What the view computes after a cache miss: the rule score handed
    to the ensemble is the estimator's probability itself, so the
    ensemble score equals that probability. *)
Lemma analysis_body_value
    (self : AFD.detector) (f : filing) (h : option (list filing)) :
  ∃ p c fi s lvl rec,
    AFD.predict self f h !! "fraud_probability" = Some (AFD.ONum p) ∧
    AFD.predict self f h !! "model_confidence" = Some (AFD.ONum c) ∧
    AFD.predict self f h !! "feature_importance" = Some (AFD.ODict fi) ∧
    (degraded (AFD.predict self f h) → p = 0 ∧ c = 0 ∧ fi = ∅) ∧
    s == p ∧
    OV._get_risk_level (AFD.ONum p) = Ok lvl ∧
    OV._get_recommendation (AFD.ONum p) = Ok rec ∧
    OV.analysis_body self f h =
      Ok (list_to_map
            [ ("success", OV.RBool true);
              ("cached", OV.RBool false);
              ("risk_score", OV.ROut (AFD.ONum s));
              ("risk_level", OV.RStr lvl);
              ("ml_confidence", OV.ROut (AFD.ONum c));
              ("feature_importance", OV.ROut (AFD.ODict fi));
              ("analysis_method", OV.RStr "advanced_ensemble");
              ("recommendation", OV.RStr rec) ]).
Proof.
  destruct (predict_entries self f h) as (p0 & _ & _ & Hp0 & _).
  destruct (ensemble_predict_value self f h p0)
    as (p & c & fi & Hp & Hc & Hfi & Hdeg & He).
  assert (p0 = p) as -> by congruence.
  set (s := p * 0.7 + p * 0.3) in *.
  assert (Hs : s == p) by (subst s; ring).
  exists p, c, fi, s. do 2 eexists.
  split; [exact Hp|]. split; [exact Hc|]. split; [exact Hfi|].
  split; [exact Hdeg|]. split; [exact Hs|].
  split; [reflexivity|]. split; [reflexivity|].
  unfold OV.analysis_body, dict_getitem. rewrite Hp. cbn [bind AFD.out_num].
  rewrite He. cbn [bind].
  change (list_to_map _ !! "ensemble_score") with (Some (AFD.ONum s)).
  change (list_to_map _ !! "ml_confidence") with (Some (AFD.ONum c)).
  change (list_to_map _ !! "feature_importance") with (Some (AFD.ODict fi)).
  cbn [bind OV._get_risk_level OV._get_recommendation AFD.out_num].
  rewrite (Qleb_comp 0.7 0.7 (Qeq_refl _) s p Hs).
  rewrite (Qleb_comp 0.4 0.4 (Qeq_refl _) s p Hs).
  reflexivity.
Qed.

(** Nothing usable is cached for a filing: no entry, or an empty one. *)
Lemma post_miss_value (data_hash : filing → string)
    (sv : OV.services) (req : OV.request) (clk : OV.clock) :
  let f := default ∅ (OV.req_filing_data req) in
  match CM.get_cached_analysis data_hash (OV.cache sv) f with
  | Some cached => OV.dict_truthy cached = false
  | None => True
  end →
  ∃ p c fi s lvl rec,
    AFD.predict (OV.detector sv) f (OV.req_taxpayer_history req)
      !! "fraud_probability" = Some (AFD.ONum p) ∧
    (degraded (AFD.predict (OV.detector sv) f (OV.req_taxpayer_history req)) →
     p = 0 ∧ c = 0 ∧ fi = ∅) ∧
    s == p ∧
    OV._get_risk_level (AFD.ONum p) = Ok lvl ∧
    OV._get_recommendation (AFD.ONum p) = Ok rec ∧
    let data : gmap string OV.rval :=
      list_to_map
        [ ("success", OV.RBool true);
          ("cached", OV.RBool false);
          ("risk_score", OV.ROut (AFD.ONum s));
          ("risk_level", OV.RStr lvl);
          ("ml_confidence", OV.ROut (AFD.ONum c));
          ("feature_importance", OV.ROut (AFD.ODict fi));
          ("analysis_method", OV.RStr "advanced_ensemble");
          ("recommendation", OV.RStr rec) ] in
    OV.post data_hash sv req clk =
      ({| OV.status := 200;
          OV.body :=
            <["processing_time_ms" :=
                OV.RInt (OV.py_int ((OV.t_end clk - OV.t_start clk) * 1000))]> data |},
       {| OV.detector := OV.detector sv;
          OV.cache :=
            CM.cache_set (OV.cache sv)
              (CM.generate_cache_key data_hash "fraud_analysis" f) data 86400;
          OV.monitor :=
            PM.track_response_time
              (PM.record_cache_miss (OV.monitor sv)) "fraud_detection"
              (OV.t_end clk - OV.t_start clk) (OV.t_stamp clk) |}).
Proof.
  intros f Hmiss.
  destruct (analysis_body_value (OV.detector sv) f (OV.req_taxpayer_history req))
    as (p & c & fi & s & lvl & rec & Hp & _ & _ & Hdeg & Hs & Hl & Hr & Hb).
  exists p, c, fi, s, lvl, rec.
  split; [exact Hp|]. split; [exact Hdeg|]. split; [exact Hs|].
  split; [exact Hl|]. split; [exact Hr|].
  cbv zeta. unfold OV.post. fold f. rewrite Hb.
  destruct (CM.get_cached_analysis data_hash (OV.cache sv) f) as [cached|];
    [rewrite Hmiss|]; reflexivity.
Qed.

Lemma post_hit_value (data_hash : filing → string)
    (sv : OV.services) (req : OV.request) (clk : OV.clock)
    (cached : gmap string OV.rval) :
  CM.get_cached_analysis data_hash (OV.cache sv)
    (default ∅ (OV.req_filing_data req)) = Some cached →
  OV.dict_truthy cached = true →
  OV.post data_hash sv req clk =
    ({| OV.status := 200;
        OV.body :=
          <["processing_time_ms" :=
              OV.RInt (OV.py_int ((OV.t_end clk - OV.t_start clk) * 1000))]>
            (cached ∪ <["cached" := OV.RBool true]> (<["success" := OV.RBool true]> ∅)) |},
     {| OV.detector := OV.detector sv;
        OV.cache := OV.cache sv;
        OV.monitor :=
          PM.track_response_time
            (PM.record_cache_hit (OV.monitor sv)) "fraud_detection"
            (OV.t_end clk - OV.t_start clk) (OV.t_stamp clk) |}).
Proof.
  intros Hc Ht. unfold OV.post. rewrite Hc, Ht. reflexivity.
Qed.

(** On a cache miss the endpoint answers 200 with the ensemble score of
    the estimator's probability [p] with itself: it hands [p] to the
    ensemble as the rule score, so the score is [0.7 p + 0.3 p], that is
    [p] up to rounding, and the rule-based analyzer plays no part.  The
    level and the recommendation follow the thresholds 0.4 and 0.7 on
    the score returned, and the answer says [cached: False]. *)
Theorem optimized_endpoint_scores_by_estimator_alone
    (data_hash : filing → string)
    (sv : OV.services) (req : OV.request) (clk : OV.clock) :
  let f := default ∅ (OV.req_filing_data req) in
  let h := OV.req_taxpayer_history req in
  match CM.get_cached_analysis data_hash (OV.cache sv) f with
  | Some cached => OV.dict_truthy cached = false
  | None => True
  end →
  ∃ p d s lvl rec,
    AFD.predict (OV.detector sv) f h !! "fraud_probability" = Some (AFD.ONum p) ∧
    AFD.ensemble_predict (OV.detector sv) f h p = Ok d ∧
    d !! "ensemble_score" = Some (AFD.ONum s) ∧
    d !! "rule_based_score" = d !! "ml_score" ∧
    (0 <= p ∧ p <= 1 → Qabs (s - p) <= 0.000000001) ∧
    OV.status (OV.post data_hash sv req clk).1 = 200%Z ∧
    OV.body (OV.post data_hash sv req clk).1 !! "success" = Some (OV.RBool true) ∧
    OV.body (OV.post data_hash sv req clk).1 !! "cached" = Some (OV.RBool false) ∧
    OV.body (OV.post data_hash sv req clk).1 !! "risk_score"
      = Some (OV.ROut (AFD.ONum s)) ∧
    OV.body (OV.post data_hash sv req clk).1 !! "risk_level" = Some (OV.RStr lvl) ∧
    (lvl = "HIGH" ↔ 0.7 <= s) ∧
    (lvl = "MEDIUM" ↔ 0.4 <= s ∧ s < 0.7) ∧
    (lvl = "LOW" ↔ s < 0.4) ∧
    OV.body (OV.post data_hash sv req clk).1 !! "recommendation" = Some (OV.RStr rec) ∧
    OV._get_recommendation (AFD.ONum s) = Ok rec.
Proof.
  intros f h Hmiss.
  destruct (predict_entries (OV.detector sv) f h) as (p & _ & _ & Hp & _).
  destruct (ensemble_predict_value (OV.detector sv) f h p)
    as (p' & c & fi & Hp' & Hc & Hfi & _ & He).
  assert (p' = p) as -> by congruence.
  set (s := p * 0.7 + p * 0.3) in *.
  assert (Hs : s == p) by (subst s; ring).
  set (lvl := if Qle_bool 0.7 s then "HIGH"
              else if Qle_bool 0.4 s then "MEDIUM" else "LOW").
  set (rec := if Qle_bool 0.7 s
              then "Immediate manual review required - high fraud probability"
              else if Qle_bool 0.4 s
              then "Enhanced verification recommended - moderate risk"
              else "Standard processing - low risk detected").
  assert (Hbody : OV.analysis_body (OV.detector sv) f h =
            Ok (list_to_map
                  [ ("success", OV.RBool true);
                    ("cached", OV.RBool false);
                    ("risk_score", OV.ROut (AFD.ONum s));
                    ("risk_level", OV.RStr lvl);
                    ("ml_confidence", OV.ROut (AFD.ONum c));
                    ("feature_importance", OV.ROut (AFD.ODict fi));
                    ("analysis_method", OV.RStr "advanced_ensemble");
                    ("recommendation", OV.RStr rec) ])).
  { unfold OV.analysis_body, dict_getitem. rewrite Hp. cbn [bind AFD.out_num].
    rewrite He. cbn [bind].
    change (list_to_map _ !! "ensemble_score") with (Some (AFD.ONum s)).
    change (list_to_map _ !! "ml_confidence") with (Some (AFD.ONum c)).
    change (list_to_map _ !! "feature_importance") with (Some (AFD.ODict fi)).
    reflexivity. }
  assert (Hpost : (OV.post data_hash sv req clk).1 =
            {| OV.status := 200;
               OV.body :=
                 <["processing_time_ms" :=
                     OV.RInt (OV.py_int ((OV.t_end clk - OV.t_start clk) * 1000))]>
                   (list_to_map
                      [ ("success", OV.RBool true);
                        ("cached", OV.RBool false);
                        ("risk_score", OV.ROut (AFD.ONum s));
                        ("risk_level", OV.RStr lvl);
                        ("ml_confidence", OV.ROut (AFD.ONum c));
                        ("feature_importance", OV.ROut (AFD.ODict fi));
                        ("analysis_method", OV.RStr "advanced_ensemble");
                        ("recommendation", OV.RStr rec) ]) |}).
  { unfold OV.post. fold f. fold h. rewrite Hbody.
    destruct (CM.get_cached_analysis data_hash (OV.cache sv) f) as [cached|];
      [rewrite Hmiss|]; reflexivity. }
  rewrite Hpost. cbn [OV.status OV.body].
  exists p. eexists. exists s, lvl, rec.
  split; [exact Hp|]. split; [exact He|].
  do 2 (split; [reflexivity|]).
  split.
  { intros _. apply Qabs_Qle_condition. split; lra. }
  do 5 (split; [reflexivity|]).
  split; [|split; [|split; [|split; reflexivity]]];
    subst lvl;
    destruct (Qle_bool 0.7 s) eqn:E7; destruct (Qle_bool 0.4 s) eqn:E4;
    try apply Qle_bool_iff in E7; try apply Qle_bool_iff in E4;
    try apply Qle_bool_gt in E7; try apply Qle_bool_gt in E4;
    split; intros; try discriminate; try reflexivity; try lra;
    try (match goal with H : _ ∧ _ |- _ => destruct H end; lra).
Qed.

(** An estimator probability of 0.8 and an empty cache: level HIGH. *)
Lemma optimized_endpoint_scores_by_estimator_alone_witness :
  let out := OV.post toy_digest (fresh_services (constant_detector 0.8))
               (request_of high_risk_filing None) (clock_of 0 0.25) in
  OV.status out.1 = 200%Z ∧
  OV.body out.1 !! "risk_level" = Some (OV.RStr "HIGH").
Proof.
  destruct (optimized_endpoint_scores_by_estimator_alone toy_digest
              (fresh_services (constant_detector 0.8))
              (request_of high_risk_filing None) (clock_of 0 0.25))
    as (p & d & s & lvl & rec & Hp & He & Hs & _ & Htol & Hst & _ & _ & _ & Hlvl
        & Hhigh & _).
  - vm_compute. exact I.
  - cbv zeta. split; [exact Hst|].
    assert (Hl : lvl = "HIGH").
    { apply Hhigh. vm_compute in Hp. injection Hp as <-.
      assert (Hr : 0 <= 0.8 ∧ 0.8 <= 1) by (split; discriminate).
      apply Htol in Hr. apply Qabs_Qle_condition in Hr. lra. }
    rewrite Hl in Hlvl. exact Hlvl.
Defined.

(** The endpoint fails open.  When the estimator degrades on the filing
    (for instance because the income is not a number) and nothing is
    cached for it, the answer is still 200 with [success: True]: risk
    score 0, level LOW, confidence 0, and the recommendation "Standard
    processing - low risk detected".  That answer is then cached. *)
Theorem optimized_endpoint_fails_open
    (data_hash : filing → string)
    (sv : OV.services) (req : OV.request) (clk : OV.clock) :
  let f := default ∅ (OV.req_filing_data req) in
  match CM.get_cached_analysis data_hash (OV.cache sv) f with
  | Some cached => OV.dict_truthy cached = false
  | None => True
  end →
  degraded (AFD.predict (OV.detector sv) f (OV.req_taxpayer_history req)) →
  let out := OV.post data_hash sv req clk in
  OV.status out.1 = 200%Z ∧
  OV.body out.1 !! "success" = Some (OV.RBool true) ∧
  (∃ s, OV.body out.1 !! "risk_score" = Some (OV.ROut (AFD.ONum s)) ∧ s == 0) ∧
  OV.body out.1 !! "risk_level" = Some (OV.RStr "LOW") ∧
  OV.body out.1 !! "ml_confidence" = Some (OV.ROut (AFD.ONum 0)) ∧
  OV.body out.1 !! "feature_importance" = Some (OV.ROut (AFD.ODict ∅)) ∧
  OV.body out.1 !! "recommendation"
    = Some (OV.RStr "Standard processing - low risk detected") ∧
  OV.body out.1 !! "error" = None ∧
  (∃ cached, CM.get_cached_analysis data_hash (OV.cache out.2) f = Some cached ∧
             cached !! "risk_level" = Some (OV.RStr "LOW")).
Proof.
  intros f Hmiss Hdeg out.
  destruct (post_miss_value data_hash sv req clk Hmiss)
    as (p & c & fi & s & lvl & rec & Hp & Hzero & Hs & Hl & Hr & Hpost).
  fold f in Hp, Hzero. destruct (Hzero Hdeg) as (-> & -> & ->).
  injection Hl as <-. injection Hr as <-.
  subst out. cbv zeta in Hpost. rewrite Hpost.
  cbn [fst snd OV.status OV.body OV.cache].
  split; [reflexivity|]. split; [reflexivity|].
  split; [exists s; split; [reflexivity | exact Hs]|].
  do 5 (split; [reflexivity|]).
  eexists. split.
  - unfold CM.get_cached_analysis, CM.cache_get, CM.cache_set. fold f.
    rewrite lookup_insert_eq. reflexivity.
  - reflexivity.
Qed.

(** A filing whose income is a string, on an empty cache: the answer
    is 200 and LOW. *)
Lemma optimized_endpoint_fails_open_witness :
  let out := OV.post toy_digest (fresh_services (constant_detector 0.8))
               (request_of malformed_filing None) (clock_of 0 0.25) in
  OV.status out.1 = 200%Z ∧
  OV.body out.1 !! "success" = Some (OV.RBool true) ∧
  OV.body out.1 !! "risk_level" = Some (OV.RStr "LOW").
Proof.
  destruct (optimized_endpoint_fails_open toy_digest
              (fresh_services (constant_detector 0.8))
              (request_of malformed_filing None) (clock_of 0 0.25))
    as (Hst & Hsucc & _ & Hlvl & _).
  - vm_compute. exact I.
  - eexists. vm_compute. reflexivity.
  - cbv zeta. split; [exact Hst|]. split; [exact Hsucc | exact Hlvl].
Defined.

(** A stored answer is served whatever accompanies the filing.  When
    the cache holds a non-empty answer under the key of the filing, the
    endpoint returns it with status 200 without consulting the detector
    or the history: every entry of the stored answer is returned as it
    is, except [processing_time_ms], which is set anew.  The flag
    [cached: True] of the response literal is overridden by the stored
    entries, so an answer stored with [cached: False] is served with
    [cached: False].  The cache is left as it was and one hit is
    counted. *)
Theorem optimized_endpoint_serves_cached_answer
    (data_hash : filing → string)
    (sv : OV.services) (req : OV.request) (clk : OV.clock)
    (cached : gmap string OV.rval) :
  CM.get_cached_analysis data_hash (OV.cache sv)
    (default ∅ (OV.req_filing_data req)) = Some cached →
  OV.dict_truthy cached = true →
  let out := OV.post data_hash sv req clk in
  OV.status out.1 = 200%Z ∧
  (∀ k v, k ≠ "processing_time_ms" → cached !! k = Some v →
          OV.body out.1 !! k = Some v) ∧
  OV.body out.1 !! "processing_time_ms"
    = Some (OV.RInt (OV.py_int ((OV.t_end clk - OV.t_start clk) * 1000))) ∧
  (cached !! "cached" = None → OV.body out.1 !! "cached" = Some (OV.RBool true)) ∧
  OV.cache out.2 = OV.cache sv ∧
  OV.detector out.2 = OV.detector sv ∧
  PM.cache_hits (OV.monitor out.2) = (PM.cache_hits (OV.monitor sv) + 1)%Z ∧
  PM.cache_misses (OV.monitor out.2) = PM.cache_misses (OV.monitor sv) ∧
  (∀ (self' : AFD.detector) (h' : option (list filing)),
     (OV.post data_hash
        {| OV.detector := self'; OV.cache := OV.cache sv; OV.monitor := OV.monitor sv |}
        {| OV.req_filing_data := OV.req_filing_data req;
           OV.req_taxpayer_history := h' |} clk).1
     = out.1).
Proof.
  intros Hc Ht out. subst out.
  rewrite (post_hit_value data_hash sv req clk cached Hc Ht).
  cbn [fst snd OV.status OV.body OV.cache OV.detector OV.monitor].
  split; [reflexivity|].
  split.
  { intros k v Hk Hv. rewrite lookup_insert_ne by congruence.
    apply lookup_union_Some_l. exact Hv. }
  split; [apply lookup_insert_eq|].
  split.
  { intros Hn. rewrite lookup_insert_ne by discriminate.
    rewrite lookup_union_r by exact Hn. reflexivity. }
  split; [reflexivity|]. split; [reflexivity|].
  destruct (track_response_time_spec (PM.record_cache_hit (OV.monitor sv))
              "fraud_detection" (OV.t_end clk - OV.t_start clk) (OV.t_stamp clk))
    as (_ & _ & _ & Hh & Hm & _).
  cbv zeta in Hh, Hm. rewrite Hh, Hm.
  split; [reflexivity|]. split; [reflexivity|].
  intros self' h'.
  rewrite (post_hit_value data_hash _ _ clk cached); [reflexivity | exact Hc | exact Ht].
Qed.

(** A repeated filing.  After the endpoint has answered a filing from a
    fresh analysis, a second request for a filing with the same digest
    is answered from the cache, whatever history it carries: the body is
    the first body with a new [processing_time_ms], it still says
    [cached: False], the cache is not written again, and the monitor
    counts one miss and then one hit. *)
Theorem optimized_endpoint_repeated_filing
    (data_hash : filing → string)
    (sv : OV.services) (f f2 : filing) (h1 h2 : option (list filing))
    (clk1 clk2 : OV.clock) :
  match CM.get_cached_analysis data_hash (OV.cache sv) f with
  | Some cached => OV.dict_truthy cached = false
  | None => True
  end →
  data_hash f2 = data_hash f →
  let first := OV.post data_hash sv (request_of f h1) clk1 in
  let second := OV.post data_hash first.2 (request_of f2 h2) clk2 in
  OV.status second.1 = 200%Z ∧
  OV.body second.1
    = <["processing_time_ms" :=
          OV.RInt (OV.py_int ((OV.t_end clk2 - OV.t_start clk2) * 1000))]>
        (OV.body first.1) ∧
  OV.body second.1 !! "cached" = Some (OV.RBool false) ∧
  OV.cache second.2 = OV.cache first.2 ∧
  PM.cache_misses (OV.monitor second.2) = (PM.cache_misses (OV.monitor sv) + 1)%Z ∧
  PM.cache_hits (OV.monitor second.2) = (PM.cache_hits (OV.monitor sv) + 1)%Z.
Proof.
  intros Hmiss Hdig first second.
  destruct (post_miss_value data_hash sv (request_of f h1) clk1 Hmiss)
    as (p & c & fi & s & lvl & rec & _ & _ & _ & _ & _ & Hpost).
  cbv zeta in Hpost. cbn [request_of OV.req_filing_data default from_option id] in Hpost.
  match type of Hpost with
  | context [CM.cache_set _ _ ?d _] => set (data := d) in *
  end.
  assert (Hfirst : first = _) by exact Hpost. clearbody first.
  assert (Hget : CM.get_cached_analysis data_hash (OV.cache first.2)
                   (default ∅ (OV.req_filing_data (request_of f2 h2))) = Some data).
  { rewrite Hfirst. cbn [snd OV.cache request_of OV.req_filing_data default
                         from_option id].
    unfold CM.get_cached_analysis, CM.cache_get, CM.cache_set.
    rewrite (proj2 (generate_cache_key_eq data_hash "fraud_analysis" f2 f) Hdig).
    rewrite lookup_insert_eq. reflexivity. }
  assert (Htruthy : OV.dict_truthy data = true) by reflexivity.
  subst second.
  rewrite (post_hit_value data_hash first.2 (request_of f2 h2) clk2 data Hget Htruthy).
  cbn [fst snd OV.status OV.body OV.cache OV.monitor].
  assert (Hunion : data ∪ <["cached" := OV.RBool true]> (<["success" := OV.RBool true]> ∅)
                   = data).
  { apply map_eq. intros k.
    destruct (data !! k) as [v|] eqn:Ek.
    - apply lookup_union_Some_l. exact Ek.
    - rewrite lookup_union_r by exact Ek.
      destruct (decide (k = "cached")) as [->|Hk1]; [discriminate Ek|].
      destruct (decide (k = "success")) as [->|Hk2]; [discriminate Ek|].
      rewrite lookup_insert_ne, lookup_insert_ne, lookup_empty by congruence.
      reflexivity. }
  rewrite Hunion.
  split; [reflexivity|].
  split; [rewrite Hfirst; cbn [fst OV.body]; rewrite insert_insert_eq; reflexivity|].
  split; [reflexivity|]. split; [reflexivity|].
  destruct (track_response_time_spec (PM.record_cache_hit (OV.monitor first.2))
              "fraud_detection" (OV.t_end clk2 - OV.t_start clk2) (OV.t_stamp clk2))
    as (_ & _ & _ & Hh & Hm & _).
  cbv zeta in Hh, Hm. rewrite Hh, Hm.
  rewrite Hfirst. cbn [snd OV.monitor PM.record_cache_hit PM.cache_hits PM.cache_misses].
  destruct (track_response_time_spec (PM.record_cache_miss (OV.monitor sv))
              "fraud_detection" (OV.t_end clk1 - OV.t_start clk1) (OV.t_stamp clk1))
    as (_ & _ & _ & Hh1 & Hm1 & _).
  cbv zeta in Hh1, Hm1. rewrite Hh1, Hm1. split; reflexivity.
Qed.

(** Whatever the request and the state of the cache, the endpoint
    answers with status 200: no filing content reaches its [except]
    branch.  Each call leaves the detector untouched, counts exactly one
    cache lookup (a hit or a miss) and records exactly one response
    time, the list staying within 1000 records. *)
Theorem optimized_endpoint_always_answers
    (data_hash : filing → string)
    (sv : OV.services) (req : OV.request) (clk : OV.clock) :
  let out := OV.post data_hash sv req clk in
  OV.status out.1 = 200%Z ∧
  OV.detector out.2 = OV.detector sv ∧
  (PM.cache_hits (OV.monitor out.2) + PM.cache_misses (OV.monitor out.2)
   = PM.cache_hits (OV.monitor sv) + PM.cache_misses (OV.monitor sv) + 1)%Z ∧
  last (PM.response_times (OV.monitor out.2))
    = Some {| PM.rr_endpoint := "fraud_detection";
              PM.rr_response_time := OV.t_end clk - OV.t_start clk;
              PM.rr_timestamp := OV.t_stamp clk |} ∧
  (length (PM.response_times (OV.monitor out.2)) <= 1000)%nat.
Proof.
  intros out. subst out.
  assert (Hcase :
    (∃ cached, CM.get_cached_analysis data_hash (OV.cache sv)
                 (default ∅ (OV.req_filing_data req)) = Some cached ∧
               OV.dict_truthy cached = true) ∨
    match CM.get_cached_analysis data_hash (OV.cache sv)
            (default ∅ (OV.req_filing_data req)) with
    | Some cached => OV.dict_truthy cached = false
    | None => True
    end).
  { destruct (CM.get_cached_analysis _ _ _) as [cached|]; [|auto].
    destruct (OV.dict_truthy cached) eqn:E; eauto. }
  destruct Hcase as [(cached & Hc & Ht) | Hmiss].
  - rewrite (post_hit_value data_hash sv req clk cached Hc Ht).
    cbn [fst snd OV.status OV.detector OV.monitor].
    destruct (track_response_time_spec (PM.record_cache_hit (OV.monitor sv))
                "fraud_detection" (OV.t_end clk - OV.t_start clk) (OV.t_stamp clk))
      as (Hlen & Hlast & _ & Hh & Hm & _).
    cbv zeta in *. rewrite Hh, Hm, Hlast, Hlen.
    cbn [PM.record_cache_hit PM.cache_hits PM.cache_misses].
    repeat split; lia.
  - destruct (post_miss_value data_hash sv req clk Hmiss)
      as (p & c & fi & s & lvl & rec & _ & _ & _ & _ & _ & Hpost).
    cbv zeta in Hpost. rewrite Hpost.
    cbn [fst snd OV.status OV.detector OV.monitor].
    destruct (track_response_time_spec (PM.record_cache_miss (OV.monitor sv))
                "fraud_detection" (OV.t_end clk - OV.t_start clk) (OV.t_stamp clk))
      as (Hlen & Hlast & _ & Hh & Hm & _).
    cbv zeta in *. rewrite Hh, Hm, Hlast, Hlen.
    cbn [PM.record_cache_miss PM.cache_hits PM.cache_misses].
    repeat split; lia.
Qed.

(** A stored answer without a [cached] entry is served with
    [cached: True]; the detector is not consulted. *)
Lemma optimized_endpoint_serves_cached_answer_witness :
  let stored : gmap string OV.rval := <["risk_level" := OV.RStr "HIGH"]> ∅ in
  let out := OV.post toy_digest
               (warm_services (constant_detector 0.1) high_risk_filing stored)
               (request_of high_risk_filing None) (clock_of 0 0.25) in
  OV.status out.1 = 200%Z ∧
  OV.body out.1 !! "risk_level" = Some (OV.RStr "HIGH") ∧
  OV.body out.1 !! "cached" = Some (OV.RBool true).
Proof.
  cbv zeta.
  destruct (optimized_endpoint_serves_cached_answer toy_digest
              (warm_services (constant_detector 0.1) high_risk_filing
                 (<["risk_level" := OV.RStr "HIGH"]> ∅))
              (request_of high_risk_filing None) (clock_of 0 0.25)
              (<["risk_level" := OV.RStr "HIGH"]> ∅))
    as (Hst & Hkeep & _ & Hflag & _).
  - vm_compute. reflexivity.
  - reflexivity.
  - split; [exact Hst|]. split.
    + apply Hkeep; [discriminate | reflexivity].
    + apply Hflag. reflexivity.
Defined.

(** The same filing twice, the second time with a history. *)
Lemma optimized_endpoint_repeated_filing_witness :
  let first := OV.post toy_digest (fresh_services (constant_detector 0.8))
                 (request_of high_risk_filing None) (clock_of 0 0.25) in
  let second := OV.post toy_digest first.2
                  (request_of high_risk_filing (Some one_prior_filing))
                  (clock_of 1 1.5) in
  OV.status second.1 = 200%Z ∧
  OV.body second.1 !! "cached" = Some (OV.RBool false) ∧
  PM.cache_hits (OV.monitor second.2) = 1%Z.
Proof.
  destruct (optimized_endpoint_repeated_filing toy_digest
              (fresh_services (constant_detector 0.8))
              high_risk_filing high_risk_filing None (Some one_prior_filing)
              (clock_of 0 0.25) (clock_of 1 1.5))
    as (Hst & _ & Hflag & _ & _ & Hhits).
  - vm_compute. exact I.
  - reflexivity.
  - cbv zeta. split; [exact Hst|]. split; [exact Hflag | exact Hhits].
Defined.

(** ** The boundary cases in binary64 *)

Module Binary64Checks.
Import PrimFloat SpecFloat FloatOps FloatAxioms.
Set Warnings "-inexact-float".
Local Open Scope float_scope.

(** The ensemble flag at the boundary: probability and rule score 0.6
    give the double nearest to 0.6, which is not above the threshold;
    0.60001 is flagged. *)
Example binary64_ensemble_boundary :
  Binary64.final_prediction 0.6 0.6 = false ∧
  Binary64.final_prediction 0.60001 0.60001 = true.
Proof. split; vm_compute; reflexivity. Qed.

Example binary64_risk_levels :
  Binary64._get_risk_level 0.3999 = "LOW" ∧
  Binary64._get_risk_level 0.4 = "MEDIUM" ∧
  Binary64._get_risk_level 0.6999 = "MEDIUM" ∧
  Binary64._get_risk_level 0.7 = "HIGH".
Proof. repeat split; vm_compute; reflexivity. Qed.

(** With up to five factors the confidence computed on doubles is at
    least 0.75 (exactly 0.75 at five) and the floor is not selected. *)
Example binary64_confidence :
  Forall (λ n, leb 0.75 (Binary64.confidence n) = true ∧
               ltb 0.7 (Binary64.confidence n) = true)
         [0; 1; 2; 3; 4; 5]%nat ∧
  eqb (Binary64.confidence 5) 0.75 = true.
Proof.
  split; [|vm_compute; reflexivity].
  repeat constructor; vm_compute; reflexivity.
Qed.

(** The high-risk scenario on doubles: the aggregate of the three
    findings is about 0.42, level MEDIUM. *)
Example binary64_high_risk_scenario :
  Binary64._get_risk_level
    (Binary64.aggregate [(0.4, 0.3); (0.9, 0.25); (0.5, 0.15)]) = "MEDIUM".
Proof. vm_compute. reflexivity. Qed.

(** The ensemble of a probability with itself, as the cached endpoint
    computes its score: at 0.4 the float sum is below 0.4, so the two
    tests [>= 0.7] and [>= 0.4] (the same in both [_get_risk_level]
    methods) give LOW. *)
Example binary64_self_ensemble :
  (Binary64.ensemble_score 0.4 0.4 =? 0.39999999999999997) = true ∧
  Binary64._get_risk_level (Binary64.ensemble_score 0.4 0.4) = "LOW" ∧
  Binary64._get_risk_level (Binary64.ensemble_score 0.8 0.8) = "HIGH".
Proof. vm_compute. repeat split. Qed.

(** *** The order on floats

    The comparisons of binary64, from their specification on
    [spec_float]: the order on the floats that are not NaN is total and
    transitive. *)

Lemma SFcompare_antisym (a b : spec_float) (c : comparison) :
  SFcompare a b = Some c → SFcompare b a = Some (CompOpp c).
Proof.
  destruct a as [sa|sa| |sa ma ea], b as [sb|sb| |sb mb eb]; cbn;
    try discriminate;
    try (intros [= <-]; repeat match goal with s : bool |- _ => destruct s end;
         reflexivity).
  intros [= <-]. f_equal.
  rewrite (Z.compare_antisym ea eb).
  change (Pos.compare_cont Eq mb ma) with (Pos.compare mb ma).
  change (Pos.compare_cont Eq ma mb) with (Pos.compare ma mb).
  rewrite (Pos.compare_antisym ma mb).
  destruct sa, sb; cbn; try reflexivity;
    destruct (ea ?= eb)%Z; cbn; try reflexivity;
    destruct (ma ?= mb)%positive; reflexivity.
Qed.

Lemma SFcompare_None (a b : spec_float) :
  SFcompare a b = None ↔ a = S754_nan ∨ b = S754_nan.
Proof.
  destruct a as [sa|sa| |sa ma ea], b as [sb|sb| |sb mb eb]; cbn;
    split; intros H; try discriminate; auto;
    try (destruct H as [H|H]; discriminate).
Qed.

(** The order on the floats that are not NaN is transitive. *)
Lemma SFcompare_trans_lt_le (a b c : spec_float) (k : comparison) :
  SFcompare a b = Some Lt → SFcompare b c = Some k → k ≠ Gt →
  SFcompare a c = Some Lt.
Proof.
  destruct a as [sa|sa| |sa ma ea], b as [sb|sb| |sb mb eb],
           c as [sc|sc| |sc mc ec]; cbn;
    try discriminate;
    try (repeat match goal with s : bool |- _ => destruct s end;
         cbn; intros; congruence).
  change (Pos.compare_cont Eq ma mb) with (Pos.compare ma mb).
  change (Pos.compare_cont Eq mb mc) with (Pos.compare mb mc).
  change (Pos.compare_cont Eq ma mc) with (Pos.compare ma mc).
  destruct sa, sb, sc; cbn; intros H1 H2 Hk;
    try discriminate; try reflexivity; f_equal;
    destruct (Z.compare_spec ea eb), (Z.compare_spec eb ec),
             (Z.compare_spec ea ec);
    cbn in *; try discriminate; try reflexivity; try congruence; try lia;
    destruct (Pos.compare_spec ma mb), (Pos.compare_spec mb mc),
             (Pos.compare_spec ma mc);
    cbn in *; try discriminate; try reflexivity; try congruence; try lia.
Qed.


Lemma ltb_Some (x y : float) :
  (x <? y) = true ↔ SFcompare (Prim2SF x) (Prim2SF y) = Some Lt.
Proof.
  rewrite ltb_spec. unfold SFltb.
  destruct (SFcompare _ _) as [[| |]|]; split; intros; congruence.
Qed.

Lemma leb_Some (x y : float) :
  (x <=? y) = true ↔
  ∃ k, SFcompare (Prim2SF x) (Prim2SF y) = Some k ∧ k ≠ Gt.
Proof.
  rewrite leb_spec. unfold SFleb.
  destruct (SFcompare _ _) as [[| |]|]; split;
    try (intros _; eexists; split; [reflexivity | discriminate]);
    try reflexivity; try discriminate;
    intros (k & [= <-] & Hk); congruence.
Qed.

(** [x < y] excludes [y <= x]. *)
Lemma leb_not_ltb (x y : float) : (y <=? x) = true → (x <? y) = false.
Proof.
  intros H. apply leb_Some in H as (k & Hc & Hk).
  destruct (x <? y) eqn:E; [|reflexivity].
  apply ltb_Some in E. apply SFcompare_antisym in E. cbn in E. congruence.
Qed.

(** A float that takes part in a true comparison is not NaN. *)
Lemma ltb_not_nan (x y : float) :
  (x <? y) = true → Prim2SF x ≠ S754_nan ∧ Prim2SF y ≠ S754_nan.
Proof.
  intros H. apply ltb_Some in H.
  split; intros Hn; rewrite Hn in H;
    [|destruct (Prim2SF x)]; discriminate.
Qed.

(** On floats that are not NaN, [¬ (x < y)] is [y <= x]. *)
Lemma not_ltb_leb (x y : float) :
  Prim2SF x ≠ S754_nan → Prim2SF y ≠ S754_nan →
  (x <? y) = false → (y <=? x) = true.
Proof.
  intros Hx Hy H.
  destruct (SFcompare (Prim2SF x) (Prim2SF y)) as [k|] eqn:E.
  - apply leb_Some. exists (CompOpp k).
    split; [apply SFcompare_antisym; exact E|].
    destruct k; cbn; try discriminate.
    apply ltb_Some in E. congruence.
  - apply SFcompare_None in E. tauto.
Qed.

(** [x <= a < b] excludes [b < x]. *)
Lemma leb_ltb_not_ltb (x a b : float) :
  (x <=? a) = true → (a <? b) = true → (b <? x) = false.
Proof.
  intros H1 H2. destruct (b <? x) eqn:E; [|reflexivity].
  apply leb_Some in H1 as (k & Hc & Hk).
  apply ltb_Some in H2. apply ltb_Some in E.
  pose proof (SFcompare_trans_lt_le _ _ _ _ E Hc Hk) as Hba.
  apply SFcompare_antisym in H2. cbn in H2. congruence.
Qed.

(** *** The deduction-ratio check on floats *)

(** Two float literals that differ as floats. *)
Lemma float_neq (x y : float) : Leibniz.eqb x y = false → x ≠ y.
Proof.
  intros H E. apply FloatAxioms.Leibniz.eqb_spec in E. congruence.
Qed.

(** C7.  For every float [r] (NaN and the infinities included) and every
    sector with typical ratio [t], the check returns one finding, that
    of the first tier that matches: risk 0.9 iff [r > 0.7], 0.6 iff
    [0.5 < r <= 0.7], 0.3 iff [t + 0.1 < r <= 0.5], and 0 iff no tier
    matches.  The comparisons and the sum [t + 0.1] are the code's, in
    binary64. *)
Theorem deduction_ratio_first_match (r : float) (sector : string) :
  let t := Binary64.sd_deduction_ratio
             (default (Binary64.industry_averages !!! "services")
                      (Binary64.industry_averages !! sector)) in
  let k := Binary64.risk (Binary64._check_deduction_ratio r sector) in
  (k = 0.9 ↔ (0.7 <? r) = true) ∧
  (k = 0.6 ↔ (0.5 <? r) = true ∧ (r <=? 0.7) = true) ∧
  (k = 0.3 ↔ (t + 0.1 <? r) = true ∧ (r <=? 0.5) = true) ∧
  (k = 0 ↔ (0.7 <? r) = false ∧ (0.5 <? r) = false ∧ (t + 0.1 <? r) = false).
Proof.
  intros t k. subst k. unfold Binary64._check_deduction_ratio. fold t.
  assert (N96 : 0.9 ≠ 0.6) by (apply float_neq; reflexivity).
  assert (N93 : 0.9 ≠ 0.3) by (apply float_neq; reflexivity).
  assert (N90 : 0.9 ≠ 0) by (apply float_neq; reflexivity).
  assert (N63 : 0.6 ≠ 0.3) by (apply float_neq; reflexivity).
  assert (N60 : 0.6 ≠ 0) by (apply float_neq; reflexivity).
  assert (N30 : 0.3 ≠ 0) by (apply float_neq; reflexivity).
  assert (C5 : Prim2SF 0.5 ≠ S754_nan) by (vm_compute; discriminate).
  assert (C7 : Prim2SF 0.7 ≠ S754_nan) by (vm_compute; discriminate).
  assert (L57 : (0.5 <? 0.7) = true) by reflexivity.
  destruct (0.7 <? r) eqn:E7; [|destruct (0.5 <? r) eqn:E5;
    [|destruct (t + 0.1 <? r) eqn:Et]]; cbn [Binary64.risk Binary64.no_finding].
  - (* r > 0.7 *)
    pose proof (leb_not_ltb 0.7 r) as H7.
    pose proof (leb_ltb_not_ltb r 0.5 0.7) as H5.
    repeat split; intros; try congruence; try tauto;
      repeat match goal with H : _ ∧ _ |- _ => destruct H end;
      try congruence; intuition congruence.
  - (* 0.5 < r, not r > 0.7 *)
    destruct (ltb_not_nan _ _ E5) as [_ Hr].
    pose proof (not_ltb_leb 0.7 r C7 Hr E7) as H7.
    pose proof (leb_not_ltb 0.5 r) as H5.
    repeat split; intros; try congruence; try tauto;
      repeat match goal with H : _ ∧ _ |- _ => destruct H end;
      try congruence; intuition congruence.
  - (* t + 0.1 < r, not r > 0.5 *)
    destruct (ltb_not_nan _ _ Et) as [_ Hr].
    pose proof (not_ltb_leb 0.5 r C5 Hr E5) as H5.
    repeat split; intros; try congruence; try tauto;
      repeat match goal with H : _ ∧ _ |- _ => destruct H end;
      try congruence; intuition congruence.
  - repeat split; intros; try congruence; try tauto;
      repeat match goal with H : _ ∧ _ |- _ => destruct H end;
      try congruence; intuition congruence.
Qed.

(** The thresholds of the lowest tier, as binary64 computes them.  For
    retail the sum is the float below 0.45, so a ratio of 0.45 (income
    20000, deductions 9000) is above it and is reported; for agriculture
    it is the float above 0.42, so a ratio equal to that float is not
    reported and the next float is.  A NaN ratio matches no tier. *)
Example binary64_deduction_thresholds :
  (0.35 + 0.1 =? 0.44999999999999996) = true ∧
  (0.28 + 0.1 =? 0.38) = true ∧
  (0.42 + 0.1 =? 0.52) = true ∧
  (0.38 + 0.1 =? 0.48) = true ∧
  (0.32 + 0.1 =? 0.42000000000000004) = true ∧
  Binary64._check_deduction_ratio (9000 / 20000) "retail"
    = {| Binary64.risk := 0.3;
         Binary64.reason := "Above average deduction ratio for retail sector" |} ∧
  Binary64._check_deduction_ratio 0.42000000000000004 "agriculture"
    = Binary64.no_finding ∧
  Binary64.risk (Binary64._check_deduction_ratio 0.4200000000000001 "agriculture")
    = 0.3 ∧
  Binary64._check_deduction_ratio (0 / 0) "retail" = Binary64.no_finding ∧
  Binary64.reason (Binary64._check_deduction_ratio (8000 / 10000) "retail")
    = "Deductions represent 80.0% of income (typical: 35.0%)".
Proof. vm_compute. repeat split. Qed.

End Binary64Checks.
